(** * Feature-engineering pipeline of [utils/preprocess.py]

    A shallow embedding of [FeatureEngineeringCLI] (label mapping, outlier
    removal, scaler recommendation and scaling, the [perform_eda]
    orchestration) and the properties stated about it.

    Numbers.  A pandas/NumPy [float64] cell is modelled as a real number or
    the missing-value marker [NaN]; the arithmetic on cells is exact,
    comparisons against [NaN] are false, as in IEEE 754.  Overflow,
    infinities and rounding of that arithmetic are outside the model.  The
    one place where the code compares a computed quantity with a sharp
    threshold, the z-scores against 3, takes the z-scores as the binary64
    numbers the library returns.

    Effects.  The instance fields that the methods mutate, the directory
    [models/] and the three joblib files under it form an explicit world
    that every method threads; a raised Python exception ends the method
    with [Raise].  Logging is left out.

    Frames.  A DataFrame is an index and a list of named, typed columns;
    column names are taken to be distinct.  Parquet input, the decision-tree
    pipeline, the train/test split, the shuffle order, SciPy's z-score and
    the table of [dga_mapping.py] are parameters of the orchestration. *)

From Stdlib Require Import Floats.
From Stdlib Require Import Reals Lra Lia String Ascii ZArith Bool List Permutation.
Import ListNotations.

Set Implicit Arguments.

(** ** Python exceptions and results *)

Inductive exn : Type :=
| ValueError (msg : string)
| AttributeError (msg : string)
| KeyError (msg : string)
| IndexError (msg : string)
| TypeError (msg : string)
| FileNotFoundError (msg : string).

Inductive result (A : Type) : Type :=
| Ok (a : A)
| Raise (e : exn).

Arguments Raise {A} e.

Definition rbind {A B} (r : result A) (k : A -> result B) : result B :=
  match r with
  | Ok a => k a
  | Raise e => Raise e
  end.

Declare Scope res_scope.
Delimit Scope res_scope with res.
Notation "x <- r ;; k" := (rbind r (fun x => k))
  (at level 61, r at next level, right associativity) : res_scope.

Fixpoint mapM {A B} (f : A -> result B) (l : list A) : result (list B) :=
  match l with
  | [] => Ok []
  | a :: l' =>
      match f a with
      | Raise e => Raise e
      | Ok b => match mapM f l' with
                | Raise e => Raise e
                | Ok bs => Ok (b :: bs)
                end
      end
  end.

(** ** float64 *)

Inductive float64 : Type :=
| Num (x : R)
| NaN.

Definition Rltb (x y : R) : bool := if Rlt_dec x y then true else false.

(** [a < b] and [a > b] on floats: false as soon as one side is [NaN]. *)
Definition flt (a b : float64) : bool :=
  match a, b with
  | Num x, Num y => Rltb x y
  | _, _ => false
  end.

Definition fgt (a b : float64) : bool := flt b a.

(** [a <= b] as a proposition: it holds between numbers only. *)
Definition fle (a b : float64) : Prop :=
  match a, b with
  | Num x, Num y => (x <= y)%R
  | _, _ => False
  end.

Definition isnan (a : float64) : bool :=
  match a with NaN => true | Num _ => false end.

Definition fmap1 (f : R -> R) (a : float64) : float64 :=
  match a with Num x => Num (f x) | NaN => NaN end.

Definition fmap2 (f : R -> R -> R) (a b : float64) : float64 :=
  match a, b with
  | Num x, Num y => Num (f x y)
  | _, _ => NaN
  end.

Definition fsub := fmap2 Rminus.
Definition fadd := fmap2 Rplus.
Definition fmul := fmap2 Rmult.

(** Division as NumPy does it on finite numbers: [0/0] is [NaN]; a non-zero
    numerator over [0] is an infinity, which the model has no value for and
    which no function below produces on the inputs considered. *)
Definition fdiv (a b : float64) : float64 :=
  match a, b with
  | Num x, Num y => if Req_dec_T y 0 then NaN else Num (x / y)
  | _, _ => NaN
  end.

(** ** Python strings *)

Definition startswith (s p : string) : bool := String.prefix p s.

Definition lower_ascii (c : ascii) : ascii :=
  let n := nat_of_ascii c in
  if (65 <=? n)%nat && (n <=? 90)%nat then ascii_of_nat (n + 32) else c.

(** [str.lower] on ASCII text. *)
Fixpoint lower (s : string) : string :=
  match s with
  | EmptyString => EmptyString
  | String c s' => String (lower_ascii c) (lower s')
  end.

(** [s.split(":")]: the segments between colons, never an empty list. *)
Fixpoint split_colon_aux (s : string) (cur : string) : list string :=
  match s with
  | EmptyString => [cur]
  | String c s' =>
      if Ascii.eqb c ":"%char then cur :: split_colon_aux s' EmptyString
      else split_colon_aux s' (String.append cur (String c EmptyString))
  end.

Definition split_colon (s : string) : list string := split_colon_aux s EmptyString.

(** ** Python dict: insertion-ordered association list with unique keys *)

Section Dict.
Variable V : Type.

Definition dict := list (string * V).

Fixpoint dict_get (d : dict) (k : string) : option V :=
  match d with
  | [] => None
  | (k', v) :: d' => if String.eqb k k' then Some v else dict_get d' k
  end.

(** [d[k] = v]: overwrite in place, or append a new key last. *)
Fixpoint dict_set (d : dict) (k : string) (v : V) : dict :=
  match d with
  | [] => [(k, v)]
  | (k', v') :: d' =>
      if String.eqb k k' then (k', v) :: d' else (k', v') :: dict_set d' k v
  end.

Definition dict_get_default (d : dict) (k : string) (dflt : V) : V :=
  match dict_get d k with Some v => v | None => dflt end.
End Dict.

(** ** pandas Series and DataFrame *)

(** A cell of an [object] column: a string, [None], or a number put there by
    [fillna]. *)
Inductive pyobj : Type :=
| PStr (s : string)
| PNone
| PNum (x : R).

(** The data of one column, by dtype.  Integer columns are numeric columns
    whose cells are integral reals.  Temporal dtypes ([timedelta64],
    [datetime64]) are not modelled: [perform_eda] turns them into numbers
    before any stage considered here. *)
Inductive values : Type :=
| float64s (xs : list float64)
| bools (bs : list bool)
| objects (os : list pyobj).

Definition nrows (v : values) : nat :=
  match v with
  | float64s xs => length xs
  | bools bs => length bs
  | objects os => length os
  end.

Record DataFrame : Type := mkDataFrame {
  index : list Z;
  columns : list (string * values)
}.

(** A Series of class ids with its index (the label vector). *)
Record Series : Type := mkSeries {
  sindex : list Z;
  svalues : list Z
}.

Definition column_names (df : DataFrame) : list string := map fst (columns df).

Definition has_column (df : DataFrame) (c : string) : bool :=
  existsb (String.eqb c) (column_names df).

(** [df[c]] for a column name [c]. *)
Fixpoint get_column (cols : list (string * values)) (c : string) : option values :=
  match cols with
  | [] => None
  | (n, v) :: cols' => if String.eqb c n then Some v else get_column cols' c
  end.

(** Keep the positions whose mask bit is set. *)
Fixpoint keep_rows {A} (mask : list bool) (l : list A) : list A :=
  match mask, l with
  | b :: mask', a :: l' => if b then a :: keep_rows mask' l' else keep_rows mask' l'
  | _, _ => []
  end.

Definition keep_values (mask : list bool) (v : values) : values :=
  match v with
  | float64s xs => float64s (keep_rows mask xs)
  | bools bs => bools (keep_rows mask bs)
  | objects os => objects (keep_rows mask os)
  end.

Definition mem_Z (i : Z) (l : list Z) : bool := existsb (Z.eqb i) l.

(** [df.drop(labels)] on the row axis: every row whose index label is listed
    goes; a listed label that is not in the index is a [KeyError]. *)
Definition drop_mask (idx labels : list Z) : list bool :=
  map (fun i => negb (mem_Z i labels)) idx.

Definition labels_found (idx labels : list Z) : bool :=
  forallb (fun l => mem_Z l idx) labels.

Definition df_drop_rows (df : DataFrame) (labels : list Z) : result DataFrame :=
  if labels_found (index df) labels then
    let mask := drop_mask (index df) labels in
    Ok (mkDataFrame (keep_rows mask (index df))
                    (map (fun c => (fst c, keep_values mask (snd c))) (columns df)))
  else Raise (KeyError "not found in axis").

Definition series_drop_rows (s : Series) (labels : list Z) : result Series :=
  if labels_found (sindex s) labels then
    let mask := drop_mask (sindex s) labels in
    Ok (mkSeries (keep_rows mask (sindex s)) (keep_rows mask (svalues s)))
  else Raise (KeyError "not found in axis").

(** ** Column statistics *)

(** The non-missing values of a numeric column ([skipna=True]). *)
Fixpoint dropna (xs : list float64) : list R :=
  match xs with
  | [] => []
  | Num x :: xs' => x :: dropna xs'
  | NaN :: xs' => dropna xs'
  end.

Definition Rsum (l : list R) : R := fold_right Rplus 0%R l.

(** [Series.mean()]: the mean of the non-missing values, [NaN] when none. *)
Definition mean (xs : list float64) : float64 :=
  match dropna xs with
  | [] => NaN
  | l => Num (Rsum l / INR (length l))
  end.

Definition sum_sq_dev (m : R) (l : list R) : R :=
  Rsum (map (fun x => (x - m) * (x - m))%R l).

(** [Series.std()]: the sample standard deviation ([ddof=1]) of the
    non-missing values, [NaN] with fewer than two of them. *)
Definition std (xs : list float64) : float64 :=
  match dropna xs with
  | [] | [_] => NaN
  | l =>
      let m := (Rsum l / INR (length l))%R in
      Num (sqrt (sum_sq_dev m l / INR (length l - 1)))
  end.

(** ** scikit-learn scalers *)

Inductive scaler_kind : Type := Standard | MinMax | Robust.

(** A scaler object: its class and, once fitted, for each numeric column it
    was fitted on, the column's name ([feature_names_in_]) and its pair of
    parameters: ([mean_], [scale_]) for [StandardScaler], ([min_], [scale_])
    for [MinMaxScaler], ([center_], [scale_]) for [RobustScaler]. *)
Record Scaler : Type := mkScaler {
  kind : scaler_kind;
  fitted : option (list (string * (float64 * float64)))
}.

(** [_handle_zeros_in_scale]: a zero scale is replaced by 1. *)
Definition handle_zeros (s : float64) : float64 :=
  match s with
  | Num x => if Req_dec_T x 0 then Num 1 else Num x
  | NaN => NaN
  end.

Definition Rlist_min (x : R) (l : list R) : R := fold_left Rmin l x.
Definition Rlist_max (x : R) (l : list R) : R := fold_left Rmax l x.

Definition nanmin (xs : list float64) : float64 :=
  match dropna xs with [] => NaN | x :: l => Num (Rlist_min x l) end.

Definition nanmax (xs : list float64) : float64 :=
  match dropna xs with [] => NaN | x :: l => Num (Rlist_max x l) end.

(** Population standard deviation ([ddof=0]) of the non-missing values. *)
Definition nanstd0 (xs : list float64) : float64 :=
  match dropna xs with
  | [] => NaN
  | l =>
      let m := (Rsum l / INR (length l))%R in
      Num (sqrt (sum_sq_dev m l / INR (length l)))
  end.

Fixpoint insert_sorted (x : R) (l : list R) : list R :=
  match l with
  | [] => [x]
  | y :: l' => if Rle_dec x y then x :: l else y :: insert_sorted x l'
  end.

Definition sort_R (l : list R) : list R := fold_right insert_sorted [] l.

(** [np.nanpercentile(xs, 100*num/den)] with linear interpolation. *)
Definition nanpercentile (num den : nat) (xs : list float64) : float64 :=
  match sort_R (dropna xs) with
  | [] => NaN
  | a :: _ as l =>
      let pos := (num * (length l - 1))%nat in
      let k := (pos / den)%nat in
      let r := (pos mod den)%nat in
      let lo := nth k l a in
      let hi := nth (S k) l lo in
      Num (lo + (INR r / INR den) * (hi - lo))%R
  end.

Definition fit_column (k : scaler_kind) (xs : list float64) : float64 * float64 :=
  match k with
  | Standard => (mean xs, handle_zeros (nanstd0 xs))
  | MinMax =>
      let scale := fdiv (Num 1) (handle_zeros (fsub (nanmax xs) (nanmin xs))) in
      (fsub (Num 0) (fmul (nanmin xs) scale), scale)
  | Robust =>
      (nanpercentile 1 2 xs,
       handle_zeros (fsub (nanpercentile 3 4 xs) (nanpercentile 1 4 xs)))
  end.

Definition transform_cell (k : scaler_kind) (p : float64 * float64) (x : float64) : float64 :=
  match k with
  | Standard | Robust => fdiv (fsub x (fst p)) (snd p)
  | MinMax => fadd (fmul x (snd p)) (fst p)
  end.

(** [df.select_dtypes(include=[np.number])]: the numeric block of a frame,
    column by column. *)
Fixpoint numeric_columns (cols : list (string * values)) : list (string * list float64) :=
  match cols with
  | [] => []
  | (n, float64s xs) :: cols' => (n, xs) :: numeric_columns cols'
  | _ :: cols' => numeric_columns cols'
  end.

Fixpoint other_columns (cols : list (string * values)) : list (string * values) :=
  match cols with
  | [] => []
  | (n, float64s xs) :: cols' => other_columns cols'
  | c :: cols' => c :: other_columns cols'
  end.

(** scikit-learn's input validation: at least one sample and one feature. *)
Definition check_array (n_samples : nat) (X : list (string * list float64)) : result unit :=
  match n_samples, X with
  | O, _ => Raise (ValueError "Found array with 0 sample(s)")
  | _, [] => Raise (ValueError "Found array with 0 feature(s)")
  | _, _ => Ok tt
  end.

Fixpoint transform_columns (k : scaler_kind) (ps : list (float64 * float64))
    (X : list (string * list float64)) : list (string * list float64) :=
  match ps, X with
  | p :: ps', (n, xs) :: X' =>
      (n, map (transform_cell k p) xs) :: transform_columns k ps' X'
  | _, _ => []
  end.

Fixpoint names_eqb (a b : list string) : bool :=
  match a, b with
  | [], [] => true
  | x :: a', y :: b' => String.eqb x y && names_eqb a' b'
  | _, _ => false
  end.

(** [scaler.transform(X)]: the column names of a frame with columns must be
    those of the fit, in their order (a frame without columns only draws a
    warning there); then the input validation, then the column count. *)
Definition transform (s : Scaler) (n_samples : nat) (X : list (string * list float64))
  : result (list (string * list float64)) :=
  match fitted s with
  | None => Raise (ValueError "This scaler instance is not fitted yet")
  | Some ps =>
      if negb (Nat.eqb (length X) 0) && negb (names_eqb (map fst ps) (map fst X)) then
        Raise (ValueError "The feature names should match those that were passed during fit.")
      else
        match check_array n_samples X with
        | Raise e => Raise e
        | Ok _ =>
            if Nat.eqb (length ps) (length X)
            then Ok (transform_columns (kind s) (map snd ps) X)
            else Raise (ValueError
                          "X has a different number of features than the scaler expects")
        end
  end.

(** [scaler.fit(X)]: the fitted scaler, when the input is accepted. *)
Definition fit (k : scaler_kind) (n_samples : nat) (X : list (string * list float64))
  : result Scaler :=
  match check_array n_samples X with
  | Raise e => Raise e
  | Ok _ => Ok (mkScaler k (Some (map (fun c => (fst c, fit_column k (snd c))) X)))
  end.

(** ** The instance, the artifact files, and the method monad *)

(** The persisted decision-tree pipeline, by what the code asks of it: the
    class-1 probability of a row of categorical features. *)
Inductive cell : Type :=
| CFloat (x : float64)
| CBool (b : bool)
| CObj (o : pyobj).

Record Pipeline : Type := mkPipeline {
  predict_proba1 : list cell -> R
}.

Definition Outliers := dict (float64 * float64).

Record World : Type := mkWorld {
  (* fields of the FeatureEngineeringCLI instance *)
  one_line_processing : bool;
  dga : string;
  single_record_df : option DataFrame;
  benign_path : option string;
  malign_path : option string;
  scaler : option Scaler;
  outliers : option Outliers;
  scaler_saved : bool;
  outliers_saved : bool;
  model : option Pipeline;
  (* models/scaler.joblib, models/outliers.joblib,
     models/decision_tree_model.joblib *)
  scaler_file : option Scaler;
  outliers_file : option Outliers;
  model_file : option Pipeline;
  (* the directory models/ exists *)
  models_dir : bool
}.

Definition M (A : Type) : Type := World -> result A * World.

Definition ret {A} (a : A) : M A := fun w => (Ok a, w).
Definition raise {A} (e : exn) : M A := fun w => (Raise e, w).
Definition bind {A B} (m : M A) (k : A -> M B) : M B :=
  fun w => match m w with
           | (Ok a, w') => k a w'
           | (Raise e, w') => (Raise e, w')
           end.
Definition lift {A} (r : result A) : M A := fun w => (r, w).
Definition get : M World := fun w => (Ok w, w).
Definition put (w : World) : M unit := fun _ => (Ok tt, w).

Declare Scope py_scope.
Delimit Scope py_scope with py.
Notation "x <- m ;; k" := (bind m (fun x => k))
  (at level 61, m at next level, right associativity) : py_scope.
Notation "m ;; k" := (bind m (fun _ => k))
  (at level 61, right associativity) : py_scope.

Definition set_scaler (s : option Scaler) (w : World) : World :=
  mkWorld (one_line_processing w) (dga w) (single_record_df w)
          (benign_path w) (malign_path w) s (outliers w) (scaler_saved w)
          (outliers_saved w) (model w) (scaler_file w) (outliers_file w) (model_file w)
          (models_dir w).

Definition set_outliers (o : option Outliers) (w : World) : World :=
  mkWorld (one_line_processing w) (dga w) (single_record_df w)
          (benign_path w) (malign_path w) (scaler w) o (scaler_saved w)
          (outliers_saved w) (model w) (scaler_file w) (outliers_file w) (model_file w)
          (models_dir w).

Definition set_model (p : option Pipeline) (w : World) : World :=
  mkWorld (one_line_processing w) (dga w) (single_record_df w)
          (benign_path w) (malign_path w) (scaler w) (outliers w) (scaler_saved w)
          (outliers_saved w) p (scaler_file w) (outliers_file w) (model_file w)
          (models_dir w).

Definition dump_scaler (w : World) : World :=
  mkWorld (one_line_processing w) (dga w) (single_record_df w)
          (benign_path w) (malign_path w) (scaler w) (outliers w) true
          (outliers_saved w) (model w) (scaler w) (outliers_file w) (model_file w)
          (models_dir w).

Definition dump_outliers (w : World) : World :=
  mkWorld (one_line_processing w) (dga w) (single_record_df w)
          (benign_path w) (malign_path w) (scaler w) (outliers w) (scaler_saved w)
          true (model w) (scaler_file w) (outliers w) (model_file w)
          (models_dir w).

Definition dump_model (w : World) : World :=
  mkWorld (one_line_processing w) (dga w) (single_record_df w)
          (benign_path w) (malign_path w) (scaler w) (outliers w) (scaler_saved w)
          (outliers_saved w) (model w) (scaler_file w) (outliers_file w) (model w)
          (models_dir w).

(** [os.makedirs("models", exist_ok=True)]. *)
Definition make_models_dir (w : World) : World :=
  mkWorld (one_line_processing w) (dga w) (single_record_df w)
          (benign_path w) (malign_path w) (scaler w) (outliers w) (scaler_saved w)
          (outliers_saved w) (model w) (scaler_file w) (outliers_file w) (model_file w)
          true.

Definition is_some {A} (o : option A) : bool :=
  match o with Some _ => true | None => false end.

(** [save_borders]: the directory is created if need be; each artifact is
    written at most once per instance. *)
Definition save_borders : M unit :=
  fun w =>
    let w := make_models_dir w in
    let w1 := if is_some (scaler w) && negb (scaler_saved w) then dump_scaler w else w in
    let w2 := if is_some (outliers w1) && negb (outliers_saved w1) then dump_outliers w1 else w1 in
    (Ok tt, w2).

(** [load_borders]: a file that exists replaces the field; a missing file
    leaves the field as it is and raises nothing. *)
Definition load_borders : M unit :=
  fun w =>
    let w1 := match scaler_file w with Some s => set_scaler (Some s) w | None => w end in
    let w2 := match outliers_file w1 with Some o => set_outliers (Some o) w1 | None => w1 end in
    (Ok tt, w2).

(** [save_model]: [joblib.dump] into [models/], which this method does not
    create. *)
Definition save_model : M unit :=
  fun w =>
    if is_some (model w) then
      if models_dir w then (Ok tt, dump_model w)
      else (Raise (FileNotFoundError
                     "[Errno 2] No such file or directory: 'models/decision_tree_model.joblib'"),
            w)
    else (Ok tt, w).

Definition load_model : M unit :=
  fun w => (Ok tt, match model_file w with Some p => set_model (Some p) w | None => w end).

(** ** remove_outliers *)

(** Column names of a frame are distinct (a frame comes from a dict record or
    from a parquet table), so [features[column]] is the column itself. *)

(** The thresholds of one numeric column:
    [(mean - std_multiplier * std, mean + std_multiplier * std)]. *)
Definition column_bounds (std_multiplier : R) (xs : list float64) : float64 * float64 :=
  (fsub (mean xs) (fmul (Num std_multiplier) (std xs)),
   fadd (mean xs) (fmul (Num std_multiplier) (std xs))).

(** The dict comprehension over the numeric columns. *)
Definition compute_outliers (std_multiplier : R) (features : DataFrame) : Outliers :=
  fold_left (fun d c => dict_set d (fst c) (column_bounds std_multiplier (snd c)))
            (numeric_columns (columns features)) [].

Definition outside (lower_bound upper_bound x : float64) : bool :=
  flt x lower_bound || fgt x upper_bound.

Definition float_of_bool (b : bool) : float64 := Num (if b then 1 else 0).

(** [(features[column] < lower_bound) | (features[column] > upper_bound)]:
    elementwise; ordering a string or [None] against a float is a
    [TypeError]. *)
Definition outlier_condition (col : values) (lower_bound upper_bound : float64)
  : result (list bool) :=
  match col with
  | float64s xs => Ok (map (outside lower_bound upper_bound) xs)
  | bools bs => Ok (map (fun b => outside lower_bound upper_bound (float_of_bool b)) bs)
  | objects os =>
      mapM (fun o => match o with
                     | PNum x => Ok (outside lower_bound upper_bound (Num x))
                     | _ => Raise (TypeError "'<' not supported between these instances")
                     end) os
  end.

(** The thresholding loop over [self.outliers.items()]. *)
Fixpoint drop_loop (items : Outliers) (features : DataFrame) (labels : Series)
  : result (DataFrame * Series) :=
  match items with
  | [] => Ok (features, labels)
  | (column, (lower_bound, upper_bound)) :: rest =>
      match get_column (columns features) column with
      | None => drop_loop rest features labels
      | Some col =>
          (cond <- outlier_condition col lower_bound upper_bound ;;
           let outlier_indices := keep_rows cond (index features) in
           features' <- df_drop_rows features outlier_indices ;;
           labels' <- series_drop_rows labels outlier_indices ;;
           drop_loop rest features' labels')%res
      end
  end.

Definition remove_outliers (features : DataFrame) (labels : Series) (std_multiplier : R)
  : M (DataFrame * Series) :=
  (w <- get ;;
   (if negb (one_line_processing w) then
      put (set_outliers (Some (compute_outliers std_multiplier features)) w) ;;
      save_borders
    else load_borders) ;;
   w' <- get ;;
   match outliers w' with
   | None | Some [] =>
       raise (ValueError "Outlier thresholds must be available for outlier removal.")
   | Some items => lift (drop_loop items features labels)
   end)%py.

(** ** scaler_recommendation *)

Definition has_nan (xs : list float64) : bool := existsb isnan xs.

Definition fabs := fmap1 Rabs.

Fixpoint zip_or (a b : list bool) : list bool :=
  match a, b with
  | x :: a', y :: b' => (x || y) :: zip_or a' b'
  | _, _ => []
  end.

(** [np.any(np.abs(zscore(numeric_df)) > 3, axis=1)]: one flag per row.
    SciPy's [zscore] works column by column in binary64, and its rounding
    decides on which side of 3 a value falls; it is a parameter, from the
    cells of a column to their z-scores as binary64 numbers.  [np.abs] and
    [> 3] are the IEEE operations on those: [NaN > 3] is false. *)
Definition zscore_outliers (zscore : list float64 -> list float) (n_rows : nat)
    (X : list (string * list float64)) : list bool :=
  fold_left (fun acc c =>
               zip_or acc (map (fun z => PrimFloat.ltb 3 (PrimFloat.abs z)) (zscore (snd c))))
            X (repeat false n_rows).

Definition count_true (l : list bool) : nat := length (filter (fun b => b) l).

(** [np.mean] of a boolean vector: the fraction of set flags, [NaN] on an
    empty vector. *)
Definition bool_mean (l : list bool) : float64 :=
  match l with
  | [] => NaN
  | _ => Num (INR (count_true l) / INR (length l))
  end.

Definition isnull_any (v : values) : bool :=
  match v with
  | float64s xs => has_nan xs
  | bools _ => false
  | objects os => existsb (fun o => match o with PNone => true | _ => false end) os
  end.

(** [df.isnull().any().sum()]: the number of columns with a missing cell. *)
Definition missing_values (df : DataFrame) : nat :=
  length (filter (fun c => isnull_any (snd c)) (columns df)).

Definition scaler_recommendation (zscore : list float64 -> list float) (df : DataFrame)
  : dict string :=
  let recommendations := [] in
  let numeric_df := numeric_columns (columns df) in
  let outliers := zscore_outliers zscore (length (index df)) numeric_df in
  let outlier_proportion := bool_mean outliers in
  let recommendations :=
    if fgt outlier_proportion (Num (5 / 100)) || (0 <? missing_values df)%nat
    then dict_set recommendations "svm" "RobustScaler"%string
    else dict_set recommendations "svm" "StandardScaler"%string in
  let recommendations := dict_set recommendations "xgboost" "MinMaxScaler"%string in
  dict_set recommendations "cnn" "MinMaxScaler + Sigmoid"%string.

(** ** apply_scaling *)

Definition sigmoid (x : R) : R := (1 / (1 + exp (- x)))%R.

Definition fit_transform (k : scaler_kind) (n_samples : nat)
    (X : list (string * list float64)) : M (list (string * list float64)) :=
  (* self.scaler = <Scaler>() *)
  (w <- get ;;
   put (set_scaler (Some (mkScaler k None)) w) ;;
   (* self.scaler.fit_transform(numeric_df) *)
   s <- lift (fit k n_samples X) ;;
   w <- get ;;
   put (set_scaler (Some s) w) ;;
   lift (transform s n_samples X))%py.

Definition apply_scaling (df : DataFrame) (scaler_type : string) : M DataFrame :=
  let numeric_df := numeric_columns (columns df) in
  let n := length (index df) in
  (w <- get ;;
   scaled_data <-
     (if negb (one_line_processing w) then
        scaled_data <-
          (if String.eqb scaler_type "StandardScaler" then fit_transform Standard n numeric_df
           else if String.eqb scaler_type "MinMaxScaler" then fit_transform MinMax n numeric_df
           else if String.eqb scaler_type "RobustScaler" then fit_transform Robust n numeric_df
           else if String.eqb scaler_type "MinMaxScaler + Sigmoid" then
             scaled_data <- fit_transform MinMax n numeric_df ;;
             ret (map (fun c => (fst c, map (fmap1 sigmoid) (snd c))) scaled_data)
           else raise (ValueError ("Unsupported scaler type: " ++ scaler_type))) ;;
        save_borders ;;
        ret scaled_data
      else
        load_borders ;;
        w <- get ;;
        match scaler w with
        | None => raise (AttributeError "'NoneType' object has no attribute 'transform'")
        | Some s => lift (transform s n numeric_df)
        end) ;;
   (* scaled numeric columns first, then the non-numeric ones of df *)
   ret (mkDataFrame (index df)
          (map (fun c => (fst c, float64s (snd c))) scaled_data
           ++ other_columns (columns df))))%py.

(** ** The constructor *)

Definition value_column (c : cell) : values :=
  match c with
  | CFloat x => float64s [x]
  | CBool b => bools [b]
  | CObj o => objects [o]
  end.

(** [pd.DataFrame([input_data])]: one row, one column per key, in key order. *)
Definition DataFrame_of_record (input_data : dict cell) : DataFrame :=
  mkDataFrame [0%Z] (map (fun kv => (fst kv, value_column (snd kv))) input_data).

Definition get_path (input_data : dict cell) (k : string) : option string :=
  match dict_get input_data k with
  | Some (CObj (PStr s)) => Some s
  | _ => None
  end.

(** [FeatureEngineeringCLI(input_data, one_line_processing, dga)]; the last
    three arguments are the artifact files found under [models/], a
    directory that is there when one of them is. *)
Definition init (input_data : dict cell) (one_line_processing : bool) (dga : string)
    (scaler_file : option Scaler) (outliers_file : option Outliers)
    (model_file : option Pipeline) : World :=
  mkWorld one_line_processing dga
    (if one_line_processing then Some (DataFrame_of_record input_data) else None)
    (if one_line_processing then None else get_path input_data "benign")
    (if one_line_processing then None else get_path input_data "malign")
    None None false false None
    scaler_file outliers_file model_file
    (is_some scaler_file || is_some outliers_file || is_some model_file).

(** ** Column selection *)

Definition nontraining_fields : list string :=
  ["dns_evaluated_on"; "rdap_evaluated_on"; "tls_evaluated_on"; "ip_data";
   "countries"; "latitudes"; "longitudes"; "dns_dnssec";
   "dns_zone_dnskey_selfsign_ok"; "dns_email_extras"; "dns_ttls"; "dns_zone";
   "dns_zone_SOA"; "dns_A"; "dns_AAAA"; "dns_CNAME"; "dns_MX"; "dns_NS";
   "dns_SOA"; "dns_TXT"; "rdap_registration_date"; "rdap_last_changed_date";
   "rdap_expiration_date"; "rdap_dnssec"; "rdap_entities"]%string.

Definition mem_string (s : string) (l : list string) : bool := existsb (String.eqb s) l.

(** [df.drop(columns=names)] for names that are all present. *)
Definition drop_columns (names : list string) (df : DataFrame) : DataFrame :=
  mkDataFrame (index df)
              (filter (fun c => negb (mem_string (fst c) names)) (columns df)).

Definition drop_nontrain (table : DataFrame) : DataFrame :=
  let fields := filter (fun x => has_column table x) nontraining_fields in
  drop_columns fields table.

Definition select_columns (table : DataFrame) (names : list string) : result DataFrame :=
  (cols <- mapM (fun n => match get_column (columns table) n with
                          | Some v => Ok (n, v)
                          | None => Raise (KeyError n)
                          end) names ;;
   Ok (mkDataFrame (index table) cols))%res.

Definition select_lexical_features (table : DataFrame) : result DataFrame :=
  let relevant_fields :=
    (["domain_name"; "label"]%string
     ++ filter (fun col => startswith col "lex") (column_names table)) in
  select_columns table relevant_fields.

(** ** Label mapping *)

Definition pyobj_eqb (a b : pyobj) : bool :=
  match a, b with
  | PStr s, PStr t => String.eqb s t
  | PNone, PNone => true
  | PNum x, PNum y => if Req_dec_T x y then true else false
  | _, _ => false
  end.

(** [Series.unique()]: distinct values in order of first appearance. *)
Definition unique (l : list pyobj) : list pyobj :=
  fold_left (fun acc o => if existsb (pyobj_eqb o) acc then acc else acc ++ [o]) l [].

(** The cells of a column as Python objects. *)
Definition as_objects (v : values) : list pyobj :=
  match v with
  | objects os => os
  | float64s xs => map (fun x => match x with Num r => PNum r | NaN => PNone end) xs
  | bools bs => map (fun b : bool => PNum (if b then 1%R else 0%R)) bs
  end.

(** The receiver of a [str] method call: anything but a string has no such
    attribute. *)
Definition as_str (o : pyobj) : result string :=
  match o with
  | PStr s => Ok s
  | PNone => Raise (AttributeError "'NoneType' object has no such attribute")
  | PNum _ => Raise (AttributeError "'float' object has no such attribute")
  end.

(** [label.split(":")[0] + ":" + label.split(":")[1]]. *)
Definition cleaned_label (o : pyobj) : result string :=
  (s <- as_str o ;;
   match split_colon s with
   | a :: b :: _ => Ok (a ++ ":" ++ b)%string
   | _ => Raise (IndexError "list index out of range")
   end)%res.

Definition ClassMap := dict Z.

(** The loop of the ['binary'] branch; [unique_labels] is the whole array,
    over which every iteration rebuilds [cleaned_labels]. *)
Fixpoint binary_loop (todo unique_labels : list pyobj) (class_map : ClassMap)
  : result ClassMap :=
  match todo with
  | [] => Ok class_map
  | label :: rest =>
      (_ <- mapM cleaned_label unique_labels ;;
       s <- as_str label ;;
       let class_map :=
         if startswith s "benign" then dict_set class_map s 0%Z
         else if startswith s "dga" then dict_set class_map s 1%Z
         else class_map in
       binary_loop rest unique_labels class_map)%res
  end.

Definition binary_class_map (unique_labels : list pyobj) : result ClassMap :=
  binary_loop unique_labels unique_labels [].

(** The loop of the final [else] branch (any other [dga] value). *)
Fixpoint generic_loop (todo : list pyobj) (class_map : ClassMap) : result ClassMap :=
  match todo with
  | [] => Ok class_map
  | label :: rest =>
      (s <- as_str label ;;
       let class_map :=
         if startswith s "benign" then dict_set class_map s 0%Z
         else if startswith s "malware" then dict_set class_map s 1%Z
         else if startswith s "misp" then dict_set class_map s 1%Z
         else if startswith s "phishing" then dict_set class_map s 1%Z
         else class_map in
       generic_loop rest class_map)%res
  end.

Definition generic_class_map (unique_labels : list pyobj) : result ClassMap :=
  generic_loop unique_labels [].

(** [{v: k for k, v in dga_class_map.items()}]. *)
Definition invert (m : list (Z * string)) : dict Z :=
  fold_left (fun d kv => dict_set d (snd kv) (fst kv)) m [].

Fixpoint multiclass_loop (pairs : list (string * string)) (inverse : dict Z)
    (class_map : ClassMap) : ClassMap :=
  match pairs with
  | [] => class_map
  | (label, cleaned) :: rest =>
      multiclass_loop rest inverse
        (match dict_get inverse cleaned with
         | Some id => dict_set class_map label id
         | None => class_map
         end)
  end.

Definition multiclass_class_map (dga_class_map : list (Z * string))
    (unique_labels : list pyobj) : result ClassMap :=
  let inverse_dga_class_map := invert dga_class_map in
  (cleaned_labels <- mapM cleaned_label unique_labels ;;
   labels <- mapM as_str unique_labels ;;
   Ok (multiclass_loop (combine labels cleaned_labels) inverse_dga_class_map []))%res.

(** [class_map.get(x, -1)]. *)
Definition class_id (class_map : ClassMap) (x : pyobj) : Z :=
  match x with
  | PStr s => dict_get_default class_map s (-1)%Z
  | _ => (-1)%Z
  end.

(** [combined_df['label'].apply(lambda x: class_map.get(x, -1))]. *)
Definition encode_labels (class_map : ClassMap) (idx : list Z) (label : list pyobj) : Series :=
  mkSeries idx (map (class_id class_map) label).

(** ** Frame helpers used by the orchestration *)

Definition nth_cell (v : values) (i : nat) : cell :=
  match v with
  | float64s xs => CFloat (nth i xs NaN)
  | bools bs => CBool (nth i bs false)
  | objects os => CObj (nth i os PNone)
  end.

(** The rows of a frame, each as the list of its cells. *)
Definition rows_of (df : DataFrame) : list (list cell) :=
  map (fun i => map (fun c => nth_cell (snd c) i) (columns df))
      (seq 0 (length (index df))).

Definition take_rows (order : list nat) (v : values) : values :=
  match v with
  | float64s xs => float64s (map (fun i => nth i xs NaN) order)
  | bools bs => bools (map (fun i => nth i bs false) order)
  | objects os => objects (map (fun i => nth i os PNone) order)
  end.

Definition range_index (n : nat) : list Z := map Z.of_nat (seq 0 n).

(** [df[name] = data]: overwrite the column in place, or append it last. *)
Fixpoint set_column (cols : list (string * values)) (name : string) (data : values)
  : list (string * values) :=
  match cols with
  | [] => [(name, data)]
  | (n, v) :: cols' =>
      if String.eqb name n then (n, data) :: cols'
      else (n, v) :: set_column cols' name data
  end.

(** Convert bool columns to float. *)
Definition bools_to_float (cols : list (string * values)) : list (string * values) :=
  map (fun c => match snd c with
                | bools bs => (fst c, float64s (map float_of_bool bs))
                | _ => c
                end) cols.

(** [features.fillna(-1, inplace=True)]. *)
Definition fillna (cols : list (string * values)) : list (string * values) :=
  map (fun c => match snd c with
                | float64s xs =>
                    (fst c, float64s (map (fun x => match x with NaN => Num (-1) | _ => x end) xs))
                | objects os =>
                    (fst c, objects (map (fun o => match o with PNone => PNum (-1) | _ => o end) os))
                | bools _ => c
                end) cols.

Fixpoint set_nth {A} (i : nat) (a : A) (l : list A) : list A :=
  match i, l with
  | O, _ :: l' => a :: l'
  | S i', x :: l' => x :: set_nth i' a l'
  | _, [] => []
  end.

(** [col.loc[positions] = vals]. *)
Fixpoint assign_at (positions : list nat) (vals : list float64) (col : list float64)
  : list float64 :=
  match positions, vals with
  | p :: positions', v :: vals' => assign_at positions' vals' (set_nth p v col)
  | _, _ => col
  end.

Definition categorical_features : list string :=
  ["geo_continent_hash"; "geo_countries_hash"; "rdap_registrar_name_hash";
   "tls_root_authority_hash"; "tls_leaf_authority_hash"; "lex_tld_hash"]%string.

(** What [perform_eda] returns: the feature tensor (column by column, under
    [feature_names]), the label tensor, and the class map. *)
Record EdaResult : Type := mkEdaResult {
  features : list (list float64);
  labels : list Z;
  feature_names : list string;
  class_map : ClassMap
}.

(** [torch.tensor(features.values)]: every column must be numeric. *)
Definition to_tensor (cols : list (string * values)) : result (list (list float64)) :=
  mapM (fun c => match snd c with
                 | float64s xs => Ok xs
                 | _ => Raise (TypeError "can't convert np.ndarray of type numpy.object_")
                 end) cols.

(** ** perform_eda *)

Section Orchestration.

(** External collaborators of the training path. *)
Variable read_table : string -> result DataFrame.
Variable cast : DataFrame -> DataFrame -> result DataFrame.
Variable concat_tables : DataFrame -> DataFrame -> DataFrame.
(** The row order drawn by [sample(frac=1)] for a frame of [n] rows. *)
Variable sample_order : nat -> list nat.
Variable train_test_split :
  list (list cell) -> list pyobj -> result (list nat * list nat).
Variable fit_pipeline : list (list cell) -> list pyobj -> result Pipeline.
Variable cross_val_score : list (list cell) -> list pyobj -> result unit.
(** The table of [dga_mapping.py]. *)
Variable dga_class_map : list (Z * string).
(** SciPy's [zscore] on one column. *)
Variable zscore : list float64 -> list float.

Definition truthy (s : option string) : option string :=
  match s with
  | Some EmptyString | None => None
  | Some p => Some p
  end.

Definition read_optional (path : option string) : result (option DataFrame) :=
  match truthy path with
  | None => Ok None
  | Some p => (t <- read_table p ;; Ok (Some t))%res
  end.

(** A method called on a table that may be [None]. *)
Definition on_table {A} (f : DataFrame -> result A) (t : option DataFrame) : result A :=
  match t with
  | Some t => f t
  | None => Raise (AttributeError "'NoneType' object has no attribute 'column_names'")
  end.

Definition nonempty (t : DataFrame) : bool := negb (Nat.eqb (length (index t)) 0).

(** The training-mode loading of the source tables. *)
Definition load_datasets (w : World) : result DataFrame :=
  (if String.eqb (dga w) "multiclass" then
     match malign_path w with
     | None => Raise (TypeError "expected str, bytes or os.PathLike object, not NoneType")
     | Some p =>
         malign_data <- read_optional (Some p) ;;
         malign_data <- on_table select_lexical_features malign_data ;;
         Ok (drop_nontrain malign_data)
     end
   else
     benign_data <- read_optional (benign_path w) ;;
     malign_data <- read_optional (malign_path w) ;;
     sel <- (if String.eqb (dga w) "binary" then
               b <- on_table select_lexical_features benign_data ;;
               m <- on_table select_lexical_features malign_data ;;
               Ok (Some b, Some m)
             else Ok (benign_data, malign_data)) ;;
     benign_data <- on_table (fun t => Ok (drop_nontrain t)) (fst sel) ;;
     malign_data <- on_table (fun t => Ok (drop_nontrain t)) (snd sel) ;;
     if nonempty benign_data && nonempty malign_data then
       benign_data <- cast benign_data malign_data ;;
       Ok (concat_tables benign_data malign_data)
     else if nonempty malign_data then Ok malign_data
     else Raise (ValueError "No datasets found. Please check the dataset paths."))%res.

(** [combined_df.sample(frac=1).reset_index(drop=True)]. *)
Definition shuffle (df : DataFrame) : DataFrame :=
  let order := sample_order (length (index df)) in
  mkDataFrame (range_index (length order))
              (map (fun c => (fst c, take_rows order (snd c))) (columns df)).

(** The decision-tree probability feature (generic policy only). *)
Definition dtree_stage (combined_df : DataFrame) (labels : list pyobj) : M DataFrame :=
  (w <- get ;;
   if negb (one_line_processing w) then
     X_categorical <- lift (select_columns combined_df categorical_features) ;;
     let X := rows_of X_categorical in
     split <- lift (train_test_split X labels) ;;
     let X_train := map (fun i => nth i X []) (fst split) in
     let X_test := map (fun i => nth i X []) (snd split) in
     let y_train := map (fun i => nth i labels PNone) (fst split) in
     dt_pipeline <- lift (fit_pipeline X_train y_train) ;;
     w <- get ;;
     put (set_model (Some dt_pipeline) w) ;;
     save_model ;;
     let probabilities_train := map (fun r => Num (predict_proba1 dt_pipeline r)) X_train in
     let probabilities_test := map (fun r => Num (predict_proba1 dt_pipeline r)) X_test in
     let dtree_prob := repeat NaN (length (index combined_df)) in
     let dtree_prob := assign_at (fst split) probabilities_train dtree_prob in
     let dtree_prob := assign_at (snd split) probabilities_test dtree_prob in
     let cols := set_column (columns combined_df) "dtree_prob" (float64s dtree_prob) in
     lift (cross_val_score X labels) ;;
     ret (drop_columns categorical_features (mkDataFrame (index combined_df) cols))
   else
     load_model ;;
     w <- get ;;
     match model w with
     | Some p =>
         record <- lift (on_table (fun t => select_columns t categorical_features)
                                  (single_record_df w)) ;;
         match rows_of record with
         | [] => raise (IndexError "index 0 is out of bounds for axis 0 with size 0")
         | r :: _ =>
             let dtree_prob := repeat (Num (predict_proba1 p r)) (length (index combined_df)) in
             ret (mkDataFrame (index combined_df)
                    (set_column (columns combined_df) "dtree_prob" (float64s dtree_prob)))
         end
     | None => raise (ValueError "Pipeline not found. Please train the pipeline first.")
     end)%py.

Definition generate_class_map (dga : string) (unique_labels : list pyobj)
  : result ClassMap :=
  if String.eqb dga "binary" then binary_class_map unique_labels
  else if String.eqb dga "multiclass" then multiclass_class_map dga_class_map unique_labels
  else generic_class_map unique_labels.

Definition perform_eda (model : option string) (apply_scaling_flag : bool) : M EdaResult :=
  (w <- get ;;
   combined_df <-
     (if one_line_processing w then
        lift (on_table (fun t => Ok t) (single_record_df w))
      else lift (load_datasets w)) ;;
   (* Randomly shuffle the records *)
   let combined_df := shuffle combined_df in
   (* Extract labels *)
   labels <-
     match get_column (columns combined_df) "label" with
     | Some l => ret (as_objects l)
     | None => raise (ValueError "Label column not found in the dataframe.")
     end ;;
   combined_df <-
     (if negb (String.eqb (dga w) "binary") && negb (String.eqb (dga w) "multiclass")
      then dtree_stage combined_df labels
      else ret combined_df) ;;
   (* Generate class map based on dga setting *)
   label_column <-
     match get_column (columns combined_df) "label" with
     | Some l => ret (as_objects l)
     | None => raise (KeyError "label")
     end ;;
   let unique_labels := unique label_column in
   class_map <- lift (generate_class_map (dga w) unique_labels) ;;
   (* the 'binary' and 'multiclass' branches also bind
      features = combined_df.filter(regex='^lex', axis=1), which the next
      assignment to features overwrites *)
   let labels := encode_labels class_map (index combined_df) label_column in
   let features := drop_columns ["label"%string] combined_df in
   (* Process timestamps: the model has no temporal dtype *)
   (* Convert bool columns to float *)
   let features := mkDataFrame (index features) (bools_to_float (columns features)) in
   features <-
     match columns features with
     | [] => raise (IndexError "index 0 is out of bounds for axis 0 with size 0")
     | (first, _) :: _ => ret (drop_columns [first] features)
     end ;;
   (* Handling missing values in features *)
   let features := mkDataFrame (index features) (fillna (columns features)) in
   fl <- remove_outliers features labels 8 ;;
   let features := fst fl in
   let labels := snd fl in
   features <-
     (if apply_scaling_flag then
        let scaler_recommendations := scaler_recommendation zscore features in
        match model with
        | None => raise (AttributeError "'NoneType' object has no attribute 'lower'")
        | Some m =>
            let scaler_type :=
              dict_get_default scaler_recommendations (lower m) "StandardScaler"%string in
            apply_scaling features scaler_type
        end
      else ret features) ;;
   tensor <- lift (to_tensor (columns features)) ;;
   ret (mkEdaResult tensor (svalues labels) (column_names features) class_map))%py.

End Orchestration.

(** * Vocabulary of the properties: predicates, reference definitions and
    the tables of the scenarios *)

(** The class a label gets under the generic policy, as the [if] chain of
    the loop decides it. *)
Definition generic_policy (s : string) : option Z :=
  if startswith s "benign" then Some 0%Z
  else if startswith s "malware" then Some 1%Z
  else if startswith s "misp" then Some 1%Z
  else if startswith s "phishing" then Some 1%Z
  else None.

(** The same for the binary policy. *)
Definition binary_policy (s : string) : option Z :=
  if startswith s "benign" then Some 0%Z
  else if startswith s "dga" then Some 1%Z
  else None.

(** [cm'] extends [cm] by the policy's class for each label of [ls]. *)
Definition policy_map (policy : string -> option Z) (ls : list string)
    (cm cm' : ClassMap) : Prop :=
  forall s, dict_get cm' s =
            match (if mem_string s ls then policy s else None) with
            | Some v => Some v
            | None => dict_get cm s
            end.

(** The label holds a colon somewhere. *)
Fixpoint contains_colon (s : string) : bool :=
  match s with
  | EmptyString => false
  | String c s' => Ascii.eqb c ":"%char || contains_colon s'
  end.

(** Every column has one cell per index label. *)
Definition wf_frame (df : DataFrame) : Prop :=
  Forall (fun c => nrows (snd c) = length (index df)) (columns df).

(** The cells of a numeric column [c] lie inside the closed interval, in the
    sense of the filter: none is below [lower_bound], none above
    [upper_bound]. *)
Definition within_frame (c : string) (lower_bound upper_bound : float64) (df : DataFrame)
  : Prop :=
  forall xs, get_column (columns df) c = Some (float64s xs) ->
             Forall (fun x => outside lower_bound upper_bound x = false) xs.

(** A training table of one row: its standard deviation is NaN, so are both
    thresholds, and the row stays. *)
Definition one_row_table : DataFrame :=
  mkDataFrame [0%Z] [("lex_len"%string, float64s [Num 5])].

Definition one_row_labels : Series := mkSeries [0%Z] [0%Z].

(** A fresh training-mode instance, nothing on disk. *)
Definition training_world : World :=
  init [("benign"%string, CObj (PStr "benign.parquet"));
        ("malign"%string, CObj (PStr "malign.parquet"))] false "binary" None None None.

(** A training table in which one row is an outlier for the multiplier 1:
    the column [0, 0, 0, 0, 10] has mean 2 and standard deviation sqrt 20. *)
Definition five_row_values : list float64 := [Num 0; Num 0; Num 0; Num 0; Num 10].

Definition five_row_table : DataFrame :=
  mkDataFrame [0; 1; 2; 3; 4]%Z [("lex_len"%string, float64s five_row_values)].

Definition five_row_labels : Series := mkSeries [0; 1; 2; 3; 4]%Z [0; 0; 0; 0; 1]%Z.

(** Scenario C: the column [1, 2, 3, 4, 100]. *)
Definition scenario_C_values : list float64 := [Num 1; Num 2; Num 3; Num 4; Num 100].

Definition scenario_C_table : DataFrame :=
  mkDataFrame [0; 1; 2; 3; 4]%Z [("x"%string, float64s scenario_C_values)].

Definition scenario_C_labels : Series := mkSeries [0; 1; 2; 3; 4]%Z [0; 0; 0; 1; 1]%Z.

(** [x] is [y] up to [tolerance]. *)
Definition approximately (tolerance x y : R) : Prop := (Rabs (x - y) <= tolerance)%R.


(** The cells of a column can be ordered against a float: numbers and
    booleans can, strings and [None] cannot. *)
Definition orderable (v : values) : bool :=
  match v with
  | float64s _ | bools _ => true
  | objects os => forallb (fun o => match o with PNum _ => true | _ => false end) os
  end.

(** A serving-mode instance with the thresholds [bounds] on disk and no
    scaler. *)
Definition serving_world (bounds : Outliers) : World :=
  init [("domain_name"%string, CObj (PStr "example.com"));
        ("label"%string, CObj (PStr "benign:x"));
        ("lex_len"%string, CFloat (Num 5))]
       true "binary" None (Some bounds) None.

(** The four scaler names [apply_scaling] knows. *)
Definition supported_scaler (t : string) : bool :=
  String.eqb t "StandardScaler" || String.eqb t "MinMaxScaler" ||
  String.eqb t "RobustScaler" || String.eqb t "MinMaxScaler + Sigmoid".

(** Reference definitions for the recommendation policy, after its
    description.  Row [i] of the frame has, in some numeric column, a
    z-score of magnitude above 3 (the z-scores being those the library
    computes, in binary64). *)
Definition row_is_outlier (zscore : list float64 -> list float) (df : DataFrame) (i : nat)
  : Prop :=
  exists c xs z,
    In (c, float64s xs) (columns df) /\ nth_error (zscore xs) i = Some z /\
    PrimFloat.ltb 3 (PrimFloat.abs z) = true.

(** Some cell of some column is missing. *)
Definition has_missing (df : DataFrame) : Prop :=
  exists c v,
    In (c, v) (columns df) /\
    match v with
    | float64s xs => In NaN xs
    | bools _ => False
    | objects os => In PNone os
    end.

(** The z-score in exact arithmetic: [(x - mean) / std] with the population
    standard deviation, [NaN] throughout for a column with a missing cell. *)
Definition exact_zscore (xs : list float64) : list float64 :=
  let m := if has_nan xs then NaN else mean xs in
  let s := if has_nan xs then NaN else nanstd0 xs in
  map (fun x => fdiv (fsub x m) s) xs.

(** SciPy's [zscore] on one binary64 column, operation by operation: NumPy's
    [mean] and [std] ([ddof=0]) with their pairwise summation, then
    [(x - mean) / std], and [NaN] throughout for a constant column. *)
Module Binary64.

Definition of_nat (n : nat) : float := PrimFloat.of_uint63 (Uint63.of_Z (Z.of_nat n)).

(** [r[j] += a[j]] for the eight running sums. *)
Fixpoint add8 (r a : list float) : list float :=
  match r, a with
  | x :: r', y :: a' => (x + y)%float :: add8 r' a'
  | _, _ => r
  end.

(** The unrolled loop: whole blocks of eight are added to the running sums;
    what is left is returned with them. *)
Fixpoint unrolled (fuel : nat) (r a : list float) : list float * list float :=
  match fuel with
  | O => (r, a)
  | S fuel' =>
      if (8 <=? length a)%nat then unrolled fuel' (add8 r (firstn 8 a)) (skipn 8 a)
      else (r, a)
  end.

Definition combine8 (r : list float) : float :=
  match r with
  | [r0; r1; r2; r3; r4; r5; r6; r7] =>
      (((r0 + r1) + (r2 + r3)) + ((r4 + r5) + (r6 + r7)))%float
  | _ => PrimFloat.nan
  end.

(** [pairwise_sum]: a plain loop under 8 elements, eight running sums up to
    128, and two halves above. *)
Fixpoint pairwise_sum (fuel : nat) (a : list float) : float :=
  let n := length a in
  if (n <? 8)%nat then fold_left PrimFloat.add a PrimFloat.neg_zero
  else if (n <=? 128)%nat then
    let ra := unrolled n (firstn 8 a) (skipn 8 a) in
    fold_left PrimFloat.add (snd ra) (combine8 (fst ra))
  else
    match fuel with
    | O => PrimFloat.nan
    | S fuel' =>
        let n2 := (n / 2)%nat in
        let n2 := (n2 - n2 mod 8)%nat in
        (pairwise_sum fuel' (firstn n2 a) + pairwise_sum fuel' (skipn n2 a))%float
    end.

(** [np.add.reduce]: the identity plus the pairwise sum. *)
Definition sum (a : list float) : float := (0 + pairwise_sum (length a) a)%float.

Definition mean (a : list float) : float := (sum a / of_nat (length a))%float.

Definition std (a : list float) : float :=
  let arrmean := mean a in
  let x := map (fun v => (v - arrmean)%float) a in
  let x := map (fun v => (v * v)%float) x in
  PrimFloat.sqrt (sum x / of_nat (length a))%float.

Definition zscore (a : list float) : list float :=
  match a with
  | [] => []
  | first :: _ =>
      let mn := mean a in
      let sd := std a in
      let isconst := forallb (fun v => PrimFloat.eqb first v) a in
      if isconst then map (fun _ => PrimFloat.nan) a
      else map (fun v => ((v - mn) / sd)%float) a
  end.

(** The real number a finite binary64 value stands for. *)
Definition to_float64 (f : float) : float64 :=
  match Prim2SF f with
  | S754_zero _ => Num 0
  | S754_finite s m e =>
      let r := (IZR (Zpos m) * (if (0 <=? e)%Z then IZR (2 ^ e) else / IZR (2 ^ (- e))))%R in
      Num (if s then (- r)%R else r)
  | S754_infinity _ | S754_nan => NaN
  end.

End Binary64.

(** The column [5, 4, 4, 4, 4, 4, 4, 4, 4, 4], as binary64 numbers and as
    the cells of a frame: its exact z-scores are 3 and -1/3. *)
Definition five_fours64 : list float := [5; 4; 4; 4; 4; 4; 4; 4; 4; 4]%float.

Definition five_fours_values : list float64 :=
  [Num 5; Num 4; Num 4; Num 4; Num 4; Num 4; Num 4; Num 4; Num 4; Num 4].

Definition five_fours_table : DataFrame :=
  mkDataFrame [0; 1; 2; 3; 4; 5; 6; 7; 8; 9]%Z [("lex_len"%string, float64s five_fours_values)].

(** The z-scores of a single record: its columns are constant, so every
    z-score is NaN. *)
Definition single_record_zscore (xs : list float64) : list float :=
  map (fun _ => PrimFloat.nan) xs.

(** Stand-ins for the training-path collaborators, which serving mode never
    calls. *)
Definition no_table (path : string) : result DataFrame :=
  Raise (ValueError "no such file").
Definition same_schema (benign malign : DataFrame) : result DataFrame := Ok benign.
Definition first_table (benign malign : DataFrame) : DataFrame := benign.
Definition no_split (X : list (list cell)) (y : list pyobj) : result (list nat * list nat) :=
  Raise (ValueError "no split").
Definition no_fit (X : list (list cell)) (y : list pyobj) : result Pipeline :=
  Raise (ValueError "no fit").
Definition no_score (X : list (list cell)) (y : list pyobj) : result unit := Ok tt.

Definition run_perform_eda (model : option string) (apply_scaling_flag : bool) : M EdaResult :=
  perform_eda no_table same_schema first_table (seq 0) no_split no_fit no_score []
              single_record_zscore model apply_scaling_flag.

(** A serving record that carries no label. *)
Definition record_without_label : dict cell :=
  [("domain_name"%string, CObj (PStr "example.com"));
   ("lex_len"%string, CFloat (Num 11))].

(** A serving-mode run with a persisted min-max scaler (min_ = 0, scale_ = 1)
    and the thresholds a one-row training run leaves. *)
Definition serving_record : dict cell :=
  [("domain_name"%string, CObj (PStr "example.com"));
   ("label"%string, CObj (PStr "benign:x"));
   ("lex_len"%string, CFloat (Num 11))].

Definition persisted_scaler : Scaler :=
  mkScaler MinMax (Some [("lex_len"%string, (Num 0, Num 1))]).

Definition scaling_serving_world : World :=
  init serving_record true "binary" (Some persisted_scaler)
       (Some [("lex_len"%string, (NaN, NaN))]) None.

(** The min-max scaled column, then the sigmoid of each cell. *)
Definition minmax_sigmoid (xs : list float64) : list float64 :=
  map (fun x => fmap1 sigmoid (transform_cell MinMax (fit_column MinMax xs) x)) xs.

(** Scenario B: the column [0, 10, 20]. *)
Definition scenario_B_values : list float64 := [Num 0; Num 10; Num 20].

Definition scenario_B_table : DataFrame :=
  mkDataFrame [0; 1; 2]%Z [("x"%string, float64s scenario_B_values)].

(** ** get_feature_with_highest_shap *)

Fixpoint first_nan_from (i : nat) (xs : list float64) : option nat :=
  match xs with
  | [] => None
  | NaN :: _ => Some i
  | Num _ :: xs' => first_nan_from (S i) xs'
  end.

(** The position of the first greatest value, scanning from position [i]
    with [best] found at [best_i] so far. *)
Fixpoint argmax_from (best : R) (best_i i : nat) (xs : list R) : nat :=
  match xs with
  | [] => best_i
  | x :: xs' =>
      if Rltb best x then argmax_from x i (S i) xs'
      else argmax_from best best_i (S i) xs'
  end.

(** [np.argmax]: the first NaN if there is one, otherwise the first position
    of the greatest value; an empty vector is a ValueError. *)
Definition argmax (xs : list float64) : result nat :=
  match xs with
  | [] => Raise (ValueError "attempt to get argmax of an empty sequence")
  | _ =>
      match first_nan_from 0 xs with
      | Some i => Ok i
      | None =>
          match dropna xs with
          | x :: l => Ok (argmax_from x 0 1 l)
          | [] => Ok O
          end
      end
  end.

(** [shap_values] is the matrix row by row; [sample_index] is taken
    non-negative. *)
Definition get_feature_with_highest_shap (shap_values : list (list float64))
    (dataset : DataFrame) (sample_index : nat) : result (string * cell) :=
  match nth_error shap_values sample_index with
  | None => Raise (IndexError "index is out of bounds for axis 0")
  | Some row =>
      let abs_shap_values := map fabs row in
      (highest_shap_index <- argmax abs_shap_values ;;
       match nth_error (columns dataset) highest_shap_index with
       | None => Raise (IndexError "index is out of bounds for axis 0")
       | Some (feature_name, v) =>
           if (sample_index <? length (index dataset))%nat
           then Ok (feature_name, nth_cell v sample_index)
           else Raise (IndexError "single positional indexer is out-of-bounds")
       end)%res
  end.

(** ** Tables and helpers of the further properties *)

(** A table without any numeric column. *)
Definition names_only_table : DataFrame :=
  mkDataFrame [0; 1]%Z [("domain_name"%string, objects [PStr "a.com"; PStr "b.org"])].

(** The min-max scaled column, without the sigmoid. *)
Definition minmax_only (xs : list float64) : list float64 :=
  map (transform_cell MinMax (fit_column MinMax xs)) xs.

(** The scaler class a supported plain scaler name stands for. *)
Definition scaler_kind_of (scaler_type : string) : option scaler_kind :=
  if String.eqb scaler_type "StandardScaler" then Some Standard
  else if String.eqb scaler_type "MinMaxScaler" then Some MinMax
  else if String.eqb scaler_type "RobustScaler" then Some Robust
  else None.

(** A frame with a text column before its numeric column. *)
Definition mixed_table : DataFrame :=
  mkDataFrame [0; 1]%Z
    [("registrar"%string, objects [PStr "r1"; PStr "r2"]);
     ("lex_len"%string, float64s [Num 3; Num 7])].

(** What fitting a scaler of class [k] on the numeric block [X] leaves in
    [self.scaler], and the block it returns. *)
Definition fitted_scaler (k : scaler_kind) (X : list (string * list float64)) : Scaler :=
  mkScaler k (Some (map (fun c => (fst c, fit_column k (snd c))) X)).

Definition fitted_columns (k : scaler_kind) (X : list (string * list float64))
  : list (string * list float64) :=
  map (fun c => (fst c, map (transform_cell k (fit_column k (snd c))) (snd c))) X.

(** The frame [apply_scaling] builds around a scaled block. *)
Definition scaled_frame (df : DataFrame) (scaled_data : list (string * list float64))
  : DataFrame :=
  mkDataFrame (index df)
    (map (fun c => (fst c, float64s (snd c))) scaled_data ++ other_columns (columns df)).

Definition sigmoid_columns (scaled_data : list (string * list float64))
  : list (string * list float64) :=
  map (fun c => (fst c, map (fmap1 sigmoid) (snd c))) scaled_data.

(** The branch the training chain of [apply_scaling] takes: the scaler class
    and whether the sigmoid follows. *)
Definition training_choice (scaler_type : string) : option (scaler_kind * bool) :=
  if String.eqb scaler_type "StandardScaler" then Some (Standard, false)
  else if String.eqb scaler_type "MinMaxScaler" then Some (MinMax, false)
  else if String.eqb scaler_type "RobustScaler" then Some (Robust, false)
  else if String.eqb scaler_type "MinMaxScaler + Sigmoid" then Some (MinMax, true)
  else None.

(** A table with the two name columns, two lexical columns and one
    non-training field. *)
Definition lexical_table : DataFrame :=
  mkDataFrame [0; 1]%Z
    [("dns_A"%string, objects [PStr "1.2.3.4"; PNone]);
     ("lex_len"%string, float64s [Num 5; Num 7]);
     ("label"%string, objects [PStr "benign:a"; PStr "dga:b"]);
     ("rdap_age"%string, float64s [Num 1; Num 2]);
     ("domain_name"%string, objects [PStr "a.com"; PStr "b.org"]);
     ("lex_digits"%string, float64s [Num 0; Num 1])].

(** The family of a label, as the multiclass branch normalises it: its
    first two colon-separated segments. *)
Definition family_of (s : string) : option string :=
  match split_colon s with
  | a :: b :: _ => Some (a ++ ":" ++ b)%string
  | _ => None
  end.

(** The class a label gets under the multiclass policy: the key under which
    the inverted table holds its family. *)
Definition multiclass_policy (inverse : dict Z) (s : string) : option Z :=
  match family_of s with
  | Some family => dict_get inverse family
  | None => None
  end.

(** What a serving-mode step leaves as it found it: the mode and the three
    artifact files. *)
Definition serving_kept (w w' : World) : Prop :=
  one_line_processing w' = true /\ scaler_file w' = scaler_file w /\
  outliers_file w' = outliers_file w /\ model_file w' = model_file w.

(** A two-row training table with the six categorical features, and
    collaborators under which the decision-tree stage runs through: a split
    into row 0 and row 1, and a fit whose tree answers 1/2. *)
Definition categorical_table : DataFrame :=
  mkDataFrame [0; 1]%Z
    [("domain_name"%string, objects [PStr "a.com"; PStr "b.org"]);
     ("geo_continent_hash"%string, float64s [Num 1; Num 2]);
     ("geo_countries_hash"%string, float64s [Num 3; Num 4]);
     ("rdap_registrar_name_hash"%string, float64s [Num 5; Num 6]);
     ("tls_root_authority_hash"%string, float64s [Num 7; Num 8]);
     ("tls_leaf_authority_hash"%string, float64s [Num 9; Num 10]);
     ("lex_tld_hash"%string, float64s [Num 11; Num 12]);
     ("label"%string, objects [PStr "benign:a"; PStr "phishing:b"])].

Definition split_first_second (X : list (list cell)) (y : list pyobj)
  : result (list nat * list nat) := Ok ([0%nat], [1%nat]).

Definition fit_constant (X : list (list cell)) (y : list pyobj) : result Pipeline :=
  Ok (mkPipeline (fun _ => (1 / 2)%R)).

(** * Properties *)

(** ** Dictionaries *)

Lemma dict_get_set_same {V} (d : dict V) k v :
  dict_get (dict_set d k v) k = Some v.
Proof.
  induction d as [|[k' v'] d IH]; simpl.
  - now rewrite String.eqb_refl.
  - destruct (String.eqb k k') eqn:E; simpl; rewrite E; auto.
Qed.

Lemma dict_get_set_other {V} (d : dict V) k k' v :
  k <> k' -> dict_get (dict_set d k v) k' = dict_get d k'.
Proof.
  intros Hne. induction d as [|[k0 v0] d IH]; simpl.
  - destruct (String.eqb k' k) eqn:E; auto.
    apply String.eqb_eq in E. congruence.
  - destruct (String.eqb k k0) eqn:E; simpl.
    + apply String.eqb_eq in E. subst k0.
      destruct (String.eqb k' k) eqn:E'; auto.
      apply String.eqb_eq in E'. congruence.
    + now rewrite IH.
Qed.

Lemma mem_string_In s l : mem_string s l = true <-> In s l.
Proof.
  unfold mem_string. rewrite existsb_exists. split.
  - intros [x [Hin E]]. apply String.eqb_eq in E. now subst.
  - intros Hin. exists s. split; auto. apply String.eqb_refl.
Qed.

(** ** Prefixes *)

Lemma prefix_head a p s :
  String.prefix (String a p) s = true -> exists s', s = String a s'.
Proof.
  destruct s as [|b s']; simpl; [discriminate|].
  destruct (ascii_dec a b); [subst; eauto | discriminate].
Qed.

Lemma startswith_disjoint a p b q s :
  a <> b -> startswith s (String a p) = true -> startswith s (String b q) = false.
Proof.
  unfold startswith. intros Hne H1.
  destruct (String.prefix (String b q) s) eqn:H2; auto.
  apply prefix_head in H1. apply prefix_head in H2.
  destruct H1 as [s1 ->]. destruct H2 as [s2 E]. congruence.
Qed.

(** ** Label mapping *)

Lemma pyobj_eqb_eq a b : pyobj_eqb a b = true <-> a = b.
Proof.
  destruct a, b; simpl; split; intros H; try discriminate; try congruence; auto.
  - apply String.eqb_eq in H. congruence.
  - inversion H. apply String.eqb_refl.
  - destruct (Req_dec_T x x0); [congruence | discriminate].
  - inversion H. destruct (Req_dec_T x0 x0); [auto | congruence].
Qed.

Lemma unique_fold_In l : forall acc o,
  In o (fold_left (fun acc o => if existsb (pyobj_eqb o) acc then acc else acc ++ [o]) l acc)
  <-> In o acc \/ In o l.
Proof.
  induction l as [|a l IH]; intros acc o; simpl.
  - tauto.
  - rewrite IH. destruct (existsb (pyobj_eqb a) acc) eqn:E.
    + apply existsb_exists in E. destruct E as [x [Hx Ex]].
      apply pyobj_eqb_eq in Ex. subst x.
      split; [tauto|]. intros [H|[H|H]]; subst; auto.
    + rewrite in_app_iff. simpl. tauto.
Qed.

Lemma unique_In l o : In o (unique l) <-> In o l.
Proof. unfold unique. rewrite unique_fold_In. simpl. tauto. Qed.

(** The distinct values of a column of strings are strings. *)
Lemma unique_strings (ls : list string) :
  exists us, unique (map PStr ls) = map PStr us /\ forall s, In s us <-> In s ls.
Proof.
  assert (H : forall l : list pyobj, (forall o, In o l -> exists s, o = PStr s) ->
              exists us, l = map PStr us).
  { induction l as [|o l IH]; intros Hall.
    - exists []. reflexivity.
    - destruct (Hall o (or_introl eq_refl)) as [s ->].
      destruct IH as [us ->]; [intros; apply Hall; now right|].
      exists (s :: us). reflexivity. }
  destruct (H (unique (map PStr ls))) as [us Hus].
  - intros o Ho. apply (proj1 (unique_In _ _)) in Ho. apply in_map_iff in Ho.
    destruct Ho as [s [<- _]]. eauto.
  - exists us. split; auto. intros s.
    assert (In (PStr s) (map PStr us) <-> In (PStr s) (map PStr ls)) as Hiff
      by (rewrite <- Hus; apply unique_In).
    rewrite !in_map_iff in Hiff.
    split; intros Hin.
    + destruct (proj1 Hiff) as [x [Ex Hx]]; [eauto|]. now inversion Ex; subst.
    + destruct (proj2 Hiff) as [x [Ex Hx]]; [eauto|]. now inversion Ex; subst.
Qed.

Lemma policy_map_step policy a ls (cm cm1 cm' : ClassMap) :
  cm1 = match policy a with Some v => dict_set cm a v | None => cm end ->
  policy_map policy ls cm1 cm' ->
  policy_map policy (a :: ls) cm cm'.
Proof.
  intros Hcm1 IH s. rewrite (IH s).
  replace (mem_string s (a :: ls)) with (String.eqb s a || mem_string s ls)
    by reflexivity.
  destruct (String.eqb s a) eqn:E.
  - apply String.eqb_eq in E. subst a. cbn [orb].
    destruct (mem_string s ls); destruct (policy s) eqn:P; subst cm1; auto.
    apply dict_get_set_same.
  - assert (Hother : dict_get cm1 s = dict_get cm s).
    { subst cm1. destruct (policy a); auto.
      apply dict_get_set_other. intros ->. now rewrite String.eqb_refl in E. }
    rewrite Hother. reflexivity.
Qed.

Lemma generic_loop_strings ls : forall cm,
  exists cm', generic_loop (map PStr ls) cm = Ok cm' /\ policy_map generic_policy ls cm cm'.
Proof.
  induction ls as [|a ls IH]; intros cm.
  - exists cm. split; [reflexivity|]. intros s. reflexivity.
  - simpl.
    destruct (IH (match generic_policy a with Some v => dict_set cm a v | None => cm end))
      as [cm' [Hrun Hmap]].
    exists cm'. split.
    + rewrite <- Hrun. unfold generic_policy.
      destruct (startswith a "benign"), (startswith a "malware"),
               (startswith a "misp"), (startswith a "phishing"); reflexivity.
    + eapply policy_map_step; [reflexivity | exact Hmap].
Qed.

Lemma policy_map_lookup policy ls us (cm : ClassMap) :
  (forall s, In s us <-> In s ls) ->
  policy_map policy us [] cm ->
  forall s, dict_get cm s = if mem_string s ls then policy s else None.
Proof.
  intros Hus Hmap s. rewrite (Hmap s).
  assert (mem_string s us = mem_string s ls) as ->.
  { destruct (mem_string s ls) eqn:E.
    - apply mem_string_In. apply Hus. now apply mem_string_In.
    - destruct (mem_string s us) eqn:E'; auto.
      apply mem_string_In in E'. apply Hus in E'. apply mem_string_In in E'. congruence. }
  destruct (mem_string s ls); [destruct (policy s)|]; reflexivity.
Qed.

Lemma generate_class_map_generic dcm dga unique_labels :
  dga <> "binary"%string -> dga <> "multiclass"%string ->
  generate_class_map dcm dga unique_labels = generic_class_map unique_labels.
Proof.
  intros H1 H2. unfold generate_class_map.
  destruct (String.eqb dga "binary") eqn:E1; [apply String.eqb_eq in E1; congruence|].
  destruct (String.eqb dga "multiclass") eqn:E2; [apply String.eqb_eq in E2; congruence|].
  reflexivity.
Qed.

Lemma nth_error_encode class_map idx (label_column : list string) i s :
  nth_error label_column i = Some s ->
  nth_error (svalues (encode_labels class_map idx (map PStr label_column))) i
  = Some (dict_get_default class_map s (-1)%Z).
Proof.
  intros H. simpl. rewrite map_map.
  now rewrite nth_error_map, H.
Qed.

(** C7.  Under the generic labeling policy (any [dga] value other than
    'binary' and 'multiclass') the class map built from a label column gives
    0 to every label starting with "benign", 1 to every label starting with
    "malware", "misp" or "phishing", and no entry to any other label; the
    label vector keeps one entry per row, in row order, and a row whose label
    has no entry, such as "unknown_source:x", carries the sentinel -1. *)
Theorem generic_policy_class_map :
  forall (dga_class_map : list (Z * string)) (dga : string) (idx : list Z)
         (label_column : list string),
    dga <> "binary"%string -> dga <> "multiclass"%string ->
    exists class_map,
      generate_class_map dga_class_map dga (unique (map PStr label_column)) = Ok class_map /\
      (forall s, In s label_column ->
         (startswith s "benign" = true -> dict_get class_map s = Some 0%Z) /\
         (startswith s "malware" = true \/ startswith s "misp" = true \/
          startswith s "phishing" = true -> dict_get class_map s = Some 1%Z) /\
         (startswith s "benign" = false -> startswith s "malware" = false ->
          startswith s "misp" = false -> startswith s "phishing" = false ->
          dict_get class_map s = None)) /\
      let labels := encode_labels class_map idx (map PStr label_column) in
      sindex labels = idx /\
      length (svalues labels) = length label_column /\
      (forall i s, nth_error label_column i = Some s ->
         nth_error (svalues labels) i
         = Some (match dict_get class_map s with Some c => c | None => (-1)%Z end)) /\
      (forall i, nth_error label_column i = Some "unknown_source:x"%string ->
         nth_error (svalues labels) i = Some (-1)%Z).
Proof.
  intros dcm dga idx label_column Hb Hm.
  destruct (unique_strings label_column) as [us [Hu Hus]].
  destruct (generic_loop_strings us []) as [cm [Hrun Hmap]].
  pose proof (@policy_map_lookup _ _ _ _ Hus Hmap) as Hget.
  exists cm. split; [|split].
  - rewrite generate_class_map_generic by assumption.
    unfold generic_class_map. now rewrite Hu.
  - intros s Hin. rewrite (Hget s).
    apply mem_string_In in Hin. rewrite Hin. unfold generic_policy.
    repeat split.
    + now intros ->.
    + intros [H|[H|H]].
      * rewrite (@startswith_disjoint "m" "alware" "b" "enign" s) by (discriminate || exact H).
        now rewrite H.
      * rewrite (@startswith_disjoint "m" "isp" "b" "enign" s) by (discriminate || exact H).
        rewrite H. now destruct (startswith s "malware").
      * rewrite (@startswith_disjoint "p" "hishing" "b" "enign" s) by (discriminate || exact H).
        rewrite H. now destruct (startswith s "malware"), (startswith s "misp").
    + now intros -> -> -> ->.
  - cbv zeta. split; [reflexivity|]. split; [simpl; now rewrite !length_map|].
    split.
    + intros i s Hi. now rewrite (@nth_error_encode cm idx label_column i s Hi).
    + intros i Hi. rewrite (@nth_error_encode cm idx label_column i _ Hi).
      unfold dict_get_default. rewrite (Hget "unknown_source:x"%string).
      destruct (mem_string _ label_column); reflexivity.
Qed.

(** The generic policy on a two-row label column: the unmapped row stays,
    with class id -1. *)
Lemma generic_policy_class_map_witness :
  exists class_map,
    generate_class_map [] "False" (unique (map PStr ["benign:a"; "unknown_source:x"]%string))
      = Ok class_map /\
    svalues (encode_labels class_map [0; 1]%Z (map PStr ["benign:a"; "unknown_source:x"]%string))
      = [0; -1]%Z.
Proof.
  destruct (@generic_policy_class_map [] "False" [0; 1]%Z
              ["benign:a"; "unknown_source:x"]%string) as [cm [Hrun _]];
    [discriminate | discriminate |].
  exists cm. split; [exact Hrun|].
  vm_compute in Hrun. inversion Hrun. reflexivity.
Defined.

(** *** The binary policy *)

Lemma split_colon_aux_no_colon s : forall cur,
  contains_colon s = false -> split_colon_aux s cur = [String.append cur s].
Proof.
  induction s as [|c s IH]; intros cur H; simpl in *.
  - f_equal. induction cur; simpl; congruence.
  - apply orb_false_iff in H. destruct H as [Hc Hs]. rewrite Hc.
    rewrite IH by assumption. f_equal.
    clear. induction cur; simpl; congruence.
Qed.

Lemma split_colon_aux_colon s : forall cur,
  contains_colon s = true -> exists a b rest, split_colon_aux s cur = a :: b :: rest.
Proof.
  induction s as [|c s IH]; intros cur H; simpl in *; [discriminate|].
  destruct (Ascii.eqb c ":"%char); simpl in H.
  - destruct s as [|c' s']; simpl; [eauto|].
    destruct (Ascii.eqb c' ":"%char); [eauto|].
    destruct (split_colon_aux s' (String c' EmptyString)) eqn:E; [|eauto].
    exfalso. clear -E. revert E. generalize (String c' EmptyString).
    induction s' as [|x s' IH]; intros cur; simpl; [discriminate|].
    destruct (Ascii.eqb x ":"%char); [discriminate | apply IH].
  - now apply IH.
Qed.

Lemma cleaned_label_no_colon s :
  contains_colon s = false ->
  cleaned_label (PStr s) = Raise (IndexError "list index out of range").
Proof.
  intros H. unfold cleaned_label, split_colon. simpl.
  now rewrite split_colon_aux_no_colon.
Qed.

Lemma cleaned_label_colon s :
  contains_colon s = true -> exists c, cleaned_label (PStr s) = Ok c.
Proof.
  intros H. unfold cleaned_label, split_colon. simpl.
  destruct (@split_colon_aux_colon s EmptyString H) as [a [b [rest ->]]]. eauto.
Qed.

Lemma mapM_raise {A B} (f : A -> result B) e l :
  (forall a, In a l -> (exists b, f a = Ok b) \/ f a = Raise e) ->
  (exists a, In a l /\ f a = Raise e) ->
  mapM f l = Raise e.
Proof.
  induction l as [|a l IH]; intros Hall [x [Hx Hfx]]; [destruct Hx|].
  simpl. destruct (Hall a (or_introl eq_refl)) as [[b Hb]|Hr].
  - rewrite Hb. rewrite IH; auto.
    + intros a' Ha'. apply Hall. now right.
    + destruct Hx as [->|Hx]; [congruence|eauto].
  - now rewrite Hr.
Qed.

Lemma mapM_ok {A B} (f : A -> result B) l :
  (forall a, In a l -> exists b, f a = Ok b) -> exists bs, mapM f l = Ok bs.
Proof.
  induction l as [|a l IH]; intros Hall; simpl; [eauto|].
  destruct (Hall a (or_introl eq_refl)) as [b ->].
  destruct IH as [bs ->]; [intros; apply Hall; now right|]. eauto.
Qed.

(** With a colon in every label, the binary loop is the prefix test alone. *)
Lemma binary_loop_strings all ls :
  (exists bs, mapM cleaned_label all = Ok bs) ->
  forall cm,
  exists cm', binary_loop (map PStr ls) all cm = Ok cm' /\ policy_map binary_policy ls cm cm'.
Proof.
  intros [bs Hbs]. induction ls as [|a ls IH]; intros cm.
  - exists cm. split; [reflexivity|]. intros s. reflexivity.
  - simpl. rewrite Hbs. simpl.
    destruct (IH (match binary_policy a with Some v => dict_set cm a v | None => cm end))
      as [cm' [Hrun Hmap]].
    exists cm'. split.
    + rewrite <- Hrun. unfold binary_policy.
      destruct (startswith a "benign"), (startswith a "dga"); reflexivity.
    + eapply policy_map_step; [reflexivity | exact Hmap].
Qed.

(** What the binary policy does on a label column whose labels all hold a
    colon: "benign..." gets 0, "dga..." gets 1, anything else no entry. *)
Lemma binary_policy_with_colons (dga_class_map : list (Z * string))
    (label_column : list string) :
  (forall s, In s label_column -> contains_colon s = true) ->
  exists class_map,
    generate_class_map dga_class_map "binary" (unique (map PStr label_column)) = Ok class_map /\
    forall s, In s label_column ->
      (startswith s "benign" = true -> dict_get class_map s = Some 0%Z) /\
      (startswith s "dga" = true -> dict_get class_map s = Some 1%Z) /\
      (startswith s "benign" = false -> startswith s "dga" = false ->
       dict_get class_map s = None).
Proof.
  intros Hcolon.
  destruct (unique_strings label_column) as [us [Hu Hus]].
  assert (Hclean : exists bs, mapM cleaned_label (map PStr us) = Ok bs).
  { apply mapM_ok. intros o Ho. apply in_map_iff in Ho. destruct Ho as [s [<- Hs]].
    apply cleaned_label_colon. apply Hcolon. now apply Hus. }
  destruct (@binary_loop_strings (map PStr us) us Hclean []) as [cm [Hrun Hmap]].
  pose proof (@policy_map_lookup _ _ _ _ Hus Hmap) as Hget.
  exists cm. split.
  - unfold generate_class_map. simpl. unfold binary_class_map. now rewrite Hu.
  - intros s Hin. rewrite (Hget s).
    apply mem_string_In in Hin. rewrite Hin. unfold binary_policy.
    repeat split.
    + now intros ->.
    + intros H.
      rewrite (@startswith_disjoint "d" "ga" "b" "enign" s) by (discriminate || exact H).
      now rewrite H.
    + now intros -> ->.
Qed.

(** Scenario A: labels ["benign:example", "dga:foo"] under the binary policy. *)
Example binary_scenario_A (dga_class_map : list (Z * string)) :
  generate_class_map dga_class_map "binary"
    (unique (map PStr ["benign:example"; "dga:foo"]%string))
  = Ok [("benign:example", 0); ("dga:foo", 1)]%string%Z.
Proof. reflexivity. Qed.

(** C6.  Under the binary policy a label column that holds a label without a
    colon gets no class map at all: every pass of the loop rebuilds
    [cleaned_labels], whose [split(":")[1]] raises IndexError, whatever the
    prefixes are. *)
Theorem binary_policy_label_without_colon :
  forall (dga_class_map : list (Z * string)) (label_column : list string) (s : string),
    In s label_column -> contains_colon s = false ->
    generate_class_map dga_class_map "binary" (unique (map PStr label_column))
    = Raise (IndexError "list index out of range").
Proof.
  intros dcm label_column s Hin Hs.
  destruct (unique_strings label_column) as [us [Hu Hus]].
  unfold generate_class_map. simpl. unfold binary_class_map. rewrite Hu.
  assert (Hraise : mapM cleaned_label (map PStr us)
                   = Raise (IndexError "list index out of range")).
  { apply mapM_raise.
    - intros o Ho. apply in_map_iff in Ho. destruct Ho as [x [<- _]].
      destruct (contains_colon x) eqn:E.
      + left. now apply cleaned_label_colon.
      + right. now apply cleaned_label_no_colon.
    - exists (PStr s). split.
      + apply in_map. now apply Hus.
      + now apply cleaned_label_no_colon. }
  destruct us as [|u us]; [exfalso; apply (proj2 (Hus s)) in Hin; destruct Hin|].
  change (map PStr (u :: us)) with (PStr u :: map PStr us) in *.
  cbn [binary_loop]. rewrite Hraise. reflexivity.
Qed.

(** The label column ["benign"] under the binary policy. *)
Lemma binary_policy_label_without_colon_witness :
  In "benign"%string ["benign"%string] /\ contains_colon "benign" = false /\
  generate_class_map [] "binary" (unique (map PStr ["benign"%string]))
  = Raise (IndexError "list index out of range").
Proof.
  split; [now left|]. split; [reflexivity|].
  apply (@binary_policy_label_without_colon [] ["benign"%string] "benign"%string);
    [now left | reflexivity].
Defined.

(** ** Row filtering *)

Lemma Rltb_true x y : (x < y)%R -> Rltb x y = true.
Proof. intros H. unfold Rltb. destruct (Rlt_dec x y); [reflexivity | contradiction]. Qed.

Lemma Rltb_false x y : (y <= x)%R -> Rltb x y = false.
Proof. intros H. unfold Rltb. destruct (Rlt_dec x y); [lra | reflexivity]. Qed.

Lemma Rltb_false_inv x y : Rltb x y = false -> (y <= x)%R.
Proof. unfold Rltb. destruct (Rlt_dec x y); [discriminate | lra]. Qed.

Lemma mem_Z_In i l : mem_Z i l = true <-> In i l.
Proof.
  unfold mem_Z. rewrite existsb_exists. split.
  - intros [x [Hin E]]. apply Z.eqb_eq in E. now subst.
  - intros Hin. exists i. split; auto. apply Z.eqb_refl.
Qed.

Lemma keep_rows_Forall {A} (P : A -> Prop) mask (l : list A) :
  Forall P l -> Forall P (keep_rows mask l).
Proof.
  intros H. revert mask. induction H as [|a l Ha Hl IH]; intros [|[|] mask]; simpl; auto.
Qed.

Lemma keep_rows_length {A B} mask (l1 : list A) (l2 : list B) :
  length l1 = length l2 -> length (keep_rows mask l1) = length (keep_rows mask l2).
Proof.
  revert l1 l2. induction mask as [|b mask IH]; intros [|a l1] [|c l2] H; simpl in *;
    try discriminate; auto.
  destruct b; simpl; auto.
Qed.

Lemma keep_rows_In {A} mask (l : list A) a : In a (keep_rows mask l) -> In a l.
Proof.
  revert l. induction mask as [|b mask IH]; intros [|x l]; simpl; auto; [tauto|].
  destruct b; simpl; intros H; [destruct H|]; auto.
Qed.

(** A row that survives the drop of the flagged index labels was not
    flagged. *)
Lemma drop_flagged {A} (g : A -> bool) : forall (idx : list Z) (xs : list A) (L : list Z),
  length idx = length xs ->
  (forall i, In i (keep_rows (map g xs) idx) -> In i L) ->
  Forall (fun x => g x = false) (keep_rows (drop_mask idx L) xs).
Proof.
  induction idx as [|i idx IH]; intros [|x xs] L Hlen Hsub; simpl in *;
    try discriminate; auto.
  assert (Htail : Forall (fun x => g x = false) (keep_rows (drop_mask idx L) xs)).
  { apply IH; [lia|]. intros j Hj. apply Hsub. destruct (g x); [now right | exact Hj]. }
  destruct (mem_Z i L) eqn:E; simpl; auto.
  constructor; auto.
  destruct (g x) eqn:G; auto.
  assert (In i L) as Hin by (apply Hsub; now left).
  apply mem_Z_In in Hin. congruence.
Qed.

Lemma nrows_keep_values mask v (idx : list Z) :
  nrows v = length idx -> nrows (keep_values mask v) = length (keep_rows mask idx).
Proof. destruct v; simpl; apply keep_rows_length. Qed.

Lemma get_column_map (g : values -> values) cols c :
  get_column (map (fun x => (fst x, g (snd x))) cols) c
  = option_map g (get_column cols c).
Proof.
  induction cols as [|[n v] cols IH]; simpl; auto.
  destruct (String.eqb c n); auto.
Qed.

Lemma get_column_In cols c v : get_column cols c = Some v -> In (c, v) cols.
Proof.
  induction cols as [|[n v'] cols IH]; simpl; [discriminate|].
  destruct (String.eqb c n) eqn:E.
  - apply String.eqb_eq in E. intros H. inversion H. subst. now left.
  - intros H. right. auto.
Qed.

Lemma df_drop_rows_inv df L df' :
  df_drop_rows df L = Ok df' ->
  index df' = keep_rows (drop_mask (index df) L) (index df) /\
  columns df' = map (fun c => (fst c, keep_values (drop_mask (index df) L) (snd c)))
                    (columns df).
Proof.
  unfold df_drop_rows. destruct (labels_found (index df) L); [|discriminate].
  intros H. inversion H. simpl. auto.
Qed.

Lemma df_drop_rows_wf df L df' :
  wf_frame df -> df_drop_rows df L = Ok df' -> wf_frame df'.
Proof.
  intros Hwf H. apply df_drop_rows_inv in H. destruct H as [Hi Hc].
  unfold wf_frame. rewrite Hc, Hi. apply Forall_map. simpl.
  eapply Forall_impl; [|exact Hwf]. intros [n v] Hn. simpl in *.
  now apply nrows_keep_values.
Qed.

Lemma within_frame_drop c lo hi df L df' :
  df_drop_rows df L = Ok df' -> within_frame c lo hi df -> within_frame c lo hi df'.
Proof.
  intros H Hw xs Hget. apply df_drop_rows_inv in H. destruct H as [_ Hc].
  rewrite Hc, get_column_map in Hget.
  destruct (get_column (columns df) c) as [v|] eqn:E; [|discriminate].
  destruct v; simpl in Hget; inversion Hget. subst.
  apply keep_rows_Forall. now apply Hw.
Qed.

Lemma within_frame_step c lo hi df col cond df' :
  wf_frame df ->
  get_column (columns df) c = Some col ->
  outlier_condition col lo hi = Ok cond ->
  df_drop_rows df (keep_rows cond (index df)) = Ok df' ->
  within_frame c lo hi df'.
Proof.
  intros Hwf Hcol Hcond Hdrop xs Hget.
  apply df_drop_rows_inv in Hdrop. destruct Hdrop as [_ Hc].
  rewrite Hc, get_column_map, Hcol in Hget.
  destruct col as [ys| |]; simpl in Hget; inversion Hget. subst xs.
  simpl in Hcond. inversion Hcond. subst cond.
  apply drop_flagged; auto.
  apply get_column_In in Hcol.
  unfold wf_frame in Hwf. rewrite Forall_forall in Hwf.
  specialize (Hwf _ Hcol). simpl in Hwf. auto.
Qed.

Lemma drop_loop_within : forall items features labels features' labels',
  wf_frame features ->
  drop_loop items features labels = Ok (features', labels') ->
  (forall c lo hi, within_frame c lo hi features -> within_frame c lo hi features') /\
  (forall c lo hi, In (c, (lo, hi)) items -> within_frame c lo hi features').
Proof.
  induction items as [|[column [lower_bound upper_bound]] rest IH];
    intros features labels features' labels' Hwf Hrun; simpl in Hrun.
  - inversion Hrun. subst. split; [auto | intros c lo hi []].
  - destruct (get_column (columns features) column) as [col|] eqn:Hcol.
    + destruct (outlier_condition col lower_bound upper_bound) as [cond|] eqn:Hcond;
        simpl in Hrun; [|discriminate].
      destruct (df_drop_rows features (keep_rows cond (index features))) as [f1|] eqn:Hf1;
        simpl in Hrun; [|discriminate].
      destruct (series_drop_rows labels (keep_rows cond (index features))) as [l1|] eqn:Hl1;
        simpl in Hrun; [|discriminate].
      destruct (IH _ _ _ _ (@df_drop_rows_wf _ _ _ Hwf Hf1) Hrun) as [Hpres Hitems].
      split.
      * intros c lo hi Hw. apply Hpres. eapply within_frame_drop; eauto.
      * intros c lo hi [Heq|Hin]; [|now apply Hitems].
        inversion Heq. subst. apply Hpres.
        eapply within_frame_step; eauto.
    + destruct (IH _ _ _ _ Hwf Hrun) as [Hpres Hitems].
      split; [exact Hpres|].
      intros c lo hi [Heq|Hin]; [|now apply Hitems].
      inversion Heq. subst. apply Hpres.
      intros xs Hget. congruence.
Qed.

(** ** remove_outliers, training mode *)

Lemma outliers_save_borders w r w' :
  save_borders w = (r, w') ->
  r = Ok tt /\ outliers w' = outliers w /\ one_line_processing w' = one_line_processing w.
Proof.
  unfold save_borders. intros H. inversion H. clear H.
  destruct (is_some (scaler w) && negb (scaler_saved w));
    destruct (is_some _ && negb _); simpl; auto.
Qed.

(** In training mode the thresholds come from the table itself, and the
    thresholding loop runs on them. *)
Lemma remove_outliers_training features labels std_multiplier w :
  one_line_processing w = false ->
  exists w',
    remove_outliers features labels std_multiplier w
    = (match compute_outliers std_multiplier features with
       | [] => Raise (ValueError "Outlier thresholds must be available for outlier removal.")
       | items => drop_loop items features labels
       end, w') /\
    outliers w' = Some (compute_outliers std_multiplier features) /\
    one_line_processing w' = false.
Proof.
  intros Hmode. unfold remove_outliers, bind, get, put. rewrite Hmode. cbn [negb].
  destruct (save_borders (set_outliers (Some (compute_outliers std_multiplier features)) w))
    as [r w'] eqn:Hsave.
  apply outliers_save_borders in Hsave. destruct Hsave as [-> [Ho Hm]].
  simpl in Ho, Hm. exists w'. rewrite Ho.
  split; [|split; [reflexivity | congruence]].
  destruct (compute_outliers std_multiplier features); reflexivity.
Qed.

Lemma outside_false_le lo hi x a b r :
  lo = Num a -> hi = Num b -> x = Num r ->
  outside lo hi x = false -> (a <= r <= b)%R.
Proof.
  intros -> -> -> H. unfold outside, fgt, flt in H.
  apply orb_false_iff in H. destruct H as [H1 H2].
  apply Rltb_false_inv in H1. apply Rltb_false_inv in H2. lra.
Qed.

(** C4 (as the code has it).  After remove_outliers has run in training
    mode, the instance holds the thresholds computed from the table, and for
    every bounded column present in the returned features no remaining value
    is below the lower bound and none is above the upper bound; where the
    value and both bounds are numbers this is lower <= value <= upper.
    Nothing is claimed of a missing value or a NaN bound: such a comparison
    is false and the row stays. *)
Theorem remove_outliers_training_within :
  forall (w : World) (features : DataFrame) (labels : Series) (std_multiplier : R)
         (features' : DataFrame) (labels' : Series) (w' : World),
    one_line_processing w = false ->
    wf_frame features ->
    remove_outliers features labels std_multiplier w = (Ok (features', labels'), w') ->
    outliers w' = Some (compute_outliers std_multiplier features) /\
    forall column lower_bound upper_bound xs,
      In (column, (lower_bound, upper_bound)) (compute_outliers std_multiplier features) ->
      get_column (columns features') column = Some (float64s xs) ->
      Forall (fun x =>
                flt x lower_bound = false /\ fgt x upper_bound = false /\
                forall a b r, lower_bound = Num a -> upper_bound = Num b -> x = Num r ->
                              (a <= r <= b)%R) xs.
Proof.
  intros w features labels k features' labels' w' Hmode Hwf Hrun.
  destruct (@remove_outliers_training features labels k w Hmode) as [w1 [Heq [Ho _]]].
  rewrite Heq in Hrun. inversion Hrun as [[Hloop Hw]]. subst w1.
  split; [exact Ho|].
  intros column lo hi xs Hin Hget.
  assert (Hl : drop_loop (compute_outliers k features) features labels
               = Ok (features', labels')).
  { destruct (compute_outliers k features); [discriminate | exact Hloop]. }
  destruct (@drop_loop_within _ _ _ _ _ Hwf Hl) as [_ Hitems].
  specialize (Hitems _ _ _ Hin xs Hget).
  eapply Forall_impl; [|exact Hitems].
  intros x Hx. simpl in Hx.
  pose proof Hx as Hx'. unfold outside in Hx'. apply orb_false_iff in Hx'.
  destruct Hx' as [H1 H2]. split; [exact H1|]. split; [exact H2|].
  intros a b r Ha Hb Hr. eapply outside_false_le; eauto.
Qed.

Lemma one_row_table_run :
  exists w',
    remove_outliers one_row_table one_row_labels 8 training_world
    = (Ok (one_row_table, one_row_labels), w') /\
    outliers w' = Some [("lex_len"%string, (NaN, NaN))].
Proof.
  eexists. split; reflexivity.
Qed.

Lemma five_row_bounds :
  exists lo hi,
    column_bounds 1 five_row_values = (Num lo, Num hi) /\
    (-3 < lo < -2)%R /\ (6 < hi < 7)%R.
Proof.
  assert (Hm : mean five_row_values = Num 2).
  { unfold mean, five_row_values, Rsum. simpl. f_equal. lra. }
  assert (Hs : std five_row_values = Num (sqrt 20)).
  { unfold std, five_row_values, sum_sq_dev, Rsum. simpl. f_equal. f_equal. lra. }
  unfold column_bounds. rewrite Hm, Hs. simpl.
  eexists. eexists. split; [reflexivity|].
  assert (4 < sqrt 20 < 5)%R.
  { split.
    - rewrite <- (sqrt_square 4) at 1 by lra. apply sqrt_lt_1_alt. lra.
    - rewrite <- (sqrt_square 5) at 1 by lra. apply sqrt_lt_1_alt. lra. }
  lra.
Qed.

Lemma five_row_loop lo hi :
  (lo <= 0)%R -> (0 <= hi)%R -> (hi < 10)%R ->
  drop_loop [("lex_len"%string, (Num lo, Num hi))] five_row_table five_row_labels
  = Ok (mkDataFrame [0; 1; 2; 3]%Z [("lex_len"%string, float64s [Num 0; Num 0; Num 0; Num 0])],
        mkSeries [0; 1; 2; 3]%Z [0; 0; 0; 0]%Z).
Proof.
  intros Hlo Hhi Hhi'.
  assert (Hcond : map (outside (Num lo) (Num hi)) five_row_values
                  = [false; false; false; false; true]).
  { unfold five_row_values, outside, fgt, flt. cbn [map].
    rewrite (@Rltb_false 0 lo), (@Rltb_false hi 0), (@Rltb_false 10 lo),
            (@Rltb_true hi 10) by lra.
    reflexivity. }
  cbn [drop_loop get_column five_row_table columns String.eqb Ascii.eqb Bool.eqb
       outlier_condition rbind].
  fold five_row_values. rewrite Hcond. reflexivity.
Qed.

Lemma five_row_run :
  exists w',
    remove_outliers five_row_table five_row_labels 1 training_world
    = (Ok (mkDataFrame [0; 1; 2; 3]%Z
                       [("lex_len"%string, float64s [Num 0; Num 0; Num 0; Num 0])],
           mkSeries [0; 1; 2; 3]%Z [0; 0; 0; 0]%Z), w').
Proof.
  destruct (@remove_outliers_training five_row_table five_row_labels 1 training_world
              eq_refl) as [w' [Heq _]].
  exists w'. rewrite Heq. f_equal.
  destruct five_row_bounds as [lo [hi [Hb [Hlo Hhi]]]].
  assert (Hc : compute_outliers 1 five_row_table = [("lex_len"%string, (Num lo, Num hi))]).
  { unfold compute_outliers. simpl. fold five_row_values. now rewrite Hb. }
  rewrite Hc. apply five_row_loop; lra.
Qed.

Lemma remove_outliers_training_within_witness :
  exists w' lower_bound upper_bound,
    remove_outliers five_row_table five_row_labels 1 training_world
    = (Ok (mkDataFrame [0; 1; 2; 3]%Z
                       [("lex_len"%string, float64s [Num 0; Num 0; Num 0; Num 0])],
           mkSeries [0; 1; 2; 3]%Z [0; 0; 0; 0]%Z), w') /\
    outliers w' = Some [("lex_len"%string, (Num lower_bound, Num upper_bound))] /\
    (lower_bound <= 0 <= upper_bound)%R.
Proof.
  destruct five_row_run as [w' Hrun].
  destruct five_row_bounds as [lo [hi [Hb [Hlo Hhi]]]].
  assert (Hc : compute_outliers 1 five_row_table = [("lex_len"%string, (Num lo, Num hi))]).
  { unfold compute_outliers. simpl. fold five_row_values. now rewrite Hb. }
  assert (Hwf : wf_frame five_row_table) by (repeat constructor).
  destruct (@remove_outliers_training_within training_world five_row_table
              five_row_labels 1 _ _ w' eq_refl Hwf Hrun) as [Ho H].
  rewrite Hc in Ho, H.
  exists w', lo, hi. split; [exact Hrun|]. split; [exact Ho|].
  specialize (H "lex_len"%string (Num lo) (Num hi) [Num 0; Num 0; Num 0; Num 0]
                (or_introl eq_refl) eq_refl).
  inversion H as [|x l [_ [_ Hle]] _]. subst.
  exact (Hle lo hi 0%R eq_refl eq_refl eq_refl).
Defined.

(** C4, the claim as stated fails: the row of a one-row training table
    remains, its column is bounded, and [lower <= value <= upper] does not
    hold of it. *)
Lemma remove_outliers_one_row_not_within :
  exists features' labels' w' lower_bound upper_bound,
    remove_outliers one_row_table one_row_labels 8 training_world
    = (Ok (features', labels'), w') /\
    outliers w' = Some [("lex_len"%string, (lower_bound, upper_bound))] /\
    get_column (columns features') "lex_len" = Some (float64s [Num 5]) /\
    ~ (fle lower_bound (Num 5) /\ fle (Num 5) upper_bound).
Proof.
  destruct one_row_table_run as [w' [Hrun Ho]].
  exists one_row_table, one_row_labels, w', NaN, NaN.
  repeat split; auto. intros [H _]. exact H.
Qed.

(** ** The thresholds *)

Lemma fold_dict_set_notin {A V} (key : A -> string) (g : A -> V) l : forall d n,
  ~ In n (map key l) ->
  dict_get (fold_left (fun d c => dict_set d (key c) (g c)) l d) n = dict_get d n.
Proof.
  induction l as [|a l IH]; intros d n Hn; simpl in *; auto.
  rewrite IH by tauto. apply dict_get_set_other. intros E. apply Hn. now left.
Qed.

Lemma fold_dict_set_in {A V} (key : A -> string) (g : A -> V) l : forall d a,
  NoDup (map key l) -> In a l ->
  dict_get (fold_left (fun d c => dict_set d (key c) (g c)) l d) (key a) = Some (g a).
Proof.
  induction l as [|x l IH]; intros d a Hnd Hin; simpl in *; [destruct Hin|].
  inversion Hnd as [|? ? Hx Hl]. subst.
  destruct Hin as [->|Hin].
  - rewrite fold_dict_set_notin by assumption. apply dict_get_set_same.
  - now apply IH.
Qed.

Lemma fold_dict_set_keys {A V} (key : A -> string) (g : A -> V) l : forall d n v,
  dict_get (fold_left (fun d c => dict_set d (key c) (g c)) l d) n = Some v ->
  dict_get d n = Some v \/ exists a, In a l /\ key a = n /\ g a = v.
Proof.
  induction l as [|x l IH]; intros d n v H; simpl in *; auto.
  apply IH in H. destruct H as [H|[a [Ha [Hk Hg]]]].
  - destruct (String.eqb (key x) n) eqn:E.
    + apply String.eqb_eq in E. subst n. rewrite dict_get_set_same in H.
      inversion H. right. exists x. auto.
    + rewrite dict_get_set_other in H; auto.
      intros E'. subst. now rewrite String.eqb_refl in E.
  - right. exists a. auto.
Qed.

(** Every numeric column gets the pair [mean -/+ std_multiplier * std], and
    only numeric columns get one. *)
Lemma compute_outliers_spec std_multiplier features :
  NoDup (map fst (numeric_columns (columns features))) ->
  (forall column xs, In (column, xs) (numeric_columns (columns features)) ->
     dict_get (compute_outliers std_multiplier features) column
     = Some (fsub (mean xs) (fmul (Num std_multiplier) (std xs)),
             fadd (mean xs) (fmul (Num std_multiplier) (std xs)))) /\
  (forall column b, dict_get (compute_outliers std_multiplier features) column = Some b ->
     exists xs, In (column, xs) (numeric_columns (columns features)) /\
                b = column_bounds std_multiplier xs).
Proof.
  intros Hnd. unfold compute_outliers. split.
  - intros column xs Hin.
    apply (@fold_dict_set_in _ _ fst (fun c => column_bounds std_multiplier (snd c))
             _ [] (column, xs) Hnd Hin).
  - intros column b H.
    apply (@fold_dict_set_keys _ _ fst (fun c => column_bounds std_multiplier (snd c))) in H.
    destruct H as [H|[[n xs] [Ha [Hk Hg]]]]; [discriminate|].
    simpl in *. subst. eauto.
Qed.

(** ** Rows that no threshold flags *)

Lemma keep_rows_all_true {A B} (f : B -> bool) (idx : list B) (l : list A) :
  (forall i, In i idx -> f i = true) -> length l = length idx ->
  keep_rows (map f idx) l = l.
Proof.
  revert l. induction idx as [|i idx IH]; intros [|a l] Hall Hlen; simpl in *;
    try discriminate; auto.
  rewrite Hall by auto. f_equal. apply IH; auto.
Qed.

Lemma keep_rows_all_false {A} n (l : list A) : keep_rows (repeat false n) l = [].
Proof.
  revert l. induction n as [|n IH]; intros [|a l]; simpl; auto.
Qed.

Lemma drop_mask_nil idx : drop_mask idx [] = map (fun _ => true) idx.
Proof. reflexivity. Qed.

Lemma df_drop_rows_nil df : wf_frame df -> df_drop_rows df [] = Ok df.
Proof.
  intros Hwf. unfold df_drop_rows. simpl. rewrite drop_mask_nil.
  destruct df as [idx cols]. simpl in *. f_equal. f_equal.
  - apply keep_rows_all_true; auto.
  - unfold wf_frame in Hwf. simpl in Hwf.
    induction cols as [|[n v] cols IH]; simpl; auto.
    inversion Hwf as [|? ? Hv Hcols]. subst. rewrite IH by assumption.
    f_equal. f_equal. simpl in Hv.
    destruct v; simpl in *; f_equal; apply keep_rows_all_true; auto.
Qed.

Lemma series_drop_rows_nil s :
  length (svalues s) = length (sindex s) -> series_drop_rows s [] = Ok s.
Proof.
  intros Hlen. unfold series_drop_rows. simpl. rewrite drop_mask_nil.
  destruct s as [idx vals]. simpl in *. f_equal. f_equal; apply keep_rows_all_true; auto.
Qed.

(** When no bounded column flags any row, the loop returns the table and the
    labels as they came. *)
Lemma drop_loop_unchanged : forall items features labels,
  wf_frame features ->
  length (svalues labels) = length (sindex labels) ->
  (forall c lo hi v, In (c, (lo, hi)) items ->
     get_column (columns features) c = Some v ->
     outlier_condition v lo hi = Ok (repeat false (nrows v))) ->
  drop_loop items features labels = Ok (features, labels).
Proof.
  induction items as [|[c [lo hi]] rest IH]; intros features labels Hwf Hlen Hall;
    simpl; auto.
  destruct (get_column (columns features) c) as [v|] eqn:Hv.
  - rewrite (Hall c lo hi v (or_introl eq_refl) Hv). cbn [rbind].
    rewrite keep_rows_all_false, df_drop_rows_nil by assumption. cbn [rbind].
    rewrite series_drop_rows_nil by assumption. cbn [rbind].
    apply IH; auto. intros; eapply Hall; eauto. now right.
  - apply IH; auto. intros; eapply Hall; eauto. now right.
Qed.

(** ** Scenario C: the column [1, 2, 3, 4, 100] *)

Lemma scenario_C_mean : mean scenario_C_values = Num 22.
Proof. unfold mean, scenario_C_values, Rsum. simpl. f_equal. lra. Qed.

Lemma scenario_C_std : std scenario_C_values = Num (sqrt (3805 / 2)).
Proof.
  unfold std, scenario_C_values, sum_sq_dev, Rsum. simpl. f_equal. f_equal. lra.
Qed.

Lemma sqrt_between (lo hi x : R) :
  (0 <= lo)%R -> (lo * lo < x)%R -> (x < hi * hi)%R -> (0 <= hi)%R ->
  (lo < sqrt x < hi)%R.
Proof.
  intros Hlo H1 H2 Hhi. split.
  - rewrite <- (sqrt_square lo) at 1 by assumption.
    apply sqrt_lt_1_alt. split; [nra | assumption].
  - rewrite <- (sqrt_square hi) at 1 by assumption.
    apply sqrt_lt_1_alt. split; [nra | assumption].
Qed.

Lemma scenario_C_sqrt : (4361 / 100 < sqrt (3805 / 2) < 4362 / 100)%R.
Proof. apply sqrt_between; lra. Qed.

Lemma scenario_C_bounds :
  exists lo hi,
    column_bounds 8 scenario_C_values = (Num lo, Num hi) /\
    (-327 < lo < -326)%R /\ (370 < hi < 371)%R.
Proof.
  unfold column_bounds. rewrite scenario_C_mean, scenario_C_std. simpl.
  eexists. eexists. split; [reflexivity|].
  pose proof scenario_C_sqrt. lra.
Qed.

Lemma scenario_C_no_flag lo hi :
  (lo < 1)%R -> (100 < hi)%R ->
  map (outside (Num lo) (Num hi)) scenario_C_values = repeat false 5.
Proof.
  intros Hlo Hhi. unfold scenario_C_values, outside, fgt, flt. simpl.
  rewrite !Rltb_false by lra. reflexivity.
Qed.

(** C5 (as the code has it).  In training mode remove_outliers stores, for
    every numeric column and no other, the pair (mean - 8*std, mean + 8*std),
    std being the sample standard deviation; for the column [1,2,3,4,100]
    the pair lies in (-327, -326) x (370, 371), and no row is removed. *)
Theorem remove_outliers_bounds :
  forall (w : World) (features : DataFrame) (labels : Series),
    one_line_processing w = false ->
    NoDup (map fst (numeric_columns (columns features))) ->
    (outliers (snd (remove_outliers features labels 8 w))
     = Some (compute_outliers 8 features) /\
     (forall column xs, In (column, xs) (numeric_columns (columns features)) ->
        dict_get (compute_outliers 8 features) column
        = Some (fsub (mean xs) (fmul (Num 8) (std xs)),
                fadd (mean xs) (fmul (Num 8) (std xs)))) /\
     (forall column b, dict_get (compute_outliers 8 features) column = Some b ->
        exists xs, In (column, xs) (numeric_columns (columns features)))) /\
    (exists lo hi,
       dict_get (compute_outliers 8 scenario_C_table) "x" = Some (Num lo, Num hi) /\
       (-327 < lo < -326)%R /\ (370 < hi < 371)%R) /\
    fst (remove_outliers scenario_C_table scenario_C_labels 8 w)
    = Ok (scenario_C_table, scenario_C_labels).
Proof.
  intros w features labels Hmode Hnd. split; [|split].
  - destruct (@remove_outliers_training features labels 8 w Hmode) as [w' [Heq [Ho _]]].
    rewrite Heq. simpl. split; [exact Ho|].
    destruct (@compute_outliers_spec 8 features Hnd) as [H1 H2].
    split; [exact H1|].
    intros column b Hb. destruct (H2 column b Hb) as [xs [Hin _]]. eauto.
  - destruct scenario_C_bounds as [lo [hi [Hb [Hlo Hhi]]]].
    exists lo, hi. split; [|split; assumption].
    unfold compute_outliers. simpl.
    fold scenario_C_values. now rewrite Hb.
  - destruct (@remove_outliers_training scenario_C_table scenario_C_labels 8 w Hmode)
      as [w' [Heq _]].
    rewrite Heq. cbn [fst].
    destruct scenario_C_bounds as [lo [hi [Hb [Hlo Hhi]]]].
    assert (Hc : compute_outliers 8 scenario_C_table = [("x"%string, (Num lo, Num hi))]).
    { unfold compute_outliers. simpl. fold scenario_C_values. now rewrite Hb. }
    rewrite Hc. apply drop_loop_unchanged.
    + repeat constructor.
    + reflexivity.
    + intros c lo' hi' v [Hin|[]] Hget. inversion Hin. subst.
      simpl in Hget. inversion Hget. subst v. simpl.
      f_equal. apply scenario_C_no_flag; lra.
Qed.

Lemma remove_outliers_bounds_witness :
  exists lo hi,
    dict_get (compute_outliers 8 scenario_C_table) "x" = Some (Num lo, Num hi) /\
    (-327 < lo < -326)%R /\ (370 < hi < 371)%R.
Proof.
  assert (Hnd : NoDup (map fst (numeric_columns (columns scenario_C_table))))
    by (repeat constructor; simpl; tauto).
  exact (proj1 (proj2 (@remove_outliers_bounds training_world scenario_C_table
                         scenario_C_labels eq_refl Hnd))).
Defined.

(** C5, the numbers of the claim: the thresholds of [1,2,3,4,100] are not
    about [-288, 332]; each is more than 38 away. *)
Lemma scenario_C_bounds_not_as_claimed :
  exists lo hi,
    dict_get (compute_outliers 8 scenario_C_table) "x" = Some (Num lo, Num hi) /\
    ~ approximately 38 lo (-288) /\ ~ approximately 38 hi 332.
Proof.
  destruct scenario_C_bounds as [lo [hi [Hb [Hlo Hhi]]]].
  exists lo, hi. split; [|split].
  - unfold compute_outliers. simpl. fold scenario_C_values. now rewrite Hb.
  - unfold approximately. intros H. unfold Rabs in H. destruct (Rcase_abs _); lra.
  - unfold approximately. intros H. unfold Rabs in H. destruct (Rcase_abs _); lra.
Qed.

(** ** remove_outliers, serving mode *)

Lemma load_borders_spec w :
  exists w',
    load_borders w = (Ok tt, w') /\
    scaler w' = match scaler_file w with Some s => Some s | None => scaler w end /\
    outliers w' = match outliers_file w with Some o => Some o | None => outliers w end /\
    one_line_processing w' = one_line_processing w /\
    scaler_file w' = scaler_file w.
Proof.
  unfold load_borders. eexists. split; [reflexivity|].
  destruct (scaler_file w) eqn:Es; simpl; destruct (outliers_file w) eqn:Eo; simpl;
    rewrite ?Es, ?Eo; auto.
Qed.

Lemma remove_outliers_serving features labels std_multiplier w bounds :
  one_line_processing w = true ->
  outliers_file w = Some bounds ->
  exists w',
    remove_outliers features labels std_multiplier w
    = (match bounds with
       | [] => Raise (ValueError "Outlier thresholds must be available for outlier removal.")
       | items => drop_loop items features labels
       end, w') /\
    outliers w' = Some bounds /\ one_line_processing w' = true.
Proof.
  intros Hmode Hfile. unfold remove_outliers, bind, get.
  rewrite Hmode. cbn [negb].
  destruct (load_borders_spec w) as [w' [-> [_ [Ho [Hm _]]]]].
  rewrite Hfile in Ho. exists w'. rewrite Ho.
  split; [|split; [reflexivity | congruence]].
  destruct bounds; reflexivity.
Qed.








(** A string in a bounded column of the record: the comparison raises. *)
Example remove_outliers_serving_string_cell :
  fst (remove_outliers (mkDataFrame [0%Z] [("lex_len"%string, objects [PStr "five"])])
                       (mkSeries [0%Z] [0%Z]) 8
                       (serving_world [("lex_len"%string, (Num 0, Num 1))]))
  = Raise (TypeError "'<' not supported between these instances").
Proof. reflexivity. Qed.


(** ** apply_scaling *)

(** In serving mode the scaler type plays no part. *)
Lemma apply_scaling_serving_any df t1 t2 w :
  one_line_processing w = true -> apply_scaling df t1 w = apply_scaling df t2 w.
Proof.
  intros Hmode. unfold apply_scaling, bind, get. rewrite Hmode. reflexivity.
Qed.

(** In serving mode with a scaler file, the result is the transform of the
    persisted scaler. *)
Lemma apply_scaling_serving_replay df t w s :
  one_line_processing w = true -> scaler_file w = Some s ->
  fst (apply_scaling df t w)
  = rbind (transform s (length (index df)) (numeric_columns (columns df)))
          (fun scaled_data =>
             Ok (mkDataFrame (index df)
                   (map (fun c => (fst c, float64s (snd c))) scaled_data
                    ++ other_columns (columns df)))).
Proof.
  intros Hmode Hfile. unfold apply_scaling, bind, get. rewrite Hmode. cbn [negb].
  destruct (load_borders_spec w) as [w' [-> [Hs _]]].
  rewrite Hfile in Hs. rewrite Hs. unfold lift.
  destruct (transform s _ _); reflexivity.
Qed.

(** C3.  In serving mode with no scaler in the instance and no scaler file,
    apply_scaling does not skip scaling, and it does not raise the
    ValueError that the sibling checks raise either: calling [transform] on
    [None] raises AttributeError. *)
Theorem apply_scaling_serving_without_scaler :
  forall (w : World) (df : DataFrame) (scaler_type : string),
    one_line_processing w = true ->
    scaler w = None -> scaler_file w = None ->
    fst (apply_scaling df scaler_type w)
    = Raise (AttributeError "'NoneType' object has no attribute 'transform'").
Proof.
  intros w df t Hmode Hs Hfile. unfold apply_scaling, bind, get.
  rewrite Hmode. cbn [negb].
  destruct (load_borders_spec w) as [w' [-> [Hs' _]]].
  rewrite Hfile, Hs in Hs'. rewrite Hs'. reflexivity.
Qed.

Lemma apply_scaling_serving_without_scaler_witness :
  fst (apply_scaling (mkDataFrame [0%Z] [("lex_len"%string, float64s [Num 5])])
                     "StandardScaler"
                     (serving_world [("lex_len"%string, (Num 0, Num 10))]))
  = Raise (AttributeError "'NoneType' object has no attribute 'transform'").
Proof.
  apply (@apply_scaling_serving_without_scaler
           (serving_world [("lex_len"%string, (Num 0, Num 10))])
           (mkDataFrame [0%Z] [("lex_len"%string, float64s [Num 5])])
           "StandardScaler"); reflexivity.
Defined.

Lemma apply_scaling_unsupported w df t :
  one_line_processing w = false -> supported_scaler t = false ->
  apply_scaling df t w = (Raise (ValueError ("Unsupported scaler type: " ++ t)), w).
Proof.
  intros Hmode Hun. unfold supported_scaler in Hun.
  apply orb_false_iff in Hun. destruct Hun as [Hun H4].
  apply orb_false_iff in Hun. destruct Hun as [Hun H3].
  apply orb_false_iff in Hun. destruct Hun as [H1 H2].
  unfold apply_scaling, bind, get. rewrite Hmode. cbn [negb].
  rewrite H1, H2, H3, H4. reflexivity.
Qed.

(** ** scaler_recommendation against its description *)

Lemma zip_or_length a : forall b, length a = length b -> length (zip_or a b) = length a.
Proof.
  induction a as [|x a IH]; intros [|y b] H; simpl in *; try discriminate; auto.
Qed.

Lemma zip_or_nth a : forall b i,
  length a = length b -> nth i (zip_or a b) false = nth i a false || nth i b false.
Proof.
  induction a as [|x a IH]; intros [|y b] i H; simpl in *; try discriminate.
  - now destruct i.
  - destruct i; auto.
Qed.

Lemma fold_zip_or {A} (g : A -> list bool) n X : forall acc,
  length acc = n -> (forall c, In c X -> length (g c) = n) ->
  length (fold_left (fun acc c => zip_or acc (g c)) X acc) = n /\
  forall i, nth i (fold_left (fun acc c => zip_or acc (g c)) X acc) false
            = nth i acc false || existsb (fun c => nth i (g c) false) X.
Proof.
  induction X as [|c X IH]; intros acc Hacc Hall; simpl.
  - split; auto. intros i. now rewrite orb_false_r.
  - assert (Hc : length (g c) = n) by (apply Hall; now left).
    destruct (IH (zip_or acc (g c))) as [Hlen Hnth].
    + rewrite zip_or_length; congruence.
    + intros c' Hc'. apply Hall. now right.
    + split; auto. intros i. rewrite Hnth, zip_or_nth by congruence.
      now rewrite orb_assoc.
Qed.

Lemma count_true_filter l : forall k,
  length (filter (fun i => nth (i - k) l false) (seq k (length l))) = count_true l.
Proof.
  induction l as [|a l IH]; intros k; [reflexivity|].
  change (seq k (length (a :: l))) with (k :: seq (S k) (length l)).
  cbn [filter]. rewrite Nat.sub_diag. cbn [nth].
  rewrite (@filter_ext_in _ (fun i => nth (i - k) (a :: l) false)
             (fun i => nth (i - S k) l false)).
  - unfold count_true in *. destruct a; simpl; rewrite IH; reflexivity.
  - intros i Hi. apply in_seq in Hi.
    replace (i - k)%nat with (S (i - S k)) by lia. reflexivity.
Qed.

Lemma numeric_columns_wf df c :
  wf_frame df -> In c (numeric_columns (columns df)) ->
  length (snd c) = length (index df).
Proof.
  unfold wf_frame. generalize (length (index df)) as n.
  intros n Hwf. induction Hwf as [|[nm v] cols Hv Hcols IH]; simpl; [tauto|].
  destruct v; simpl in *; auto. intros [<-|H]; auto.
Qed.

Lemma numeric_columns_iff cols c xs :
  In (c, xs) (numeric_columns cols) <-> In (c, float64s xs) cols.
Proof.
  induction cols as [|[n v] cols IH]; simpl; [tauto|].
  destruct v; simpl; rewrite IH; split; intros H; auto;
    try (destruct H as [H|H]; [inversion H; auto | auto]);
    try (destruct H as [H|H]; [discriminate | auto]).
Qed.

Lemma nth_map_true {A} (f : A -> bool) l : forall i,
  nth i (map f l) false = true <-> exists z, nth_error l i = Some z /\ f z = true.
Proof.
  induction l as [|a l IH]; intros [|i]; simpl.
  - split; [discriminate | intros [z [H _]]; discriminate].
  - split; [discriminate | intros [z [H _]]; discriminate].
  - split; [eauto | intros [z [H Hz]]; inversion H; now subst].
  - apply IH.
Qed.

(** The flags of [zscore_outliers], row by row. *)
Lemma zscore_outliers_spec zscore df :
  wf_frame df ->
  (forall c xs, In (c, float64s xs) (columns df) -> length (zscore xs) = length xs) ->
  let flags := zscore_outliers zscore (length (index df)) (numeric_columns (columns df)) in
  length flags = length (index df) /\
  forall i, (i < length (index df))%nat ->
            (nth i flags false = true <-> row_is_outlier zscore df i).
Proof.
  intros Hwf Hlen. unfold zscore_outliers.
  set (n := length (index df)).
  set (g := fun c : string * list float64 =>
              map (fun z => PrimFloat.ltb 3 (PrimFloat.abs z)) (zscore (snd c))).
  destruct (@fold_zip_or _ g n (numeric_columns (columns df)) (repeat false n))
    as [Hl Hnth].
  - apply repeat_length.
  - intros [c xs] Hc. unfold g. rewrite length_map. cbn [snd].
    rewrite (Hlen c xs) by (now apply numeric_columns_iff).
    apply (@numeric_columns_wf df (c, xs) Hwf Hc).
  - cbv zeta. split; [exact Hl|]. intros i Hi. rewrite Hnth, nth_repeat. cbn [orb].
    rewrite existsb_exists. unfold row_is_outlier. split.
    + intros [[c xs] [Hc Hz]]. unfold g in Hz. cbn [snd] in Hz.
      apply nth_map_true in Hz. destruct Hz as [z [Hz1 Hz2]].
      exists c, xs, z. split; [now apply numeric_columns_iff | auto].
    + intros [c [xs [z [Hc [Hz1 Hz2]]]]]. exists (c, xs).
      split; [now apply numeric_columns_iff|].
      unfold g. cbn [snd]. apply nth_map_true. eauto.
Qed.

Lemma missing_values_spec df : (0 <? missing_values df)%nat = true <-> has_missing df.
Proof.
  unfold missing_values, has_missing.
  assert (Hcell : forall v, isnull_any v = true <->
            match v with
            | float64s xs => In NaN xs
            | bools _ => False
            | objects os => In PNone os
            end).
  { intros [xs|bs|os]; simpl.
    - unfold has_nan. rewrite existsb_exists. split.
      + intros [[x|] [Hin Hx]]; [discriminate | exact Hin].
      + intros Hin. exists NaN. auto.
    - split; [discriminate | tauto].
    - rewrite existsb_exists. split.
      + intros [[s0| |x] [Hin Hx]]; try discriminate. exact Hin.
      + intros Hin. exists PNone. auto. }
  rewrite Nat.ltb_lt. split.
  - intros Hpos. destruct (filter _ (columns df)) as [|[c v] l] eqn:E; [simpl in Hpos; lia|].
    assert (Hin : In (c, v) (filter (fun c => isnull_any (snd c)) (columns df)))
      by (rewrite E; now left).
    apply filter_In in Hin. destruct Hin as [Hin Hnull].
    exists c, v. split; [exact Hin | now apply Hcell].
  - intros [c [v [Hin Hmiss]]].
    assert (Hf : In (c, v) (filter (fun c => isnull_any (snd c)) (columns df)))
      by (apply filter_In; split; [exact Hin | now apply Hcell]).
    destruct (filter _ (columns df)); [destruct Hf | simpl; lia].
Qed.

Lemma scaler_recommendation_svm zscore df :
  dict_get (scaler_recommendation zscore df) "svm"
  = Some (if fgt (bool_mean (zscore_outliers zscore (length (index df))
                               (numeric_columns (columns df))))
                 (Num (5 / 100)) || (0 <? missing_values df)%nat
          then "RobustScaler" else "StandardScaler")%string.
Proof.
  unfold scaler_recommendation. destruct (fgt _ _ || _); reflexivity.
Qed.

Lemma scaler_recommendation_xgboost zscore df :
  dict_get (scaler_recommendation zscore df) "xgboost" = Some "MinMaxScaler"%string.
Proof.
  unfold scaler_recommendation.
  destruct (fgt _ _ || _); reflexivity.
Qed.

Lemma bool_mean_exceeds flags :
  fgt (bool_mean flags) (Num (5 / 100)) = true <->
  (INR (count_true flags) / INR (length flags) > 5 / 100)%R.
Proof.
  destruct flags as [|b flags].
  - simpl. split; [discriminate|]. unfold Rdiv. rewrite Rmult_0_l. lra.
  - unfold bool_mean, fgt, flt, Rltb.
    destruct (Rlt_dec (5 / 100) _); split; intros H;
      try reflexivity; try discriminate; unfold Rgt in *; try lra; auto.
Qed.

(** C9.  For a frame [df] and the z-scores the library computes for its
    numeric columns (one per cell, in binary64), scaler_recommendation gives
    'RobustScaler' for 'svm' exactly when the fraction of rows with a z-score
    of magnitude above 3 in some numeric column exceeds 0.05 or some cell is
    missing, and 'StandardScaler' otherwise; for 'xgboost' it always gives
    'MinMaxScaler'.  In training mode apply_scaling raises ValueError on a
    scaler name that is none of the four it knows. *)
Theorem scaler_recommendation_policy :
  forall (zscore : list float64 -> list float) (df : DataFrame),
    wf_frame df ->
    (forall c xs, In (c, float64s xs) (columns df) -> length (zscore xs) = length xs) ->
    exists outlier_rows : list nat,
      NoDup outlier_rows /\
      (forall i, In i outlier_rows <->
                 (i < length (index df))%nat /\ row_is_outlier zscore df i) /\
      (dict_get (scaler_recommendation zscore df) "svm" = Some "RobustScaler"%string <->
       (INR (length outlier_rows) / INR (length (index df)) > 5 / 100)%R \/
       has_missing df) /\
      (dict_get (scaler_recommendation zscore df) "svm" = Some "StandardScaler"%string <->
       ~ ((INR (length outlier_rows) / INR (length (index df)) > 5 / 100)%R \/
          has_missing df)) /\
      dict_get (scaler_recommendation zscore df) "xgboost" = Some "MinMaxScaler"%string /\
      forall (w : World) (scaler_type : string),
        one_line_processing w = false ->
        scaler_type <> "StandardScaler"%string -> scaler_type <> "MinMaxScaler"%string ->
        scaler_type <> "RobustScaler"%string ->
        scaler_type <> "MinMaxScaler + Sigmoid"%string ->
        fst (apply_scaling df scaler_type w)
        = Raise (ValueError ("Unsupported scaler type: " ++ scaler_type)).
Proof.
  intros zscore df Hwf Hlen.
  destruct (@zscore_outliers_spec zscore df Hwf Hlen) as [Hl Hflag].
  set (flags := zscore_outliers zscore (length (index df))
                                (numeric_columns (columns df))) in *.
  exists (filter (fun i => nth i flags false) (seq 0 (length (index df)))).
  assert (Hcount : length (filter (fun i => nth i flags false) (seq 0 (length (index df))))
                   = count_true flags).
  { rewrite <- (count_true_filter flags 0), Hl.
    f_equal. apply filter_ext. intros i. now rewrite Nat.sub_0_r. }
  assert (Hcond : fgt (bool_mean flags) (Num (5 / 100)) || (0 <? missing_values df)%nat = true
                  <-> (INR (count_true flags) / INR (length (index df)) > 5 / 100)%R \/
                      has_missing df).
  { rewrite orb_true_iff, bool_mean_exceeds, missing_values_spec, Hl. tauto. }
  rewrite Hcount.
  split; [apply NoDup_filter, seq_NoDup|]. split; [|split; [|split; [|split]]].
  - intros i. rewrite filter_In, in_seq. split.
    + intros [[_ Hi] Hn]. split; [lia|]. apply Hflag; [lia | exact Hn].
    + intros [Hi Hr]. split; [lia|]. apply Hflag; assumption.
  - rewrite scaler_recommendation_svm. fold flags. rewrite <- Hcond.
    destruct (fgt (bool_mean flags) (Num (5 / 100)) || (0 <? missing_values df)%nat);
      split; auto; discriminate.
  - rewrite scaler_recommendation_svm. fold flags. rewrite <- Hcond.
    destruct (fgt (bool_mean flags) (Num (5 / 100)) || (0 <? missing_values df)%nat);
      split; auto; try discriminate. intros H. now elim H.
  - apply scaler_recommendation_xgboost.
  - intros w t Hmode H1 H2 H3 H4. rewrite apply_scaling_unsupported; auto.
    unfold supported_scaler. apply String.eqb_neq in H1, H2, H3, H4.
    now rewrite H1, H2, H3, H4.
Qed.

(** The replay of the library on the column [5, 4, ..., 4]: the first
    z-score comes out above 3 (3.0000000000000013), the others near -1/3. *)
Lemma five_fours_flags :
  map (fun z => PrimFloat.ltb 3 (PrimFloat.abs z)) (Binary64.zscore five_fours64)
  = [true; false; false; false; false; false; false; false; false; false].
Proof. vm_compute. reflexivity. Qed.

Lemma five_fours_recommendation :
  dict_get (scaler_recommendation (fun _ => Binary64.zscore five_fours64) five_fours_table)
           "svm"
  = Some "RobustScaler"%string.
Proof.
  rewrite scaler_recommendation_svm.
  unfold zscore_outliers, five_fours_table.
  cbn [columns index numeric_columns fold_left snd length repeat].
  rewrite five_fours_flags. cbn [zip_or orb].
  assert (H : fgt (bool_mean [true; false; false; false; false; false; false; false;
                              false; false]) (Num (5 / 100)) = true).
  { apply bool_mean_exceeds. simpl. lra. }
  rewrite H. reflexivity.
Qed.

Lemma scaler_recommendation_policy_witness :
  dict_get (scaler_recommendation (fun _ => Binary64.zscore five_fours64) five_fours_table)
           "svm"
  = Some "RobustScaler"%string /\
  dict_get (scaler_recommendation (fun _ => Binary64.zscore five_fours64) five_fours_table)
           "xgboost"
  = Some "MinMaxScaler"%string /\
  fst (apply_scaling five_fours_table "PowerTransformer" training_world)
  = Raise (ValueError "Unsupported scaler type: PowerTransformer").
Proof.
  assert (Hwf : wf_frame five_fours_table) by (repeat constructor).
  assert (Hlen : forall c xs, In (c, float64s xs) (columns five_fours_table) ->
                              length (Binary64.zscore five_fours64) = length xs).
  { intros c xs [H|[]]. inversion H. reflexivity. }
  destruct (@scaler_recommendation_policy (fun _ => Binary64.zscore five_fours64)
              five_fours_table Hwf Hlen)
    as [rows [_ [Hrows [Hsvm [_ [Hxgb Hraise]]]]]].
  split; [|split; [exact Hxgb|]].
  - apply Hsvm. left.
    assert (H0 : In 0%nat rows).
    { apply Hrows. split; [simpl; lia|].
      exists "lex_len"%string, five_fours_values.
      eexists. split; [now left|]. split; [vm_compute; reflexivity | vm_compute; reflexivity]. }
    destruct rows as [|r rows]; [destruct H0|].
    change (length (r :: rows)) with (S (length rows)). rewrite S_INR.
    pose proof (pos_INR (length rows)). simpl. lra.
  - apply (Hraise training_world "PowerTransformer"%string eq_refl);
      discriminate.
Defined.

(** The column [5, 4, ..., 4] against the exact reading of the policy: the
    binary64 cells are the numbers 5 and 4, no cell is missing, and in exact
    arithmetic the z-scores are 3 and -1/3, so that no row lies above 3; the
    library's first z-score is above 3, and 'svm' gets 'RobustScaler'. *)
Lemma five_fours_exact_zscore :
  exact_zscore five_fours_values
  = [Num 3; Num (- (1 / 3)); Num (- (1 / 3)); Num (- (1 / 3)); Num (- (1 / 3));
     Num (- (1 / 3)); Num (- (1 / 3)); Num (- (1 / 3)); Num (- (1 / 3)); Num (- (1 / 3))].
Proof.
  unfold exact_zscore, five_fours_values. cbn [has_nan existsb isnan orb].
  assert (Hm : mean [Num 5; Num 4; Num 4; Num 4; Num 4; Num 4; Num 4; Num 4; Num 4; Num 4]
               = Num (41 / 10)).
  { unfold mean. cbn [dropna length]. f_equal. unfold Rsum. simpl. lra. }
  assert (Hs : nanstd0 [Num 5; Num 4; Num 4; Num 4; Num 4; Num 4; Num 4; Num 4; Num 4; Num 4]
               = Num (3 / 10)).
  { unfold nanstd0. cbn [dropna length]. f_equal.
    replace (sum_sq_dev _ _ / _)%R with ((3 / 10) * (3 / 10))%R.
    - apply sqrt_square. lra.
    - unfold sum_sq_dev, Rsum. simpl. field. }
  rewrite Hm, Hs. cbn [map fsub fmap2 fdiv].
  destruct (Req_dec_T (3 / 10) 0) as [E|_]; [lra|].
  repeat f_equal; field.
Qed.

Lemma five_fours_cells : map Binary64.to_float64 five_fours64 = five_fours_values.
Proof.
  assert (H5 : Prim2SF 5 = S754_finite false 5629499534213120 (-50))
    by (vm_compute; reflexivity).
  assert (H4 : Prim2SF 4 = S754_finite false 4503599627370496 (-50))
    by (vm_compute; reflexivity).
  unfold five_fours64, five_fours_values, Binary64.to_float64. cbn [map].
  rewrite H5, H4. cbn [Z.leb Z.compare Z.opp].
  replace (IZR (Z.pos 5629499534213120) * / IZR (2 ^ 50))%R with 5%R.
  - replace (IZR (Z.pos 4503599627370496) * / IZR (2 ^ 50))%R with 4%R; [reflexivity|].
    change (2 ^ 50)%Z with 1125899906842624%Z. lra.
  - change (2 ^ 50)%Z with 1125899906842624%Z. lra.
Qed.

Lemma scaler_recommendation_rounds_above_three :
  map Binary64.to_float64 five_fours64 = five_fours_values /\
  missing_values five_fours_table = 0%nat /\
  exact_zscore five_fours_values
  = [Num 3; Num (- (1 / 3)); Num (- (1 / 3)); Num (- (1 / 3)); Num (- (1 / 3));
     Num (- (1 / 3)); Num (- (1 / 3)); Num (- (1 / 3)); Num (- (1 / 3)); Num (- (1 / 3))] /\
  dict_get (scaler_recommendation (fun _ => Binary64.zscore five_fours64) five_fours_table)
           "svm"
  = Some "RobustScaler"%string.
Proof.
  split; [exact five_fours_cells|]. split; [reflexivity|].
  split; [exact five_fours_exact_zscore | exact five_fours_recommendation].
Qed.

(** ** perform_eda in serving mode *)

Lemma get_column_take_rows order cols c :
  get_column (map (fun x => (fst x, take_rows order (snd x))) cols) c
  = option_map (take_rows order) (get_column cols c).
Proof. apply get_column_map. Qed.

Lemma get_column_record (input_data : dict cell) c :
  get_column (map (fun kv => (fst kv, value_column (snd kv))) input_data) c
  = option_map value_column (dict_get input_data c).
Proof.
  induction input_data as [|[k v] d IH]; simpl; auto.
  destruct (String.eqb c k); auto.
Qed.

(** C1 (as the code has it).  A serving-mode run on a record without a
    'label' field does not skip label mapping: perform_eda raises
    ValueError("Label column not found in the dataframe.") before any class
    map is built, whatever the labeling policy, the artifacts on disk and
    the other arguments are. *)
Theorem perform_eda_serving_without_label :
  forall (read_table : string -> result DataFrame)
         (cast : DataFrame -> DataFrame -> result DataFrame)
         (concat_tables : DataFrame -> DataFrame -> DataFrame)
         (sample_order : nat -> list nat)
         (train_test_split : list (list cell) -> list pyobj -> result (list nat * list nat))
         (fit_pipeline : list (list cell) -> list pyobj -> result Pipeline)
         (cross_val_score : list (list cell) -> list pyobj -> result unit)
         (dga_class_map : list (Z * string)) (zscore : list float64 -> list float)
         (input_data : dict cell) (dga : string)
         (scaler_file : option Scaler) (outliers_file : option Outliers)
         (model_file : option Pipeline)
         (model : option string) (apply_scaling_flag : bool),
    dict_get input_data "label" = None ->
    fst (perform_eda read_table cast concat_tables sample_order train_test_split
                     fit_pipeline cross_val_score dga_class_map zscore
                     model apply_scaling_flag
                     (init input_data true dga scaler_file outliers_file model_file))
    = Raise (ValueError "Label column not found in the dataframe.").
Proof.
  intros read_table cast concat_tables sample_order train_test_split fit_pipeline
         cross_val_score dga_class_map zscore input_data dga sfile ofile mfile model flag Hlabel.
  unfold perform_eda, bind, get, lift. simpl.
  rewrite get_column_take_rows.
  rewrite (get_column_record input_data "label"), Hlabel. reflexivity.
Qed.

Lemma perform_eda_serving_without_label_witness :
  dict_get record_without_label "label" = None /\
  fst (run_perform_eda None false
         (init record_without_label true "binary" None None None))
  = Raise (ValueError "Label column not found in the dataframe.").
Proof.
  split; [reflexivity|].
  apply (@perform_eda_serving_without_label no_table same_schema first_table (seq 0)
           no_split no_fit no_score [] single_record_zscore record_without_label "binary" None None None
           None false).
  reflexivity.
Defined.

(** C1, the claim as stated fails: the serving-mode run on the record
    {domain_name: "example.com", lex_len: 11}, with thresholds on disk, does
    not complete with an empty class map; it raises. *)
Lemma perform_eda_serving_without_label_raises :
  fst (run_perform_eda None false
         (init record_without_label true "binary" None
               (Some [("lex_len"%string, (Num 0, Num 100))]) None))
  = Raise (ValueError "Label column not found in the dataframe.").
Proof. reflexivity. Qed.

(** *** The target-model argument in serving mode *)

Lemma bind_serving_congr {A B} (m : M A) (k1 k2 : A -> M B) w :
  one_line_processing w = true ->
  (forall r w', m w = (r, w') -> one_line_processing w' = true) ->
  (forall a w', one_line_processing w' = true -> k1 a w' = k2 a w') ->
  bind m k1 w = bind m k2 w.
Proof.
  intros Hw Hm Hk. unfold bind. destruct (m w) as [[a|e] w']; [|reflexivity].
  apply Hk. eapply Hm. reflexivity.
Qed.

Lemma remove_outliers_stays_serving features labels k w r w' :
  one_line_processing w = true ->
  remove_outliers features labels k w = (r, w') -> one_line_processing w' = true.
Proof.
  intros Hmode. unfold remove_outliers, bind, get. rewrite Hmode. cbn [negb].
  destruct (load_borders_spec w) as [w1 [-> [_ [_ [Hm _]]]]].
  destruct (outliers w1) as [[|? ?]|]; unfold raise, lift; intros H; inversion H;
    subst; congruence.
Qed.

Lemma dtree_stage_stays_serving split fit_p score combined_df labels w r w' :
  one_line_processing w = true ->
  dtree_stage split fit_p score combined_df labels w = (r, w') ->
  one_line_processing w' = true.
Proof.
  intros Hmode. unfold dtree_stage, bind, get, load_model. rewrite Hmode. cbn [negb].
  set (w1 := match model_file w with Some p => set_model (Some p) w | None => w end).
  assert (Hw1 : one_line_processing w1 = true)
    by (unfold w1; destruct (model_file w); exact Hmode).
  destruct (model w1); unfold raise, lift, ret.
  - destruct (on_table _ _); [|intros H; inversion H; subst; exact Hw1].
    destruct (rows_of a); intros H; inversion H; subst; exact Hw1.
  - intros H; inversion H; subst; exact Hw1.
Qed.

(** C10.  In serving mode with scaling enabled, perform_eda returns the same
    result and leaves the same state for any two target-model names: the
    recommendation looked up under the name reaches apply_scaling as a scaler
    type that serving mode never reads, and with a scaler file present the
    scaled features are the transform of that persisted scaler. *)
Theorem perform_eda_serving_model_independent :
  forall (read_table : string -> result DataFrame)
         (cast : DataFrame -> DataFrame -> result DataFrame)
         (concat_tables : DataFrame -> DataFrame -> DataFrame)
         (sample_order : nat -> list nat)
         (train_test_split : list (list cell) -> list pyobj -> result (list nat * list nat))
         (fit_pipeline : list (list cell) -> list pyobj -> result Pipeline)
         (cross_val_score : list (list cell) -> list pyobj -> result unit)
         (dga_class_map : list (Z * string)) (zscore : list float64 -> list float)
         (w : World) (model1 model2 : string),
    one_line_processing w = true ->
    perform_eda read_table cast concat_tables sample_order train_test_split
                fit_pipeline cross_val_score dga_class_map zscore (Some model1) true w
    = perform_eda read_table cast concat_tables sample_order train_test_split
                  fit_pipeline cross_val_score dga_class_map zscore (Some model2) true w
    /\
    forall (df : DataFrame) (scaler_type : string) (s : Scaler),
      scaler_file w = Some s ->
      fst (apply_scaling df scaler_type w)
      = rbind (transform s (length (index df)) (numeric_columns (columns df)))
              (fun scaled_data =>
                 Ok (mkDataFrame (index df)
                       (map (fun c => (fst c, float64s (snd c))) scaled_data
                        ++ other_columns (columns df)))).
Proof.
  intros read_table cast concat_tables sample_order train_test_split fit_pipeline
         cross_val_score dga_class_map zscore w model1 model2 Hmode.
  split; [|intros df t s Hs; now apply apply_scaling_serving_replay].
  unfold perform_eda.
  apply bind_serving_congr; [exact Hmode | |].
  { unfold get. intros r w' H. inversion H. subst. exact Hmode. }
  intros w0 w1 Hw1.
  apply bind_serving_congr; [exact Hw1 | |].
  { destruct (one_line_processing w0); unfold lift; intros r w' H; inversion H;
      subst; exact Hw1. }
  intros combined_df w2 Hw2.
  apply bind_serving_congr; [exact Hw2 | |].
  { destruct (get_column _ _); unfold ret, raise; intros r w' H; inversion H;
      subst; exact Hw2. }
  intros labels0 w3 Hw3.
  apply bind_serving_congr; [exact Hw3 | |].
  { destruct (negb _ && negb _).
    - intros r w' H. eapply dtree_stage_stays_serving; eauto.
    - unfold ret. intros r w' H. inversion H. subst. exact Hw3. }
  intros combined_df' w4 Hw4.
  apply bind_serving_congr; [exact Hw4 | |].
  { destruct (get_column _ _); unfold ret, raise; intros r w' H; inversion H;
      subst; exact Hw4. }
  intros label_column w5 Hw5.
  apply bind_serving_congr; [exact Hw5 | |].
  { unfold lift. intros r w' H. inversion H. subst. exact Hw5. }
  intros class_map0 w6 Hw6.
  apply bind_serving_congr; [exact Hw6 | |].
  { destruct (columns _) as [|[? ?] ?]; unfold ret, raise; intros r w' H; inversion H;
      subst; exact Hw6. }
  intros features0 w7 Hw7.
  apply bind_serving_congr; [exact Hw7 | |].
  { intros r w' H. eapply remove_outliers_stays_serving; eauto. }
  intros fl w8 Hw8.
  unfold bind at 1 3.
  now rewrite (@apply_scaling_serving_any _ _
                 (dict_get_default (scaler_recommendation zscore (fst fl)) (lower model2)
                                   "StandardScaler"%string) w8 Hw8).
Qed.

Example perform_eda_serving_run :
  fst (run_perform_eda (Some "svm"%string) true scaling_serving_world)
  = Ok (mkEdaResult [[Num (11 * 1 + 0)]] [0%Z] ["lex_len"%string]
                    [("benign:x"%string, 0%Z)]).
Proof. reflexivity. Qed.

(** Without a model name ([model=None], the default of [perform_eda]) the
    same run stops at [model.lower()]. *)
Example perform_eda_serving_run_without_model :
  fst (run_perform_eda None true scaling_serving_world)
  = Raise (AttributeError "'NoneType' object has no attribute 'lower'").
Proof. reflexivity. Qed.

(** Two values of the target-model argument under which the same serving
    run differs: the default [None] raises where the name 'svm' returns. *)
Lemma perform_eda_serving_model_none_differs :
  fst (run_perform_eda None true scaling_serving_world)
  = Raise (AttributeError "'NoneType' object has no attribute 'lower'") /\
  fst (run_perform_eda (Some "svm"%string) true scaling_serving_world)
  = Ok (mkEdaResult [[Num (11 * 1 + 0)]] [0%Z] ["lex_len"%string]
                    [("benign:x"%string, 0%Z)]).
Proof. split; reflexivity. Qed.

Lemma perform_eda_serving_model_independent_witness :
  run_perform_eda (Some "svm"%string) true scaling_serving_world
  = run_perform_eda (Some "CNN"%string) true scaling_serving_world.
Proof.
  exact (proj1 (@perform_eda_serving_model_independent no_table same_schema first_table
                  (seq 0) no_split no_fit no_score [] single_record_zscore scaling_serving_world
                  "svm" "CNN" eq_refl)).
Defined.

(** ** Bounds on the exponential *)









(** ** apply_scaling, training mode, 'MinMaxScaler + Sigmoid' *)

Lemma transform_columns_fit k X :
  transform_columns k (map (fun c => fit_column k (snd c)) X) X
  = map (fun c => (fst c, map (transform_cell k (fit_column k (snd c))) (snd c))) X.
Proof.
  induction X as [|[n xs] X IH]; simpl; auto. now rewrite IH.
Qed.

Lemma check_array_ok n X :
  n <> O -> X <> [] -> check_array n X = Ok tt.
Proof. destruct n, X; simpl; congruence. Qed.

Lemma names_eqb_refl a : names_eqb a a = true.
Proof. induction a as [|x a IH]; simpl; auto. now rewrite String.eqb_refl. Qed.

Lemma names_eqb_eq a : forall b, names_eqb a b = true -> a = b.
Proof.
  induction a as [|x a IH]; intros [|y b]; simpl; try discriminate; auto.
  intros H. apply andb_true_iff in H. destruct H as [H1 H2].
  apply String.eqb_eq in H1. subst. f_equal. now apply IH.
Qed.

(** A scaler transforms the block it was fitted on. *)
Lemma transform_after_fit k n X :
  n <> O -> X <> [] ->
  transform (mkScaler k (Some (map (fun c => (fst c, fit_column k (snd c))) X))) n X
  = Ok (map (fun c => (fst c, map (transform_cell k (fit_column k (snd c))) (snd c))) X).
Proof.
  intros Hn HX. unfold transform. cbn [fitted kind].
  rewrite !map_map. cbn [fst snd]. rewrite names_eqb_refl, andb_false_r.
  rewrite (check_array_ok Hn HX), length_map, Nat.eqb_refl, transform_columns_fit.
  reflexivity.
Qed.








(** ** remove_outliers returns in training mode *)

Lemma outlier_condition_orderable v lo hi :
  orderable v = true -> exists cond, outlier_condition v lo hi = Ok cond.
Proof.
  destruct v as [xs|bs|os]; simpl; eauto.
  intros H. apply mapM_ok. intros o Ho.
  rewrite forallb_forall in H. specialize (H o Ho).
  destruct o; try discriminate. eauto.
Qed.

Lemma orderable_keep_values mask v : orderable v = true -> orderable (keep_values mask v) = true.
Proof.
  destruct v as [xs|bs|os]; simpl; auto.
  rewrite !forallb_forall. intros H o Ho. apply H. eapply keep_rows_In; eauto.
Qed.

Lemma labels_found_keep_rows cond idx : labels_found idx (keep_rows cond idx) = true.
Proof.
  unfold labels_found. apply forallb_forall. intros l Hl.
  apply mem_Z_In. eapply keep_rows_In; eauto.
Qed.

Lemma drop_loop_returns : forall items features labels,
  wf_frame features ->
  sindex labels = index features ->
  (forall c b v, In (c, b) items -> get_column (columns features) c = Some v ->
                 orderable v = true) ->
  exists features' labels', drop_loop items features labels = Ok (features', labels').
Proof.
  induction items as [|[c [lo hi]] rest IH]; intros features labels Hwf Hidx Hord;
    simpl; [eauto|].
  destruct (get_column (columns features) c) as [v|] eqn:Hv.
  - destruct (@outlier_condition_orderable v lo hi
                (Hord c (lo, hi) v (or_introl eq_refl) Hv)) as [cond ->].
    cbn [rbind]. unfold df_drop_rows, series_drop_rows.
    rewrite Hidx, labels_found_keep_rows. cbn [rbind].
    apply IH.
    + apply (@df_drop_rows_wf features (keep_rows cond (index features))); auto.
      unfold df_drop_rows. now rewrite labels_found_keep_rows.
    + reflexivity.
    + intros c0 b0 v0 Hin0 Hget0. simpl in Hget0.
      rewrite get_column_map in Hget0.
      destruct (get_column (columns features) c0) as [v1|] eqn:Hv1; [|discriminate].
      inversion Hget0. apply orderable_keep_values.
      apply (Hord c0 b0 v1); [now right | exact Hv1].
  - apply IH; auto.
    intros c0 b0 v0 Hin0 Hget0. apply (Hord c0 b0 v0); [now right | exact Hget0].
Qed.

Lemma dict_set_In {V} (d : dict V) k v c b :
  In (c, b) (dict_set d k v) -> In (c, b) d \/ c = k.
Proof.
  induction d as [|[k' v'] d IH]; simpl.
  - intros [H|[]]. inversion H. auto.
  - destruct (String.eqb k k') eqn:E; simpl.
    + apply String.eqb_eq in E. subst. intros [H|H]; [inversion H|]; auto.
    + intros [H|H]; auto. destruct (IH H); auto.
Qed.

Lemma compute_outliers_In std_multiplier features c b :
  In (c, b) (compute_outliers std_multiplier features) ->
  exists xs, In (c, xs) (numeric_columns (columns features)).
Proof.
  unfold compute_outliers.
  assert (H : forall l (d : Outliers),
            In (c, b) (fold_left (fun d x => dict_set d (fst x)
                                               (column_bounds std_multiplier (snd x))) l d) ->
            In (c, b) d \/ exists xs, In (c, xs) l).
  { induction l as [|[n xs] l IH]; intros d Hin; simpl in *; auto.
    destruct (IH _ Hin) as [Hd|[ys Hys]]; [|eauto].
    destruct (dict_set_In _ _ _ _ _ Hd) as [Hd' | ->]; eauto. }
  intros Hin. destruct (H _ _ Hin) as [[]|Hex]. exact Hex.
Qed.

Lemma compute_outliers_nonempty std_multiplier features :
  numeric_columns (columns features) <> [] ->
  compute_outliers std_multiplier features <> [].
Proof.
  unfold compute_outliers.
  assert (Hset : forall (d : Outliers) k v, dict_set d k v <> []).
  { intros [|[k' v'] d] k v; simpl; [discriminate|].
    destruct (String.eqb k k'); discriminate. }
  assert (H : forall l (d : Outliers), d <> [] ->
            fold_left (fun d x => dict_set d (fst x)
                                    (column_bounds std_multiplier (snd x))) l d <> []).
  { induction l as [|x l IH]; intros d Hd; simpl; auto. }
  destruct (numeric_columns (columns features)) as [|x l]; [congruence|].
  intros _. simpl. apply H. discriminate.
Qed.

Lemma numeric_columns_In cols c xs :
  In (c, xs) (numeric_columns cols) -> In (c, float64s xs) cols.
Proof.
  induction cols as [|[n v] cols IH]; simpl; [tauto|].
  destruct v; simpl; intros H; auto.
  destruct H as [H|H]; [inversion H; auto | auto].
Qed.

Lemma get_column_NoDup cols c v :
  NoDup (map fst cols) -> In (c, v) cols -> get_column cols c = Some v.
Proof.
  induction cols as [|[n v'] cols IH]; simpl; intros Hnd Hin; [destruct Hin|].
  inversion Hnd as [|? ? Hn Hcols]. subst.
  destruct Hin as [H|H].
  - inversion H. subst. now rewrite String.eqb_refl.
  - destruct (String.eqb c n) eqn:E; [|auto].
    apply String.eqb_eq in E. subst. exfalso. apply Hn.
    apply in_map_iff. exists (n, v). auto.
Qed.

(** On a table with distinct column names, at least one numeric column, and
    labels that share its index, remove_outliers returns in training mode. *)
Lemma remove_outliers_training_returns w features labels std_multiplier :
  one_line_processing w = false ->
  wf_frame features ->
  NoDup (column_names features) ->
  numeric_columns (columns features) <> [] ->
  sindex labels = index features ->
  exists features' labels' w',
    remove_outliers features labels std_multiplier w = (Ok (features', labels'), w').
Proof.
  intros Hmode Hwf Hnd Hnum Hidx.
  destruct (@remove_outliers_training features labels std_multiplier w Hmode)
    as [w' [Heq _]].
  destruct (@drop_loop_returns (compute_outliers std_multiplier features) features labels
              Hwf Hidx) as [f' [l' Hloop]].
  - intros c b v Hin Hget.
    destruct (compute_outliers_In _ _ _ _ Hin) as [xs Hxs].
    apply numeric_columns_In in Hxs.
    rewrite (get_column_NoDup _ _ _ Hnd Hxs) in Hget. inversion Hget. reflexivity.
  - exists f', l', w'. rewrite Heq. f_equal.
    pose proof (@compute_outliers_nonempty std_multiplier features Hnum) as Hne.
    destruct (compute_outliers std_multiplier features); [congruence | exact Hloop].
Qed.

(** ** Outlier removal does not look at the class ids *)

Lemma series_drop_rows_index s1 s2 L s1' :
  sindex s1 = sindex s2 -> series_drop_rows s1 L = Ok s1' ->
  exists s2', series_drop_rows s2 L = Ok s2' /\ sindex s1' = sindex s2'.
Proof.
  unfold series_drop_rows. intros E. rewrite <- E.
  destruct (labels_found (sindex s1) L); [|discriminate].
  intros H. inversion H. eexists. split; reflexivity.
Qed.

(** Which rows the loop drops is decided by the features alone: with other
    class ids under the same index, the same rows go. *)
Lemma drop_loop_ignores_class_ids : forall items features labels1 labels2 features' labels1',
  sindex labels1 = sindex labels2 ->
  drop_loop items features labels1 = Ok (features', labels1') ->
  exists labels2',
    drop_loop items features labels2 = Ok (features', labels2') /\
    sindex labels1' = sindex labels2'.
Proof.
  induction items as [|[c [lo hi]] rest IH];
    intros features labels1 labels2 features' labels1' Hidx Hrun; simpl in *.
  - inversion Hrun. subst. eauto.
  - destruct (get_column (columns features) c) as [v|]; [|eauto].
    destruct (outlier_condition v lo hi) as [cond|]; [|discriminate].
    cbn [rbind] in *.
    destruct (df_drop_rows features (keep_rows cond (index features))) as [f1|];
      [|discriminate].
    cbn [rbind] in *.
    destruct (series_drop_rows labels1 (keep_rows cond (index features))) as [l1|] eqn:E1;
      [|discriminate].
    destruct (series_drop_rows_index labels1 labels2 _ Hidx E1) as [l2 [-> Hidx']].
    cbn [rbind] in *. eauto.
Qed.

(** ** Missing artifacts in serving mode: the checked paths *)

(** Without thresholds, remove_outliers raises the ValueError of its own
    check. *)
Lemma remove_outliers_serving_without_thresholds features labels std_multiplier w :
  one_line_processing w = true ->
  outliers w = None -> outliers_file w = None ->
  fst (remove_outliers features labels std_multiplier w)
  = Raise (ValueError "Outlier thresholds must be available for outlier removal.").
Proof.
  intros Hmode Ho Hfile. unfold remove_outliers, bind, get. rewrite Hmode. cbn [negb].
  destruct (load_borders_spec w) as [w' [-> [_ [Ho' _]]]].
  rewrite Hfile, Ho in Ho'. rewrite Ho'. reflexivity.
Qed.

(** Without a persisted pipeline, the decision-tree stage raises the
    ValueError of its own check. *)
Lemma dtree_stage_serving_without_model split fit_p score combined_df labels w :
  one_line_processing w = true ->
  model w = None -> model_file w = None ->
  fst (dtree_stage split fit_p score combined_df labels w)
  = Raise (ValueError "Pipeline not found. Please train the pipeline first.").
Proof.
  intros Hmode Hm Hfile. unfold dtree_stage, bind, get, load_model.
  rewrite Hmode. cbn [negb]. cbv beta. rewrite Hfile, Hm. reflexivity.
Qed.

(** * Further properties of the code *)

Unset Implicit Arguments.

(** ** remove_outliers: what a returned table looks like *)

(** Whatever the mode, a returned pair is the output of the thresholding
    loop on the thresholds the instance then holds. *)
Lemma remove_outliers_result features labels std_multiplier w features' labels' w' :
  remove_outliers features labels std_multiplier w = (Ok (features', labels'), w') ->
  exists items,
    outliers w' = Some items /\ items <> [] /\
    drop_loop items features labels = Ok (features', labels').
Proof.
  destruct (one_line_processing w) eqn:Hmode.
  - unfold remove_outliers, bind, get. rewrite Hmode. cbn [negb].
    destruct (load_borders_spec w) as [w1 [-> _]].
    destruct (outliers w1) as [[|it items]|] eqn:Ho; unfold raise, lift; intros H;
      inversion H; subst.
    exists (it :: items). repeat split; auto. discriminate.
  - destruct (@remove_outliers_training features labels std_multiplier w Hmode)
      as [w1 [Heq [Ho _]]].
    rewrite Heq. intros H. inversion H as [[Hloop Hw]]. subst w1.
    exists (compute_outliers std_multiplier features).
    destruct (compute_outliers std_multiplier features); [discriminate|].
    repeat split; auto. discriminate.
Qed.

Lemma keep_rows_shorter {A} mask (l : list A) : (length (keep_rows mask l) <= length l)%nat.
Proof.
  revert l. induction mask as [|b mask IH]; intros [|a l]; simpl; try lia.
  destruct b; simpl; specialize (IH l); lia.
Qed.

Lemma drop_loop_aligned : forall items features labels features' labels',
  wf_frame features ->
  sindex labels = index features ->
  length (svalues labels) = length (sindex labels) ->
  drop_loop items features labels = Ok (features', labels') ->
  wf_frame features' /\
  sindex labels' = index features' /\
  length (svalues labels') = length (sindex labels') /\
  column_names features' = column_names features /\
  (forall i, In i (index features') -> In i (index features)) /\
  (length (index features') <= length (index features))%nat.
Proof.
  induction items as [|[c [lo hi]] rest IH];
    intros features labels features' labels' Hwf Hidx Hlen Hrun; simpl in Hrun.
  - inversion Hrun. subst. repeat split; auto.
  - destruct (get_column (columns features) c) as [v|]; [|eapply IH; eauto].
    destruct (outlier_condition v lo hi) as [cond|]; [|discriminate].
    cbn [rbind] in Hrun.
    destruct (df_drop_rows features (keep_rows cond (index features))) as [f1|] eqn:Hf1;
      [|discriminate].
    cbn [rbind] in Hrun.
    destruct (series_drop_rows labels (keep_rows cond (index features))) as [l1|] eqn:Hl1;
      [|discriminate].
    cbn [rbind] in Hrun.
    pose proof (@df_drop_rows_wf _ _ _ Hwf Hf1) as Hwf1.
    destruct (df_drop_rows_inv _ _ Hf1) as [Hi1 Hc1].
    assert (Hs1 : sindex l1 = index f1 /\ length (svalues l1) = length (sindex l1)).
    { unfold series_drop_rows in Hl1.
      destruct (labels_found (sindex labels) _); [|discriminate].
      inversion Hl1. simpl. rewrite Hi1, Hidx. split; [reflexivity|].
      apply keep_rows_length. congruence. }
    destruct Hs1 as [Hidx1 Hlen1].
    destruct (IH _ _ _ _ Hwf1 Hidx1 Hlen1 Hrun) as [H1 [H2 [H3 [H4 [H5 H6]]]]].
    repeat split; auto.
    + rewrite H4. unfold column_names. rewrite Hc1, map_map. reflexivity.
    + intros i Hi. apply H5 in Hi. rewrite Hi1 in Hi. eapply keep_rows_In; eauto.
    + rewrite Hi1 in H6. pose proof (keep_rows_shorter
        (drop_mask (index features) (keep_rows cond (index features))) (index features)).
      lia.
Qed.

(** X3.  remove_outliers only removes rows: on a table whose labels share
    its index, the returned features keep the column names, their index
    labels come from the input, the table has no more rows than before, and
    the returned labels carry exactly the index of the returned features. *)
Theorem remove_outliers_keeps_alignment :
  forall (w : World) (features : DataFrame) (labels : Series) (std_multiplier : R)
         (features' : DataFrame) (labels' : Series) (w' : World),
    wf_frame features ->
    sindex labels = index features ->
    length (svalues labels) = length (sindex labels) ->
    remove_outliers features labels std_multiplier w = (Ok (features', labels'), w') ->
    wf_frame features' /\
    sindex labels' = index features' /\
    length (svalues labels') = length (sindex labels') /\
    column_names features' = column_names features /\
    (forall i, In i (index features') -> In i (index features)) /\
    (length (index features') <= length (index features))%nat.
Proof.
  intros w features labels k features' labels' w' Hwf Hidx Hlen Hrun.
  destruct (remove_outliers_result _ _ _ _ _ _ _ Hrun) as [items [_ [_ Hloop]]].
  eapply drop_loop_aligned; eauto.
Qed.

Lemma remove_outliers_keeps_alignment_witness :
  exists features' labels' w',
    remove_outliers five_row_table five_row_labels 1 training_world
    = (Ok (features', labels'), w') /\
    sindex labels' = index features' /\
    column_names features' = ["lex_len"%string].
Proof.
  destruct five_row_run as [w' Hrun].
  assert (Hwf : wf_frame five_row_table) by (repeat constructor).
  destruct (@remove_outliers_keeps_alignment training_world five_row_table
              five_row_labels 1 _ _ w' Hwf eq_refl eq_refl Hrun)
    as [_ [H2 [_ [H4 _]]]].
  eexists. eexists. exists w'. split; [exact Hrun|]. split; [exact H2 | exact H4].
Defined.

(** ** remove_outliers: the thresholds file *)

Lemma remove_outliers_training_state features labels std_multiplier w :
  one_line_processing w = false ->
  snd (remove_outliers features labels std_multiplier w)
  = snd (save_borders (set_outliers (Some (compute_outliers std_multiplier features)) w)).
Proof.
  intros Hmode. unfold remove_outliers, bind, get, put. rewrite Hmode. cbn [negb].
  destruct (save_borders (set_outliers (Some (compute_outliers std_multiplier features)) w))
    as [r w'] eqn:Hsave.
  apply outliers_save_borders in Hsave. destruct Hsave as [-> [Ho _]]. simpl in Ho.
  cbn [snd]. rewrite Ho.
  destruct (compute_outliers std_multiplier features); reflexivity.
Qed.

Lemma save_borders_outliers_file (o : Outliers) w :
  let w' := snd (save_borders (set_outliers (Some o) w)) in
  outliers w' = Some o /\
  outliers_file w' = (if outliers_saved w then outliers_file w else Some o) /\
  outliers_saved w' = true /\
  one_line_processing w' = one_line_processing w.
Proof.
  destruct w as [olp dg srd bp mp sc ou ss os md sf ofile mf].
  unfold save_borders. cbn [snd]. simpl.
  destruct sc, ss, os; simpl; repeat split; reflexivity.
Qed.

(** X1.  The thresholds file is written once per instance: after two
    training-mode calls of remove_outliers on a fresh instance, the instance
    holds the thresholds of the second table while the file still holds
    those of the first. *)
Theorem remove_outliers_second_run_not_persisted :
  forall (w : World) (features1 features2 : DataFrame) (labels1 labels2 : Series)
         (k1 k2 : R),
    one_line_processing w = false ->
    outliers_saved w = false ->
    let w1 := snd (remove_outliers features1 labels1 k1 w) in
    let w2 := snd (remove_outliers features2 labels2 k2 w1) in
    outliers_file w1 = Some (compute_outliers k1 features1) /\
    outliers w2 = Some (compute_outliers k2 features2) /\
    outliers_file w2 = Some (compute_outliers k1 features1).
Proof.
  intros w f1 f2 l1 l2 k1 k2 Hmode Hfresh. cbv zeta.
  rewrite (remove_outliers_training_state f1 l1 k1 w Hmode).
  destruct (save_borders_outliers_file (compute_outliers k1 f1) w) as [H1 [H2 [H3 H4]]].
  rewrite Hfresh in H2. rewrite Hmode in H4.
  rewrite (remove_outliers_training_state f2 l2 k2 _ H4).
  destruct (save_borders_outliers_file (compute_outliers k2 f2)
              (snd (save_borders (set_outliers (Some (compute_outliers k1 f1)) w))))
    as [G1 [G2 _]].
  rewrite H3 in G2. rewrite G2. auto.
Qed.

Lemma remove_outliers_second_run_not_persisted_witness :
  let w1 := snd (remove_outliers one_row_table one_row_labels 8 training_world) in
  let w2 := snd (remove_outliers five_row_table five_row_labels 8 w1) in
  outliers w2 = Some (compute_outliers 8 five_row_table) /\
  outliers_file w2 = Some (compute_outliers 8 one_row_table).
Proof.
  exact (proj2 (@remove_outliers_second_run_not_persisted training_world one_row_table
                  five_row_table one_row_labels five_row_labels 8 8 eq_refl eq_refl)).
Defined.

(** X2.  Replaying the persisted thresholds reproduces the training result:
    a serving-mode instance that finds the file a fresh training run on a
    table left behind returns, on that same table, what the training run
    returned, whatever multiplier it is given. *)
Theorem remove_outliers_replay_matches_training :
  forall (w_train w_serve : World) (features : DataFrame) (labels : Series)
         (std_multiplier other_multiplier : R),
    one_line_processing w_train = false ->
    outliers_saved w_train = false ->
    one_line_processing w_serve = true ->
    outliers_file w_serve
    = outliers_file (snd (remove_outliers features labels std_multiplier w_train)) ->
    fst (remove_outliers features labels other_multiplier w_serve)
    = fst (remove_outliers features labels std_multiplier w_train).
Proof.
  intros wt ws features labels k k' Ht Hfresh Hs Hfile.
  rewrite (remove_outliers_training_state features labels k wt Ht) in Hfile.
  destruct (save_borders_outliers_file (compute_outliers k features) wt) as [_ [H2 _]].
  rewrite Hfresh in H2. rewrite H2 in Hfile.
  destruct (@remove_outliers_serving features labels k' ws _ Hs Hfile) as [w1 [-> _]].
  destruct (@remove_outliers_training features labels k wt Ht) as [w2 [-> _]].
  cbn [fst]. destruct (compute_outliers k features); reflexivity.
Qed.

Lemma remove_outliers_replay_matches_training_witness :
  fst (remove_outliers five_row_table five_row_labels 8
         (serving_world (compute_outliers 1 five_row_table)))
  = fst (remove_outliers five_row_table five_row_labels 1 training_world).
Proof.
  apply (@remove_outliers_replay_matches_training training_world
           (serving_world (compute_outliers 1 five_row_table))
           five_row_table five_row_labels 1 8); reflexivity.
Defined.

(** X4.  A training table without a numeric column yields no thresholds:
    remove_outliers raises the ValueError of its check, after having stored
    (and, on a fresh instance, written to disk) an empty thresholds dict; a
    serving instance that later loads that file raises the same error. *)
Theorem remove_outliers_without_numeric_column :
  forall (w w_serve : World) (features features_s : DataFrame) (labels labels_s : Series)
         (k k_s : R),
    one_line_processing w = false ->
    outliers_saved w = false ->
    numeric_columns (columns features) = [] ->
    one_line_processing w_serve = true ->
    outliers_file w_serve = outliers_file (snd (remove_outliers features labels k w)) ->
    fst (remove_outliers features labels k w)
    = Raise (ValueError "Outlier thresholds must be available for outlier removal.") /\
    outliers_file (snd (remove_outliers features labels k w)) = Some [] /\
    fst (remove_outliers features_s labels_s k_s w_serve)
    = Raise (ValueError "Outlier thresholds must be available for outlier removal.").
Proof.
  intros w ws features fs labels ls k ks Hmode Hfresh Hnum Hs Hfile.
  assert (Hc : compute_outliers k features = []).
  { unfold compute_outliers. now rewrite Hnum. }
  rewrite (remove_outliers_training_state features labels k w Hmode) in *.
  destruct (save_borders_outliers_file (compute_outliers k features) w) as [_ [H2 _]].
  rewrite Hfresh, Hc in H2. rewrite Hc in Hfile. rewrite H2 in Hfile.
  destruct (@remove_outliers_training features labels k w Hmode) as [w1 [-> _]].
  destruct (@remove_outliers_serving fs ls ks ws [] Hs Hfile) as [w2 [-> _]].
  rewrite Hc. repeat split; auto.
Qed.

Lemma remove_outliers_without_numeric_column_witness :
  fst (remove_outliers names_only_table (mkSeries [0; 1]%Z [0; 1]%Z) 8 training_world)
  = Raise (ValueError "Outlier thresholds must be available for outlier removal.") /\
  fst (remove_outliers one_row_table one_row_labels 8 (serving_world []))
  = Raise (ValueError "Outlier thresholds must be available for outlier removal.").
Proof.
  destruct (@remove_outliers_without_numeric_column training_world (serving_world [])
              names_only_table one_row_table (mkSeries [0; 1]%Z [0; 1]%Z) one_row_labels
              8 8 eq_refl eq_refl eq_refl eq_refl eq_refl) as [H1 [_ H3]].
  split; assumption.
Defined.

(** X5.  In serving mode a table none of whose values lies below the lower
    or above the upper threshold of its column comes back as it went in;
    thresholds of columns the table does not have are skipped, and missing
    (NaN) values never trigger a drop. *)
Theorem remove_outliers_serving_keeps_rows_within :
  forall (w : World) (features : DataFrame) (labels : Series) (std_multiplier : R)
         (bounds : Outliers),
    one_line_processing w = true ->
    outliers_file w = Some bounds ->
    bounds <> [] ->
    wf_frame features ->
    length (svalues labels) = length (sindex labels) ->
    (forall c lo hi v, In (c, (lo, hi)) bounds ->
       get_column (columns features) c = Some v ->
       exists xs, v = float64s xs /\
                  Forall (fun x => flt x lo = false /\ fgt x hi = false) xs) ->
    fst (remove_outliers features labels std_multiplier w) = Ok (features, labels).
Proof.
  intros w features labels k bounds Hmode Hfile Hne Hwf Hlen Hall.
  destruct (@remove_outliers_serving features labels k w bounds Hmode Hfile)
    as [w' [-> _]].
  cbn [fst].
  assert (Hloop : drop_loop bounds features labels = Ok (features, labels)).
  { apply drop_loop_unchanged; auto.
    intros c lo hi v Hin Hget. destruct (Hall c lo hi v Hin Hget) as [xs [-> Hxs]].
    simpl. f_equal. clear Hget.
    induction Hxs as [|x xs [H1 H2] _ IH]; simpl; auto.
    rewrite IH. unfold outside. rewrite H1, H2. reflexivity. }
  destruct bounds; [congruence | exact Hloop].
Qed.

Lemma remove_outliers_serving_keeps_rows_within_witness :
  fst (remove_outliers (mkDataFrame [0; 1]%Z [("lex_len"%string, float64s [Num 5; NaN])])
                       (mkSeries [0; 1]%Z [0; 1]%Z) 8
                       (serving_world [("lex_len"%string, (Num 0, Num 10));
                                       ("lex_digits"%string, (Num 0, Num 1))]))
  = Ok (mkDataFrame [0; 1]%Z [("lex_len"%string, float64s [Num 5; NaN])],
        mkSeries [0; 1]%Z [0; 1]%Z).
Proof.
  apply (@remove_outliers_serving_keeps_rows_within
           (serving_world [("lex_len"%string, (Num 0, Num 10));
                           ("lex_digits"%string, (Num 0, Num 1))])
           _ _ 8
           [("lex_len"%string, (Num 0, Num 10)); ("lex_digits"%string, (Num 0, Num 1))]).
  - reflexivity.
  - reflexivity.
  - discriminate.
  - repeat constructor.
  - reflexivity.
  - intros c lo hi v [Hin|[Hin|[]]] Hget; inversion Hin; subst; simpl in Hget;
      [|discriminate].
    inversion Hget. eexists. split; [reflexivity|].
    repeat constructor; unfold fgt, flt; apply Rltb_false; lra.
Defined.

(** ** apply_scaling: the training branches, step by step *)

Lemma check_array_inv n X : check_array n X = Ok tt -> n <> O /\ X <> [].
Proof. destruct n, X; simpl; intros H; try discriminate; split; congruence. Qed.

Lemma fit_transform_run k n X w :
  n <> O -> X <> [] ->
  fit_transform k n X w = (Ok (fitted_columns k X), set_scaler (Some (fitted_scaler k X)) w).
Proof.
  intros Hn HX. unfold fit_transform, bind, get, put, lift, fit.
  rewrite (@check_array_ok n X Hn HX), (@transform_after_fit k n X Hn HX). reflexivity.
Qed.

Lemma fit_transform_rejected k n X w e :
  check_array n X = Raise e ->
  fit_transform k n X w = (Raise e, set_scaler (Some (mkScaler k None)) w).
Proof.
  intros H. unfold fit_transform, bind, get, put, lift, fit. rewrite H. reflexivity.
Qed.

Lemma apply_scaling_training_cases df scaler_type w :
  one_line_processing w = false ->
  match training_choice scaler_type with
  | None =>
      apply_scaling df scaler_type w
      = (Raise (ValueError ("Unsupported scaler type: " ++ scaler_type)), w)
  | Some (k, with_sigmoid) =>
      match check_array (length (index df)) (numeric_columns (columns df)) with
      | Raise e =>
          apply_scaling df scaler_type w
          = (Raise e, set_scaler (Some (mkScaler k None)) w)
      | Ok _ =>
          apply_scaling df scaler_type w
          = (Ok (scaled_frame df
                   (if with_sigmoid
                    then sigmoid_columns (fitted_columns k (numeric_columns (columns df)))
                    else fitted_columns k (numeric_columns (columns df)))),
             snd (save_borders
                    (set_scaler (Some (fitted_scaler k (numeric_columns (columns df)))) w)))
      end
  end.
Proof.
  intros Hmode. unfold training_choice, apply_scaling, bind, get.
  rewrite Hmode. cbn [negb].
  destruct (check_array (length (index df)) (numeric_columns (columns df))) as [[]|e] eqn:Hc.
  - destruct (check_array_inv _ _ Hc) as [Hn HX].
    destruct (String.eqb scaler_type "StandardScaler");
      [|destruct (String.eqb scaler_type "MinMaxScaler");
        [|destruct (String.eqb scaler_type "RobustScaler");
          [|destruct (String.eqb scaler_type "MinMaxScaler + Sigmoid")]]];
      rewrite ?(fit_transform_run _ _ _ _ Hn HX); reflexivity.
  - destruct (String.eqb scaler_type "StandardScaler");
      [|destruct (String.eqb scaler_type "MinMaxScaler");
        [|destruct (String.eqb scaler_type "RobustScaler");
          [|destruct (String.eqb scaler_type "MinMaxScaler + Sigmoid")]]];
      rewrite ?(fit_transform_rejected _ _ _ _ _ Hc); reflexivity.
Qed.

Lemma save_borders_scaler_file (s : Scaler) w :
  let w' := snd (save_borders (set_scaler (Some s) w)) in
  scaler w' = Some s /\
  scaler_file w' = (if scaler_saved w then scaler_file w else Some s) /\
  one_line_processing w' = one_line_processing w.
Proof.
  destruct w as [olp dg srd bp mp sc ou ss os md sf ofile mf].
  unfold save_borders. cbn [snd]. simpl.
  destruct ss, ou, os; simpl; repeat split; reflexivity.
Qed.

Lemma transform_fitted k n X :
  n <> O -> X <> [] -> transform (fitted_scaler k X) n X = Ok (fitted_columns k X).
Proof.
  intros Hn HX. unfold fitted_scaler. exact (@transform_after_fit k n X Hn HX).
Qed.

Lemma scaler_kind_of_choice t k :
  scaler_kind_of t = Some k -> training_choice t = Some (k, false).
Proof.
  unfold scaler_kind_of, training_choice.
  destruct (String.eqb t "StandardScaler"); [intros H; now inversion H|].
  destruct (String.eqb t "MinMaxScaler"); [intros H; now inversion H|].
  destruct (String.eqb t "RobustScaler"); [intros H; now inversion H|].
  discriminate.
Qed.

(** X6.  Train/serve parity of the plain scalers: after a training-mode
    apply_scaling with 'StandardScaler', 'MinMaxScaler' or 'RobustScaler' on
    a fresh instance, a serving-mode instance that finds the scaler file it
    wrote returns, on the same frame, the very frame the training call
    returned, whatever scaler type it is given. *)
Theorem apply_scaling_replay_matches_training :
  forall (w_train w_serve : World) (df : DataFrame) (scaler_type other_type : string)
         (k : scaler_kind),
    one_line_processing w_train = false ->
    scaler_saved w_train = false ->
    scaler_kind_of scaler_type = Some k ->
    index df <> [] -> numeric_columns (columns df) <> [] ->
    one_line_processing w_serve = true ->
    scaler_file w_serve = scaler_file (snd (apply_scaling df scaler_type w_train)) ->
    fst (apply_scaling df other_type w_serve) = fst (apply_scaling df scaler_type w_train) /\
    fst (apply_scaling df scaler_type w_train)
    = Ok (scaled_frame df (fitted_columns k (numeric_columns (columns df)))).
Proof.
  intros wt ws df t t' k Ht Hfresh Hk Hidx HX Hs Hfile.
  assert (Hn : length (index df) <> O) by (destruct (index df); simpl; congruence).
  pose proof (apply_scaling_training_cases df t wt Ht) as Hcases.
  rewrite (scaler_kind_of_choice t k Hk), (@check_array_ok _ _ Hn HX) in Hcases.
  rewrite Hcases in *. cbn [fst snd] in *.
  destruct (save_borders_scaler_file (fitted_scaler k (numeric_columns (columns df))) wt)
    as [_ [H2 _]].
  rewrite Hfresh in H2. rewrite H2 in Hfile.
  rewrite (@apply_scaling_serving_replay df t' ws _ Hs Hfile).
  rewrite (transform_fitted k _ _ Hn HX). split; reflexivity.
Qed.

Lemma apply_scaling_replay_matches_training_witness :
  fst (apply_scaling scenario_B_table "StandardScaler"
         (init serving_record true "binary"
               (Some (fitted_scaler MinMax (numeric_columns (columns scenario_B_table))))
               None None))
  = fst (apply_scaling scenario_B_table "MinMaxScaler" training_world).
Proof.
  assert (Hidx : index scenario_B_table <> []) by discriminate.
  assert (HX : numeric_columns (columns scenario_B_table) <> []) by discriminate.
  refine (proj1 (@apply_scaling_replay_matches_training training_world
                   (init serving_record true "binary"
                      (Some (fitted_scaler MinMax (numeric_columns (columns scenario_B_table))))
                      None None)
                   scenario_B_table
                   "MinMaxScaler" "StandardScaler" MinMax
                   eq_refl eq_refl eq_refl Hidx HX eq_refl _)).
  assert (Hn : length (index scenario_B_table) <> O) by discriminate.
  pose proof (apply_scaling_training_cases scenario_B_table "MinMaxScaler"
                training_world eq_refl) as Hcases.
  cbn [training_choice String.eqb Ascii.eqb Bool.eqb] in Hcases.
  rewrite (@check_array_ok _ _ Hn HX) in Hcases. rewrite Hcases. reflexivity.
Defined.

(** X7.  The sigmoid is not replayed: after a training-mode apply_scaling
    with 'MinMaxScaler + Sigmoid' on a fresh instance, the training call
    returns the sigmoid of the min-max scaled columns, while a serving-mode
    instance that loads the scaler file it wrote returns, on the same frame,
    the min-max scaled columns themselves. *)
Theorem apply_scaling_sigmoid_not_replayed :
  forall (w_train w_serve : World) (df : DataFrame) (other_type : string),
    one_line_processing w_train = false ->
    scaler_saved w_train = false ->
    index df <> [] -> numeric_columns (columns df) <> [] ->
    one_line_processing w_serve = true ->
    scaler_file w_serve
    = scaler_file (snd (apply_scaling df "MinMaxScaler + Sigmoid" w_train)) ->
    fst (apply_scaling df "MinMaxScaler + Sigmoid" w_train)
    = Ok (scaled_frame df
            (map (fun c => (fst c, minmax_sigmoid (snd c))) (numeric_columns (columns df)))) /\
    fst (apply_scaling df other_type w_serve)
    = Ok (scaled_frame df
            (map (fun c => (fst c, minmax_only (snd c))) (numeric_columns (columns df)))).
Proof.
  intros wt ws df t' Ht Hfresh Hidx HX Hs Hfile.
  assert (Hn : length (index df) <> O) by (destruct (index df); simpl; congruence).
  pose proof (apply_scaling_training_cases df "MinMaxScaler + Sigmoid" wt Ht) as Hcases.
  cbn [training_choice String.eqb Ascii.eqb Bool.eqb] in Hcases.
  rewrite (@check_array_ok _ _ Hn HX) in Hcases.
  rewrite Hcases in *. cbn [fst snd] in *.
  destruct (save_borders_scaler_file (fitted_scaler MinMax (numeric_columns (columns df))) wt)
    as [_ [H2 _]].
  rewrite Hfresh in H2. rewrite H2 in Hfile.
  rewrite (@apply_scaling_serving_replay df t' ws _ Hs Hfile).
  rewrite (transform_fitted MinMax _ _ Hn HX). split.
  - unfold sigmoid_columns, fitted_columns, minmax_sigmoid. rewrite map_map.
    do 2 f_equal. apply map_ext. intros [n xs]. simpl. now rewrite map_map.
  - reflexivity.
Qed.

Lemma apply_scaling_sigmoid_not_replayed_witness :
  fst (apply_scaling scenario_B_table "MinMaxScaler + Sigmoid"
         (init serving_record true "binary"
               (Some (fitted_scaler MinMax (numeric_columns (columns scenario_B_table))))
               None None))
  = Ok (mkDataFrame [0; 1; 2]%Z [("x"%string, float64s (minmax_only scenario_B_values))]).
Proof.
  assert (Hidx : index scenario_B_table <> []) by discriminate.
  assert (HX : numeric_columns (columns scenario_B_table) <> []) by discriminate.
  refine (proj2 (@apply_scaling_sigmoid_not_replayed training_world
                   (init serving_record true "binary"
                      (Some (fitted_scaler MinMax (numeric_columns (columns scenario_B_table))))
                      None None)
                   scenario_B_table "MinMaxScaler + Sigmoid"
                   eq_refl eq_refl Hidx HX eq_refl _)).
  assert (Hn : length (index scenario_B_table) <> O) by discriminate.
  pose proof (apply_scaling_training_cases scenario_B_table "MinMaxScaler + Sigmoid"
                training_world eq_refl) as Hcases.
  cbn [training_choice String.eqb Ascii.eqb Bool.eqb] in Hcases.
  rewrite (@check_array_ok _ _ Hn HX) in Hcases. rewrite Hcases. reflexivity.
Defined.

(** ** apply_scaling: the shape of a returned frame *)

Lemma apply_scaling_serving_cases df scaler_type w :
  one_line_processing w = true ->
  fst (apply_scaling df scaler_type w)
  = match (match scaler_file w with Some s => Some s | None => scaler w end) with
    | None => Raise (AttributeError "'NoneType' object has no attribute 'transform'")
    | Some s =>
        rbind (transform s (length (index df)) (numeric_columns (columns df)))
              (fun scaled_data => Ok (scaled_frame df scaled_data))
    end.
Proof.
  intros Hmode. unfold apply_scaling, bind, get. rewrite Hmode. cbn [negb].
  destruct (load_borders_spec w) as [w' [-> [Hs _]]]. rewrite Hs.
  destruct (match scaler_file w with Some s => Some s | None => scaler w end);
    [|reflexivity].
  unfold lift. destruct (transform _ _ _); reflexivity.
Qed.

Lemma transform_columns_shape k : forall ps X,
  length ps = length X ->
  map fst (transform_columns k ps X) = map fst X /\
  map (fun c => length (snd c)) (transform_columns k ps X)
  = map (fun c => length (snd c)) X.
Proof.
  induction ps as [|p ps IH]; intros [|[n xs] X] H; simpl in *; try discriminate; auto.
  destruct (IH X) as [H1 H2]; [lia|]. rewrite H1, H2, length_map. auto.
Qed.

Lemma transform_shape s n X Y :
  transform s n X = Ok Y ->
  map fst Y = map fst X /\
  map (fun c => length (snd c)) Y = map (fun c => length (snd c)) X.
Proof.
  unfold transform. destruct (fitted s) as [ps|]; [|discriminate].
  destruct (negb _ && negb _); [discriminate|].
  destruct (check_array n X); [|discriminate].
  destruct (Nat.eqb (length ps) (length X)) eqn:E; [|discriminate].
  intros H. inversion H. apply transform_columns_shape.
  rewrite length_map. now apply Nat.eqb_eq.
Qed.

Lemma fitted_columns_shape k X :
  map fst (fitted_columns k X) = map fst X /\
  map (fun c => length (snd c)) (fitted_columns k X) = map (fun c => length (snd c)) X.
Proof.
  unfold fitted_columns. rewrite !map_map. split; apply map_ext; intros [n xs]; simpl; auto.
  apply length_map.
Qed.

Lemma sigmoid_columns_shape Y :
  map fst (sigmoid_columns Y) = map fst Y /\
  map (fun c => length (snd c)) (sigmoid_columns Y) = map (fun c => length (snd c)) Y.
Proof.
  unfold sigmoid_columns. rewrite !map_map. split; apply map_ext; intros [n xs]; simpl; auto.
  apply length_map.
Qed.

(** A returned frame is [scaled_frame] of a block shaped like the numeric
    block of the input. *)
Lemma apply_scaling_inv df scaler_type w df' w' :
  apply_scaling df scaler_type w = (Ok df', w') ->
  exists Y, df' = scaled_frame df Y /\
            map fst Y = map fst (numeric_columns (columns df)) /\
            map (fun c => length (snd c)) Y
            = map (fun c => length (snd c)) (numeric_columns (columns df)).
Proof.
  intros Hrun. destruct (one_line_processing w) eqn:Hmode.
  - pose proof (apply_scaling_serving_cases df scaler_type w Hmode) as H.
    rewrite Hrun in H. cbn [fst] in H.
    destruct (match scaler_file w with Some s => Some s | None => scaler w end) as [s|];
      [|discriminate].
    destruct (transform s _ _) as [Y|] eqn:Ht; [|discriminate].
    inversion H. exists Y. split; [reflexivity|]. eapply transform_shape; eauto.
  - pose proof (apply_scaling_training_cases df scaler_type w Hmode) as H.
    destruct (training_choice scaler_type) as [[k sig]|]; [|congruence].
    destruct (check_array _ _); [|congruence].
    rewrite Hrun in H. inversion H. eexists. split; [reflexivity|].
    destruct sig.
    + destruct (sigmoid_columns_shape (fitted_columns k (numeric_columns (columns df))))
        as [Hs1 Hs2].
      destruct (fitted_columns_shape k (numeric_columns (columns df))) as [Hs3 Hs4].
      split; congruence.
    + apply fitted_columns_shape.
Qed.

Lemma other_columns_app a b : other_columns (a ++ b) = other_columns a ++ other_columns b.
Proof.
  induction a as [|[n v] a IH]; simpl; auto. destruct v; simpl; rewrite IH; reflexivity.
Qed.

Lemma other_columns_floats (Y : list (string * list float64)) :
  other_columns (map (fun c => (fst c, float64s (snd c))) Y) = [].
Proof. induction Y as [|[n xs] Y IH]; simpl; auto. Qed.

Lemma other_columns_idem cols : other_columns (other_columns cols) = other_columns cols.
Proof.
  induction cols as [|[n v] cols IH]; simpl; auto. destruct v; simpl; rewrite ?IH; auto.
Qed.

Lemma other_columns_In cols c : In c (other_columns cols) -> In c cols.
Proof.
  induction cols as [|[n v] cols IH]; simpl; auto.
  destruct v; simpl; intros H; auto; destruct H; auto.
Qed.

Lemma numeric_columns_lengths cols n :
  Forall (fun c => nrows (snd c) = n) cols ->
  Forall (fun l => l = n) (map (fun c => length (snd c)) (numeric_columns cols)).
Proof.
  induction 1 as [|[nm v] cols Hv Hcols IH]; simpl; auto.
  destruct v; simpl in *; auto.
Qed.

(** X8.  apply_scaling, when it returns, keeps the index and the rows,
    leaves every non-numeric column untouched, and reorders the columns: the
    numeric columns come first, then the non-numeric ones. *)
Theorem apply_scaling_moves_numeric_columns_first :
  forall (w : World) (df : DataFrame) (scaler_type : string) (df' : DataFrame) (w' : World),
    apply_scaling df scaler_type w = (Ok df', w') ->
    index df' = index df /\
    column_names df'
    = map fst (numeric_columns (columns df)) ++ map fst (other_columns (columns df)) /\
    other_columns (columns df') = other_columns (columns df) /\
    (wf_frame df -> wf_frame df').
Proof.
  intros w df t df' w' Hrun.
  destruct (apply_scaling_inv df t w df' w' Hrun) as [Y [-> [Hn Hl]]].
  unfold scaled_frame, column_names. simpl. repeat split.
  - rewrite map_app, map_map. simpl. now rewrite <- Hn.
  - now rewrite other_columns_app, other_columns_floats, other_columns_idem.
  - intros Hwf. unfold wf_frame in *. simpl. apply Forall_app. split.
    + pose proof (numeric_columns_lengths _ _ Hwf) as Hnum. rewrite <- Hl in Hnum.
      rewrite Forall_map in Hnum. apply Forall_map. simpl. exact Hnum.
    + rewrite Forall_forall in *. intros c Hc. apply Hwf. now apply other_columns_In.
Qed.

Lemma apply_scaling_moves_numeric_columns_first_witness :
  column_names mixed_table = ["registrar"; "lex_len"]%string /\
  exists df',
    fst (apply_scaling mixed_table "StandardScaler"
           (init serving_record true "binary" (Some persisted_scaler) None None))
    = Ok df' /\
    column_names df' = ["lex_len"; "registrar"]%string.
Proof.
  split; [reflexivity|].
  set (w := init serving_record true "binary" (Some persisted_scaler) None None).
  assert (Hrun : apply_scaling mixed_table "StandardScaler" w
                 = (Ok (mkDataFrame [0; 1]%Z
                          [("lex_len"%string, float64s [Num (3 * 1 + 0); Num (7 * 1 + 0)]);
                           ("registrar"%string, objects [PStr "r1"; PStr "r2"])]),
                    snd (apply_scaling mixed_table "StandardScaler" w)))
    by reflexivity.
  destruct (@apply_scaling_moves_numeric_columns_first w mixed_table "StandardScaler"
              _ _ Hrun) as [_ [Hnames _]].
  eexists. split; [rewrite Hrun; reflexivity | exact Hnames].
Defined.

(** ** The scaler name perform_eda hands to apply_scaling *)

Lemma scaler_recommendation_lookup zscore df k :
  dict_get_default (scaler_recommendation zscore df) k "StandardScaler"%string
  = if String.eqb k "svm" then
      (if fgt (bool_mean (zscore_outliers zscore (length (index df))
                                          (numeric_columns (columns df))))
              (Num (5 / 100)) || (0 <? missing_values df)%nat
       then "RobustScaler" else "StandardScaler")%string
    else if String.eqb k "xgboost" then "MinMaxScaler"%string
    else if String.eqb k "cnn" then "MinMaxScaler + Sigmoid"%string
    else "StandardScaler"%string.
Proof.
  unfold scaler_recommendation, dict_get_default.
  destruct (fgt _ _ || _); simpl;
    destruct (String.eqb k "svm"), (String.eqb k "xgboost"), (String.eqb k "cnn");
    reflexivity.
Qed.

(** X9.  The scaler name that perform_eda looks up for a model name
    (recommendations.get(model.lower(), 'StandardScaler')) is always one of
    the four names apply_scaling knows; any model name other than svm,
    xgboost and cnn (in any letter case) falls back to 'StandardScaler'; so
    the training branch of apply_scaling, called with that name, never ends
    in "Unsupported scaler type". *)
Theorem perform_eda_scaler_type_is_supported :
  forall (zscore : list float64 -> list float) (df : DataFrame) (model : string),
    let scaler_type :=
      dict_get_default (scaler_recommendation zscore df) (lower model)
                       "StandardScaler"%string in
    (scaler_type = "StandardScaler" \/ scaler_type = "RobustScaler" \/
     scaler_type = "MinMaxScaler" \/ scaler_type = "MinMaxScaler + Sigmoid")%string /\
    (lower model <> "svm" -> lower model <> "xgboost" -> lower model <> "cnn" ->
     scaler_type = "StandardScaler")%string /\
    (forall (features : DataFrame) (w : World),
       one_line_processing w = false ->
       fst (apply_scaling features scaler_type w)
       <> Raise (ValueError ("Unsupported scaler type: " ++ scaler_type))).
Proof.
  intros zscore df m scaler_type.
  assert (Hcases : (scaler_type = "StandardScaler" \/ scaler_type = "RobustScaler" \/
                    scaler_type = "MinMaxScaler" \/
                    scaler_type = "MinMaxScaler + Sigmoid")%string).
  { unfold scaler_type. rewrite scaler_recommendation_lookup.
    destruct (String.eqb (lower m) "svm"); [destruct (fgt _ _ || _); auto|].
    destruct (String.eqb (lower m) "xgboost"); auto.
    destruct (String.eqb (lower m) "cnn"); auto. }
  split; [exact Hcases|]. split.
  - intros H1 H2 H3. unfold scaler_type. rewrite scaler_recommendation_lookup.
    apply String.eqb_neq in H1, H2, H3. now rewrite H1, H2, H3.
  - intros features w Hmode.
    pose proof (apply_scaling_training_cases features scaler_type w Hmode) as H.
    assert (Hchoice : training_choice scaler_type <> None)
      by (destruct Hcases as [-> | [-> | [-> | ->]]]; discriminate).
    destruct (training_choice scaler_type) as [[k sig]|]; [|congruence].
    destruct (check_array (length (index features)) (numeric_columns (columns features)))
      as [u|e] eqn:Hc.
    + rewrite H. discriminate.
    + rewrite H. cbn [fst]. intros Heq. inversion Heq as [He]. subst e.
      revert Hc. unfold check_array.
      destruct (length (index features)); [|destruct (numeric_columns _)];
        destruct Hcases as [-> | [-> | [-> | ->]]]; discriminate.
Qed.

(** X11.  A training-mode apply_scaling on a table that scikit-learn rejects
    (no row, or no numeric column) raises the library's ValueError after the
    assignment self.scaler = <Scaler>(): the scaler the instance held before
    is replaced by an unfitted one, and nothing is persisted. *)
Theorem apply_scaling_rejected_input_discards_scaler :
  forall (w : World) (df : DataFrame) (scaler_type : string)
         (k : scaler_kind) (with_sigmoid : bool),
    one_line_processing w = false ->
    training_choice scaler_type = Some (k, with_sigmoid) ->
    index df = [] \/ numeric_columns (columns df) = [] ->
    exists msg w',
      apply_scaling df scaler_type w = (Raise (ValueError msg), w') /\
      scaler w' = Some (mkScaler k None) /\
      transform (mkScaler k None) (length (index df)) (numeric_columns (columns df))
      = Raise (ValueError "This scaler instance is not fitted yet") /\
      scaler_file w' = scaler_file w /\ scaler_saved w' = scaler_saved w /\
      outliers_file w' = outliers_file w.
Proof.
  intros w df t k sig Hmode Hchoice Hempty.
  pose proof (apply_scaling_training_cases df t w Hmode) as H.
  rewrite Hchoice in H.
  assert (Hc : exists msg, check_array (length (index df)) (numeric_columns (columns df))
                           = Raise (ValueError msg)).
  { unfold check_array. destruct Hempty as [-> | ->]; simpl; [eauto|].
    destruct (length (index df)); eauto. }
  destruct Hc as [msg Hc]. rewrite Hc in H.
  exists msg, (set_scaler (Some (mkScaler k None)) w).
  repeat split; auto.
Qed.

Lemma apply_scaling_rejected_input_discards_scaler_witness :
  exists msg w',
    apply_scaling names_only_table "RobustScaler"
      (init [] false "binary" (Some persisted_scaler) None None)
    = (Raise (ValueError msg), w') /\
    scaler w' = Some (mkScaler Robust None).
Proof.
  destruct (@apply_scaling_rejected_input_discards_scaler
              (init [] false "binary" (Some persisted_scaler) None None)
              names_only_table "RobustScaler" Robust false eq_refl eq_refl
              (or_intror eq_refl)) as [msg [w' [Hrun [Hs _]]]].
  exists msg, w'. split; assumption.
Defined.

(** ** Column selection *)

Lemma mem_string_filter (p : string -> bool) s l :
  mem_string s (filter p l) = mem_string s l && p s.
Proof.
  unfold mem_string. induction l as [|a l IH]; simpl; auto.
  destruct (p a) eqn:Ea; simpl; rewrite IH;
    (destruct (String.eqb s a) eqn:E; simpl; auto);
    apply String.eqb_eq in E; subst a; rewrite Ea; auto with bool.
Qed.

Lemma has_column_In df c : has_column df c = true <-> In c (column_names df).
Proof. apply mem_string_In. Qed.

Lemma drop_nontrain_columns table :
  columns (drop_nontrain table)
  = filter (fun c => negb (mem_string (fst c) nontraining_fields)) (columns table).
Proof.
  unfold drop_nontrain, drop_columns. cbn [columns].
  apply filter_ext_in. intros c Hc. rewrite mem_string_filter.
  assert (Hhas : has_column table (fst c) = true)
    by (apply has_column_In; unfold column_names; now apply in_map).
  now rewrite Hhas, andb_true_r.
Qed.

Lemma map_fst_filter (p : string -> bool) (cols : list (string * values)) :
  map fst (filter (fun c => p (fst c)) cols) = filter p (map fst cols).
Proof.
  induction cols as [|[n v] cols IH]; simpl; auto.
  destruct (p n); simpl; now rewrite IH.
Qed.

Lemma get_column_filter (p : string -> bool) cols c :
  p c = true -> get_column (filter (fun x => p (fst x)) cols) c = get_column cols c.
Proof.
  intros Hp. induction cols as [|[n v] cols IH]; simpl; auto.
  destruct (p n) eqn:E; simpl.
  - now rewrite IH.
  - destruct (String.eqb c n) eqn:Ec; auto.
    apply String.eqb_eq in Ec. congruence.
Qed.

Lemma filter_idem {A} (p : A -> bool) l : filter p (filter p l) = filter p l.
Proof.
  induction l as [|a l IH]; simpl; auto.
  destruct (p a) eqn:E; simpl; rewrite ?E, IH; reflexivity.
Qed.

(** X12.  drop_nontrain removes exactly the columns named in
    nontraining_fields, whether or not any of them is present (it never
    raises): the other columns stay, in their order and with their cells, the
    rows are untouched, and a second pass changes nothing. *)
Theorem drop_nontrain_removes_exactly_nontraining :
  forall table : DataFrame,
    index (drop_nontrain table) = index table /\
    column_names (drop_nontrain table)
    = filter (fun c => negb (mem_string c nontraining_fields)) (column_names table) /\
    (forall c, In c nontraining_fields -> has_column (drop_nontrain table) c = false) /\
    (forall c, ~ In c nontraining_fields ->
       get_column (columns (drop_nontrain table)) c = get_column (columns table) c) /\
    drop_nontrain (drop_nontrain table) = drop_nontrain table.
Proof.
  intros table.
  assert (Hnames : column_names (drop_nontrain table)
                   = filter (fun c => negb (mem_string c nontraining_fields))
                            (column_names table)).
  { unfold column_names. rewrite drop_nontrain_columns.
    apply (map_fst_filter (fun c => negb (mem_string c nontraining_fields))). }
  split; [reflexivity|]. split; [exact Hnames|]. split; [|split].
  - intros c Hc. destruct (has_column (drop_nontrain table) c) eqn:E; auto.
    apply has_column_In in E. rewrite Hnames in E. apply filter_In in E.
    destruct E as [_ E]. apply mem_string_In in Hc. now rewrite Hc in E.
  - intros c Hc. rewrite drop_nontrain_columns.
    apply (get_column_filter (fun c => negb (mem_string c nontraining_fields))).
    destruct (mem_string c nontraining_fields) eqn:E; auto.
    apply mem_string_In in E. contradiction.
  - assert (Hcols : columns (drop_nontrain (drop_nontrain table))
                    = columns (drop_nontrain table)).
    { rewrite (drop_nontrain_columns (drop_nontrain table)), drop_nontrain_columns.
      apply filter_idem. }
    destruct (drop_nontrain (drop_nontrain table)) as [i2 c2] eqn:E2.
    assert (Hi : i2 = index (drop_nontrain table))
      by (change i2 with (index (mkDataFrame i2 c2)); rewrite <- E2; reflexivity).
    cbn [columns] in Hcols. subst.
    now destruct (drop_nontrain table).
Qed.

Lemma select_columns_present table names :
  (forall n, In n names -> In n (column_names table)) ->
  exists cols,
    select_columns table names = Ok (mkDataFrame (index table) cols) /\
    map fst cols = names /\
    forall n v, In (n, v) cols -> get_column (columns table) n = Some v.
Proof.
  unfold select_columns. induction names as [|n names IH]; intros Hall.
  - exists []. simpl. repeat split; auto. intros n v [].
  - destruct IH as [cols [Hrun [Hn Hget]]]; [intros; apply Hall; now right|].
    assert (Hv : exists v, get_column (columns table) n = Some v).
    { assert (Hin : In n (column_names table)) by (apply Hall; now left).
      unfold column_names in Hin. clear -Hin.
      induction (columns table) as [|[m v] cols IH]; [destruct Hin|]. simpl.
      destruct (String.eqb n m) eqn:E; [eauto|].
      destruct Hin as [H|H]; [simpl in H; subst; now rewrite String.eqb_refl in E | auto]. }
    destruct Hv as [v Hv]. exists ((n, v) :: cols).
    cbn [mapM]. rewrite Hv.
    destruct (mapM _ names) as [cs|e] eqn:E; cbn [rbind] in Hrun; [|discriminate].
    inversion Hrun. subst cs. cbn [rbind]. repeat split.
    + simpl. now rewrite Hn.
    + intros n' v' [H|H]; [inversion H; now subst | eauto].
Qed.

Lemma select_columns_missing table names n :
  In n names -> ~ In n (column_names table) ->
  (forall m, In m names -> m <> n -> In m (column_names table)) ->
  select_columns table names = Raise (KeyError n).
Proof.
  unfold select_columns. intros Hin Hmiss Hothers.
  assert (Hnone : forall m, ~ In m (column_names table) -> get_column (columns table) m = None).
  { intros m Hm. destruct (get_column (columns table) m) eqn:E; auto.
    exfalso. apply Hm. apply get_column_In in E. unfold column_names.
    now apply (in_map fst) in E. }
  assert (Hr : mapM (fun n0 => match get_column (columns table) n0 with
                               | Some v => Ok (n0, v)
                               | None => Raise (KeyError n0)
                               end) names = Raise (KeyError n)).
  { induction names as [|a names IH]; [destruct Hin|]. cbn [mapM].
    destruct (String.eqb a n) eqn:E.
    - apply String.eqb_eq in E. subst a. now rewrite (Hnone n Hmiss).
    - apply String.eqb_neq in E.
      destruct (select_columns_present table [a]) as [cols [Hrun _]].
      { intros m [<-|[]]. apply Hothers; [now left | exact E]. }
      unfold select_columns in Hrun. cbn [mapM] in Hrun.
      destruct (get_column (columns table) a); [|discriminate Hrun].
      rewrite IH; auto.
      + destruct Hin as [H|H]; [congruence | exact H].
      + intros m Hm. apply Hothers. now right. }
  now rewrite Hr.
Qed.

(** X13.  select_lexical_features on a table with distinct column names:
    without a 'domain_name' column it raises KeyError('domain_name'), with
    it but without 'label' KeyError('label'); otherwise it returns the rows
    untouched with the columns domain_name, label and then every column whose
    name starts with "lex", in table order, each with its cells; and
    drop_nontrain, which perform_eda calls next, leaves that result as it
    is. *)
Theorem select_lexical_features_columns :
  forall table : DataFrame,
    NoDup (column_names table) ->
    match select_lexical_features table with
    | Ok t =>
        has_column table "domain_name" = true /\ has_column table "label" = true /\
        index t = index table /\
        column_names t
        = ("domain_name" :: "label"
           :: filter (fun col => startswith col "lex") (column_names table))%string /\
        (forall c v, In (c, v) (columns t) -> get_column (columns table) c = Some v) /\
        drop_nontrain t = t
    | Raise e =>
        (has_column table "domain_name" = false /\ e = KeyError "domain_name") \/
        (has_column table "domain_name" = true /\ has_column table "label" = false /\
         e = KeyError "label")
    end.
Proof.
  intros table _. unfold select_lexical_features.
  set (lex := filter (fun col => startswith col "lex") (column_names table)).
  assert (Hlex : forall n, In n lex -> In n (column_names table))
    by (intros n Hn; apply filter_In in Hn; tauto).
  assert (Hlexp : forall n, In n lex -> startswith n "lex" = true)
    by (intros n Hn; apply filter_In in Hn; tauto).
  destruct (has_column table "domain_name") eqn:Hd.
  - destruct (has_column table "label") eqn:Hl.
    + apply has_column_In in Hd, Hl.
      destruct (select_columns_present table (["domain_name"; "label"]%string ++ lex))
        as [cols [Hrun [Hn Hget]]].
      { intros n [<-|[<-|Hn]]; auto. }
      rewrite Hrun. repeat split; auto.
      assert (Hnone : filter (fun x => has_column (mkDataFrame (index table) cols) x)
                             nontraining_fields = []).
      { unfold has_column, column_names. cbn [columns]. rewrite Hn.
        assert (Hno : forallb (fun x => negb (String.eqb x "domain_name") &&
                                        negb (String.eqb x "label") &&
                                        negb (startswith x "lex")) nontraining_fields = true)
          by reflexivity.
        rewrite forallb_forall in Hno.
        induction nontraining_fields as [|x l IH]; [reflexivity|]. cbn [filter].
        assert (Hx := Hno x (or_introl eq_refl)).
        apply andb_true_iff in Hx. destruct Hx as [Hx H3].
        apply andb_true_iff in Hx. destruct Hx as [H1 H2].
        apply negb_true_iff in H1, H2, H3.
        assert (Hex : existsb (String.eqb x) (["domain_name"; "label"]%string ++ lex) = false).
        { destruct (existsb _ _) eqn:E; auto.
          apply existsb_exists in E. destruct E as [y [Hy Ey]].
          apply String.eqb_eq in Ey. subst y.
          destruct Hy as [<-|[<-|Hy]]; try discriminate.
          apply Hlexp in Hy. congruence. }
        rewrite Hex. apply IH. intros y Hy. apply Hno. now right. }
      unfold drop_nontrain. rewrite Hnone. unfold drop_columns. cbn [columns index mem_string existsb negb].
      f_equal. clear. induction cols as [|c cols IH]; simpl; congruence.
    + rewrite (select_columns_missing table (["domain_name"; "label"]%string ++ lex)
                 "label"%string).
      * right. repeat split; reflexivity.
      * right. now left.
      * intros H. apply has_column_In in H. congruence.
      * intros m [<-|[<-|Hm]] Hne; [now apply has_column_In | congruence | auto].
  - destruct (has_column table "label") eqn:Hl.
    + rewrite (select_columns_missing table (["domain_name"; "label"]%string ++ lex)
                 "domain_name"%string).
      * left. split; reflexivity.
      * now left.
      * intros H. apply has_column_In in H. congruence.
      * intros m [<-|[<-|Hm]] Hne; [congruence | now apply has_column_In | auto].
    + unfold select_columns. cbn [app mapM].
      assert (Hnone : get_column (columns table) "domain_name" = None).
      { destruct (get_column (columns table) "domain_name") eqn:E; auto.
        apply get_column_In in E. apply (in_map fst) in E. cbn [fst] in E.
        apply has_column_In in E. congruence. }
      rewrite Hnone. left. split; reflexivity.
Qed.

Lemma select_lexical_features_columns_witness :
  exists t,
    select_lexical_features lexical_table = Ok t /\
    column_names t = ["domain_name"; "label"; "lex_len"; "lex_digits"]%string.
Proof.
  assert (Hnd : NoDup (column_names lexical_table)).
  { unfold column_names, lexical_table. cbn [columns map fst].
    repeat constructor; simpl; intuition discriminate. }
  pose proof (@select_lexical_features_columns lexical_table Hnd) as H.
  assert (E : select_lexical_features lexical_table
              = Ok (mkDataFrame [0; 1]%Z
                      [("domain_name"%string, objects [PStr "a.com"; PStr "b.org"]);
                       ("label"%string, objects [PStr "benign:a"; PStr "dga:b"]);
                       ("lex_len"%string, float64s [Num 5; Num 7]);
                       ("lex_digits"%string, float64s [Num 0; Num 1])]))
    by reflexivity.
  rewrite E in H. destruct H as [_ [_ [_ [Hn _]]]].
  eexists. split; [exact E | exact Hn].
Defined.

(** ** The multiclass policy *)

Lemma cleaned_label_family s c :
  cleaned_label (PStr s) = Ok c -> family_of s = Some c.
Proof.
  unfold cleaned_label, family_of. cbn [as_str rbind].
  destruct (split_colon s) as [|a [|b r]]; congruence.
Qed.

Lemma mapM_as_str ls : mapM as_str (map PStr ls) = Ok ls.
Proof. induction ls as [|a ls IH]; simpl; [reflexivity | now rewrite IH]. Qed.

Lemma multiclass_loop_strings inverse : forall us cleaned cm,
  mapM cleaned_label (map PStr us) = Ok cleaned ->
  policy_map (multiclass_policy inverse) us cm
             (multiclass_loop (combine us cleaned) inverse cm).
Proof.
  induction us as [|a us IH]; intros cleaned cm Hc.
  - intros s. reflexivity.
  - cbn [map mapM] in Hc.
    destruct (cleaned_label (PStr a)) as [c|] eqn:Ea; [|discriminate].
    destruct (mapM cleaned_label (map PStr us)) as [cs|] eqn:Ecs; [|discriminate].
    inversion Hc. subst cleaned. cbn [combine multiclass_loop].
    eapply policy_map_step; [|apply IH; reflexivity].
    unfold multiclass_policy. now rewrite (cleaned_label_family a c Ea).
Qed.

Lemma invert_fold_In (m : list (Z * string)) v k : forall d : dict Z,
  dict_get (fold_left (fun d kv => dict_set d (snd kv) (fst kv)) m d) v = Some k ->
  In (k, v) m \/ dict_get d v = Some k.
Proof.
  induction m as [|[k0 v0] m IH]; intros d H; simpl in *; [now right|].
  destruct (IH _ H) as [Hin|Hd]; [now left; right|].
  destruct (String.eqb v0 v) eqn:E.
  - apply String.eqb_eq in E. subst v0. rewrite dict_get_set_same in Hd.
    inversion Hd. now left; left.
  - apply String.eqb_neq in E. rewrite dict_get_set_other in Hd by exact E. now right.
Qed.

Lemma invert_In (m : list (Z * string)) v k :
  dict_get (invert m) v = Some k -> In (k, v) m.
Proof.
  intros H. destruct (invert_fold_In m v k [] H) as [Hin|Hd]; [exact Hin | discriminate].
Qed.

(** X14.  Under the 'multiclass' policy the class map is built by family:
    when every label of the column holds a colon, a label gets the key under
    which the dga table lists its first two colon-separated segments, so all
    labels of one family share one class id, every id in the map is a key of
    the table, and a label whose family the table does not list gets no
    entry; when some label holds no colon, the normalisation raises
    IndexError and no map is built. *)
Theorem multiclass_class_map_by_family :
  forall (dga_class_map : list (Z * string)) (label_column : list string),
    match generate_class_map dga_class_map "multiclass" (unique (map PStr label_column)) with
    | Ok class_map =>
        (forall s, In s label_column -> contains_colon s = true) /\
        (forall s, In s label_column ->
           dict_get class_map s = multiclass_policy (invert dga_class_map) s) /\
        (forall s id, dict_get class_map s = Some id ->
           In s label_column /\
           exists family, family_of s = Some family /\ In (id, family) dga_class_map) /\
        (forall s t, In s label_column -> In t label_column ->
           family_of s = family_of t -> dict_get class_map s = dict_get class_map t)
    | Raise e =>
        e = IndexError "list index out of range" /\
        exists s, In s label_column /\ contains_colon s = false
    end.
Proof.
  intros dcm label_column.
  destruct (unique_strings label_column) as [us [Hu Hus]].
  unfold generate_class_map. cbn [String.eqb Ascii.eqb Bool.eqb].
  unfold multiclass_class_map. rewrite Hu.
  destruct (forallb contains_colon label_column) eqn:Hall.
  - rewrite forallb_forall in Hall.
    destruct (mapM_ok cleaned_label (map PStr us)) as [cleaned Hclean].
    { intros o Ho. apply in_map_iff in Ho. destruct Ho as [s [<- Hs]].
      apply cleaned_label_colon. apply Hall. now apply Hus. }
    rewrite Hclean, mapM_as_str. cbn [rbind].
    pose proof (multiclass_loop_strings (invert dcm) us cleaned [] Hclean) as Hmap.
    pose proof (@policy_map_lookup (multiclass_policy (invert dcm)) label_column us _ Hus Hmap)
      as Hget.
    assert (Hin : forall s, In s label_column ->
              dict_get (multiclass_loop (combine us cleaned) (invert dcm) []) s
              = multiclass_policy (invert dcm) s).
    { intros s Hs. rewrite (Hget s). apply mem_string_In in Hs. now rewrite Hs. }
    split; [exact Hall|]. split; [exact Hin|]. split.
    + intros s id Hs. rewrite (Hget s) in Hs.
      destruct (mem_string s label_column) eqn:E; [|discriminate].
      split; [now apply mem_string_In|].
      unfold multiclass_policy in Hs.
      destruct (family_of s) as [fam|]; [|discriminate].
      exists fam. split; [reflexivity|]. now apply invert_In.
    + intros s t Hs Ht Hfam. rewrite (Hin s Hs), (Hin t Ht).
      unfold multiclass_policy. now rewrite Hfam.
  - assert (Hex : exists s, In s label_column /\ contains_colon s = false).
    { clear -Hall. induction label_column as [|a l IH]; [discriminate|].
      simpl in Hall. destruct (contains_colon a) eqn:E.
      - destruct (IH Hall) as [s [Hs Hc]]. exists s. split; [now right | exact Hc].
      - exists a. split; [now left | exact E]. }
    destruct Hex as [s [Hs Hc]].
    assert (Hraise : mapM cleaned_label (map PStr us)
                     = Raise (IndexError "list index out of range")).
    { apply mapM_raise.
      - intros o Ho. apply in_map_iff in Ho. destruct Ho as [x [<- _]].
        destruct (contains_colon x) eqn:E.
        + left. now apply cleaned_label_colon.
        + right. now apply cleaned_label_no_colon.
      - exists (PStr s). split.
        + apply in_map. now apply Hus.
        + now apply cleaned_label_no_colon. }
    rewrite Hraise. cbn [rbind]. split; [reflexivity|]. eauto.
Qed.

(** ** Loading the source tables *)

(** X15.  In training mode under the 'binary' or the generic policy both
    dataset paths are needed: with the benign or the malign path missing (or
    empty) the loading never returns a table, and with the benign path
    missing it ends, once the malign file has been read, in the
    AttributeError of a method called on None; the branch for a malign table
    alone and the ValueError 'No datasets found' are not reached that way. *)
Theorem load_datasets_needs_both_paths :
  forall (read_table : string -> result DataFrame)
         (cast : DataFrame -> DataFrame -> result DataFrame)
         (concat_tables : DataFrame -> DataFrame -> DataFrame) (w : World),
    dga w <> "multiclass"%string ->
    truthy (benign_path w) = None \/ truthy (malign_path w) = None ->
    (forall t, load_datasets read_table cast concat_tables w <> Ok t) /\
    (truthy (benign_path w) = None ->
     load_datasets read_table cast concat_tables w
     = match read_optional read_table (malign_path w) with
       | Raise e => Raise e
       | Ok _ => Raise (AttributeError "'NoneType' object has no attribute 'column_names'")
       end).
Proof.
  intros read_table cast concat_tables w Hdga Hmiss.
  assert (Hm : String.eqb (dga w) "multiclass" = false) by now apply String.eqb_neq.
  assert (Hbenign : truthy (benign_path w) = None ->
            load_datasets read_table cast concat_tables w
            = match read_optional read_table (malign_path w) with
              | Raise e => Raise e
              | Ok _ => Raise (AttributeError
                                 "'NoneType' object has no attribute 'column_names'")
              end).
  { intros Hb. unfold load_datasets. rewrite Hm.
    unfold read_optional at 1. rewrite Hb. cbn [rbind].
    destruct (read_optional read_table (malign_path w)) as [m|e]; cbn [rbind]; [|reflexivity].
    destruct (String.eqb (dga w) "binary"); reflexivity. }
  split; [|exact Hbenign].
  intros t. destruct Hmiss as [Hb|Hmal].
  - rewrite (Hbenign Hb). destruct (read_optional _ _); discriminate.
  - unfold load_datasets. rewrite Hm.
    unfold read_optional at 2. rewrite Hmal.
    destruct (read_optional read_table (benign_path w)) as [b|e]; cbn [rbind]; [|discriminate].
    destruct (String.eqb (dga w) "binary").
    + destruct (on_table select_lexical_features b) as [b'|e]; cbn [rbind]; discriminate.
    + cbn [rbind fst snd]. destruct b as [b|]; cbn [on_table rbind]; discriminate.
Qed.

Lemma load_datasets_needs_both_paths_witness :
  load_datasets (fun _ => Ok lexical_table) same_schema first_table
    (init [("malign"%string, CObj (PStr "malign.parquet"))] false "False" None None None)
  = Raise (AttributeError "'NoneType' object has no attribute 'column_names'").
Proof.
  exact (proj2 (@load_datasets_needs_both_paths (fun _ => Ok lexical_table) same_schema
                  first_table
                  (init [("malign"%string, CObj (PStr "malign.parquet"))] false "False"
                        None None None)
                  ltac:(discriminate) (or_introl eq_refl)) eq_refl).
Defined.

(** ** Serving mode: what perform_eda never does *)

Lemma serving_kept_refl w : one_line_processing w = true -> serving_kept w w.
Proof. intros H. repeat split; auto. Qed.

Lemma serving_kept_trans w1 w2 w3 :
  serving_kept w1 w2 -> serving_kept w2 w3 -> serving_kept w1 w3.
Proof.
  intros [_ [H1 [H2 H3]]] [H0 [H4 [H5 H6]]]. repeat split; congruence.
Qed.

Lemma bind_kept {A B} (m : M A) (k : A -> M B) w :
  (forall r w1, m w = (r, w1) -> serving_kept w w1) ->
  (forall a w1, one_line_processing w1 = true ->
     forall r w2, k a w1 = (r, w2) -> serving_kept w1 w2) ->
  forall r w', bind m k w = (r, w') -> serving_kept w w'.
Proof.
  intros Hm Hk r w'. unfold bind. destruct (m w) as [[a|e] w1] eqn:E.
  - pose proof (Hm _ _ eq_refl) as K1. intros H.
    eapply serving_kept_trans; [exact K1|]. eapply Hk; [apply K1 | exact H].
  - intros H. inversion H. subst. apply (Hm _ _ eq_refl).
Qed.

Lemma load_borders_kept w :
  one_line_processing w = true ->
  load_borders w = (Ok tt, snd (load_borders w)) /\ serving_kept w (snd (load_borders w)).
Proof.
  intros Hmode. split; [reflexivity|].
  destruct w as [olp dg srd bp mp sc ou ss os md sf ofile mf]. cbn in Hmode. subst olp.
  unfold load_borders. cbn. destruct sf, ofile; cbn; repeat split.
Qed.

Lemma load_model_kept w :
  one_line_processing w = true ->
  load_model w = (Ok tt, snd (load_model w)) /\ serving_kept w (snd (load_model w)).
Proof.
  intros Hmode. split; [reflexivity|].
  destruct w as [olp dg srd bp mp sc ou ss os md sf ofile mf]. cbn in Hmode. subst olp.
  unfold load_model. cbn. destruct mf; cbn; repeat split.
Qed.

Lemma remove_outliers_kept features labels k w r w' :
  one_line_processing w = true ->
  remove_outliers features labels k w = (r, w') -> serving_kept w w'.
Proof.
  intros Hmode. unfold remove_outliers, bind, get. rewrite Hmode. cbn [negb].
  destruct (load_borders_kept w Hmode) as [-> K].
  destruct (outliers (snd (load_borders w))) as [[|? ?]|]; unfold raise, lift;
    intros H; inversion H; subst; exact K.
Qed.

Lemma apply_scaling_kept df scaler_type w r w' :
  one_line_processing w = true ->
  apply_scaling df scaler_type w = (r, w') -> serving_kept w w'.
Proof.
  intros Hmode. unfold apply_scaling, bind, get. rewrite Hmode. cbn [negb].
  destruct (load_borders_kept w Hmode) as [-> K].
  destruct (scaler (snd (load_borders w))); unfold raise, lift, ret.
  - destruct (transform _ _ _); intros H; inversion H; subst; exact K.
  - intros H; inversion H; subst; exact K.
Qed.

Lemma dtree_stage_kept split fit_p score combined_df labels w r w' :
  one_line_processing w = true ->
  dtree_stage split fit_p score combined_df labels w = (r, w') -> serving_kept w w'.
Proof.
  intros Hmode. unfold dtree_stage, bind, get. rewrite Hmode. cbn [negb].
  destruct (load_model_kept w Hmode) as [-> K].
  destruct (model (snd (load_model w))); unfold raise, lift, ret.
  - destruct (on_table _ _); [|intros H; inversion H; subst; exact K].
    destruct (rows_of a); intros H; inversion H; subst; exact K.
  - intros H; inversion H; subst; exact K.
Qed.

Lemma dtree_stage_serving_any split1 fit1 score1 split2 fit2 score2 combined_df labels w :
  one_line_processing w = true ->
  dtree_stage split1 fit1 score1 combined_df labels w
  = dtree_stage split2 fit2 score2 combined_df labels w.
Proof.
  intros Hmode. unfold dtree_stage, bind, get. rewrite Hmode. reflexivity.
Qed.

Ltac pure_kept :=
  unfold get, lift, ret, raise;
  let r := fresh "r" in let w1 := fresh "w" in let H := fresh "H" in
  intros r w1 H; inversion H; subst; apply serving_kept_refl; assumption.

Lemma perform_eda_kept read_table cast concat_tables sample_order train_test_split
    fit_pipeline cross_val_score dga_class_map zscore model flag w r w' :
  one_line_processing w = true ->
  perform_eda read_table cast concat_tables sample_order train_test_split
              fit_pipeline cross_val_score dga_class_map zscore model flag w = (r, w') ->
  serving_kept w w'.
Proof.
  intros Hmode. unfold perform_eda. revert r w'.
  apply bind_kept; [pure_kept|]. intros w0 w1 Hw1.
  apply bind_kept; [destruct (one_line_processing w0); pure_kept|].
  intros combined_df w2 Hw2.
  apply bind_kept; [destruct (get_column _ _); pure_kept|].
  intros labels0 w3 Hw3.
  apply bind_kept.
  { destruct (negb _ && negb _); [|pure_kept].
    intros r w' H. eapply dtree_stage_kept; eauto. }
  intros combined_df' w4 Hw4.
  apply bind_kept; [destruct (get_column _ _); pure_kept|].
  intros label_column w5 Hw5.
  apply bind_kept; [pure_kept|].
  intros class_map0 w6 Hw6.
  apply bind_kept; [destruct (columns _) as [|[? ?] ?]; pure_kept|].
  intros features0 w7 Hw7.
  apply bind_kept; [intros r w' H; eapply remove_outliers_kept; eauto|].
  intros fl w8 Hw8.
  apply bind_kept.
  { destruct flag; [|pure_kept]. destruct model; [|pure_kept].
    intros r w' H. eapply apply_scaling_kept; eauto. }
  intros features1 w9 Hw9.
  apply bind_kept; [pure_kept|].
  intros tensor w10 Hw10. pure_kept.
Qed.

Lemma bind_get {A} (k : World -> M A) w : bind get k w = k w w.
Proof. reflexivity. Qed.

Lemma bind_same_run {A B} (m1 m2 : M A) (k : A -> M B) w :
  m1 w = m2 w -> bind m1 k w = bind m2 k w.
Proof. intros H. unfold bind. now rewrite H. Qed.

(** X16.  In serving mode perform_eda reads no dataset, trains and scores
    no decision tree and writes no file: its result and final state are the
    same whatever the parquet reader, the schema cast, the concatenation,
    the train/test split, the pipeline fit and the cross-validation would
    do, and the three artifact files and the mode are afterwards as they
    were before, whether the run returns or raises. *)
Theorem perform_eda_serving_reads_and_writes_nothing :
  forall (read_table1 read_table2 : string -> result DataFrame)
         (cast1 cast2 : DataFrame -> DataFrame -> result DataFrame)
         (concat_tables1 concat_tables2 : DataFrame -> DataFrame -> DataFrame)
         (sample_order : nat -> list nat)
         (train_test_split1 train_test_split2 :
            list (list cell) -> list pyobj -> result (list nat * list nat))
         (fit_pipeline1 fit_pipeline2 : list (list cell) -> list pyobj -> result Pipeline)
         (cross_val_score1 cross_val_score2 : list (list cell) -> list pyobj -> result unit)
         (dga_class_map : list (Z * string)) (zscore : list float64 -> list float)
         (model : option string) (apply_scaling_flag : bool) (w : World),
    one_line_processing w = true ->
    perform_eda read_table1 cast1 concat_tables1 sample_order train_test_split1
                fit_pipeline1 cross_val_score1 dga_class_map zscore model apply_scaling_flag w
    = perform_eda read_table2 cast2 concat_tables2 sample_order train_test_split2
                  fit_pipeline2 cross_val_score2 dga_class_map zscore model apply_scaling_flag w
    /\
    serving_kept w
      (snd (perform_eda read_table1 cast1 concat_tables1 sample_order train_test_split1
                        fit_pipeline1 cross_val_score1 dga_class_map zscore model
                        apply_scaling_flag w)).
Proof.
  intros read_table1 read_table2 cast1 cast2 concat_tables1 concat_tables2 sample_order
         train_test_split1 train_test_split2 fit_pipeline1 fit_pipeline2
         cross_val_score1 cross_val_score2 dga_class_map zscore model flag w Hmode.
  split.
  - unfold perform_eda. rewrite !bind_get. rewrite Hmode.
    apply bind_serving_congr; [exact Hmode | |].
    { unfold lift. intros r w' H. inversion H. subst. exact Hmode. }
    intros combined_df w2 Hw2.
    apply bind_serving_congr; [exact Hw2 | |].
    { destruct (get_column _ _); unfold ret, raise; intros r w' H; inversion H;
        subst; exact Hw2. }
    intros labels0 w3 Hw3.
    apply bind_same_run.
    destruct (negb _ && negb _); [|reflexivity].
    now apply dtree_stage_serving_any.
  - destruct (perform_eda read_table1 cast1 concat_tables1 sample_order train_test_split1
                fit_pipeline1 cross_val_score1 dga_class_map zscore model flag w) as [r w'] eqn:E.
    cbn [snd]. eapply perform_eda_kept; eauto.
Qed.

Lemma perform_eda_serving_reads_and_writes_nothing_witness :
  run_perform_eda (Some "svm"%string) true scaling_serving_world
  = perform_eda (fun _ => Ok lexical_table) same_schema first_table (seq 0)
                (fun _ _ => Ok ([O], [])) no_fit no_score [] single_record_zscore
                (Some "svm"%string) true scaling_serving_world /\
  scaler_file (snd (run_perform_eda (Some "svm"%string) true scaling_serving_world))
  = Some persisted_scaler.
Proof.
  destruct (@perform_eda_serving_reads_and_writes_nothing
              no_table (fun _ => Ok lexical_table) same_schema same_schema
              first_table first_table (seq 0) no_split (fun _ _ => Ok ([O], []))
              no_fit no_fit no_score no_score [] single_record_zscore (Some "svm"%string) true
              scaling_serving_world eq_refl) as [Hsame [_ [Hfile _]]].
  split; [exact Hsame | exact Hfile].
Defined.

(** ** get_feature_with_highest_shap *)

Lemma argmax_from_spec : forall (rest pre : list R) (best : R) (best_i : nat),
  (best_i < length pre)%nat -> nth best_i pre 0%R = best ->
  (forall k, (k < length pre)%nat ->
     (nth k pre 0 <= best)%R /\ ((k < best_i)%nat -> (nth k pre 0 < best)%R)) ->
  let j := argmax_from best best_i (length pre) rest in
  (j < length (pre ++ rest))%nat /\
  forall k, (k < length (pre ++ rest))%nat ->
    (nth k (pre ++ rest) 0 <= nth j (pre ++ rest) 0)%R /\
    ((k < j)%nat -> (nth k (pre ++ rest) 0 < nth j (pre ++ rest) 0)%R).
Proof.
  induction rest as [|x rest IH]; intros pre best best_i Hi Hbest Hpre.
  - cbn [argmax_from]. rewrite app_nil_r. split; [exact Hi|].
    intros k Hk. rewrite Hbest. now apply Hpre.
  - cbn [argmax_from].
    assert (Hlen : length (pre ++ [x]) = S (length pre))
      by (rewrite length_app; simpl; lia).
    assert (Happ : pre ++ x :: rest = (pre ++ [x]) ++ rest)
      by (rewrite <- app_assoc; reflexivity).
    assert (Hx : nth (length pre) (pre ++ [x]) 0%R = x)
      by (rewrite app_nth2, Nat.sub_diag by lia; reflexivity).
    unfold Rltb. destruct (Rlt_dec best x) as [Hlt|Hge].
    + specialize (IH (pre ++ [x]) x (length pre)).
      rewrite Hlen in IH. rewrite Happ. apply IH; [lia | exact Hx |].
      intros k Hk. destruct (Nat.lt_ge_cases k (length pre)) as [Hk'|Hk'].
      * rewrite app_nth1 by exact Hk'.
        destruct (Hpre k Hk') as [Hle _]. split; [lra | intros _; lra].
      * assert (k = length pre) by lia. subst k. rewrite Hx. split; [lra | lia].
    + specialize (IH (pre ++ [x]) best best_i).
      rewrite Hlen in IH. rewrite Happ. apply IH; [lia | |].
      * rewrite app_nth1 by exact Hi. exact Hbest.
      * intros k Hk. destruct (Nat.lt_ge_cases k (length pre)) as [Hk'|Hk'].
        -- rewrite app_nth1 by exact Hk'. now apply Hpre.
        -- assert (k = length pre) by lia. subst k. rewrite Hx. split; [lra | lia].
Qed.

Lemma argmax_numbers (rs : list R) :
  rs <> [] ->
  exists j,
    argmax (map Num rs) = Ok j /\ (j < length rs)%nat /\
    forall k, (k < length rs)%nat ->
      (nth k rs 0 <= nth j rs 0)%R /\ ((k < j)%nat -> (nth k rs 0 < nth j rs 0)%R).
Proof.
  intros Hne. destruct rs as [|x rest]; [congruence|].
  assert (Hnan : forall l i, first_nan_from i (map Num l) = None)
    by (induction l; simpl; auto).
  assert (Hdrop : forall l, dropna (map Num l) = l)
    by (induction l; simpl; congruence).
  unfold argmax. cbn [map]. change (Num x :: map Num rest) with (map Num (x :: rest)).
  rewrite Hnan, Hdrop.
  exists (argmax_from x 0 1 rest). split; [reflexivity|].
  apply (argmax_from_spec rest [x] x 0); [simpl; lia | reflexivity |].
  intros k Hk. simpl in Hk. assert (k = O) by lia. subst k. simpl. split; [lra | lia].
Qed.

(** X17.  For a row of SHAP values without NaN, get_feature_with_highest_shap
    returns the name and the cell of the first column whose SHAP value has
    the greatest magnitude: no column has a larger magnitude and every
    earlier column has a strictly smaller one.  It returns only when the row
    is not empty and the dataset has that column and that row. *)
Theorem get_feature_with_highest_shap_first_greatest :
  forall (shap_values : list (list float64)) (dataset : DataFrame) (sample_index : nat)
         (row : list R) (feature_name : string) (feature_value : cell),
    nth_error shap_values sample_index = Some (map Num row) ->
    get_feature_with_highest_shap shap_values dataset sample_index
    = Ok (feature_name, feature_value) ->
    exists j v,
      nth_error (columns dataset) j = Some (feature_name, v) /\
      feature_value = nth_cell v sample_index /\
      (sample_index < length (index dataset))%nat /\
      (j < length row)%nat /\
      forall k, (k < length row)%nat ->
        (Rabs (nth k row 0) <= Rabs (nth j row 0))%R /\
        ((k < j)%nat -> (Rabs (nth k row 0) < Rabs (nth j row 0))%R).
Proof.
  intros shap dataset i row name value Hrow. unfold get_feature_with_highest_shap.
  rewrite Hrow.
  assert (Habs : map fabs (map Num row) = map Num (map Rabs row))
    by (rewrite !map_map; reflexivity).
  rewrite Habs.
  destruct row as [|x rest]; [discriminate|].
  destruct (argmax_numbers (map Rabs (x :: rest))) as [j [Hj [Hlen Hmax]]]; [discriminate|].
  rewrite Hj. cbn [rbind].
  destruct (nth_error (columns dataset) j) as [[n v]|] eqn:Hcol; [|discriminate].
  destruct (i <? length (index dataset))%nat eqn:Hi; [|discriminate].
  intros H. inversion H. subst. exists j, v.
  rewrite length_map in Hlen, Hmax.
  split; [exact Hcol|]. split; [reflexivity|].
  split; [now apply Nat.ltb_lt|]. split; [exact Hlen|].
  intros k Hk. specialize (Hmax k Hk).
  replace 0%R with (Rabs 0) in Hmax by apply Rabs_R0.
  rewrite !map_nth in Hmax. exact Hmax.
Qed.

Lemma get_feature_with_highest_shap_first_greatest_witness :
  exists j v,
    nth_error (columns lexical_table) j = Some ("lex_len"%string, v) /\
    (forall k, (k < 3)%nat ->
       (Rabs (nth k [1; -2; 2] 0) <= Rabs (nth j [1; -2; 2] 0))%R).
Proof.
  assert (Hrun : get_feature_with_highest_shap
                   [[Num 3; Num 0; Num 0]; [Num 1; Num (-2); Num 2]] lexical_table 1
                 = Ok ("lex_len"%string, CFloat (Num 7))).
  { unfold get_feature_with_highest_shap. cbn [nth_error map fabs fmap1].
    unfold argmax. cbn [first_nan_from dropna argmax_from].
    assert (H1 : (Rabs 1 < Rabs (-2))%R)
      by (rewrite (Rabs_right 1), (Rabs_left (-2)) by lra; lra).
    assert (H2 : (Rabs 2 <= Rabs (-2))%R)
      by (rewrite (Rabs_right 2), (Rabs_left (-2)) by lra; lra).
    rewrite (@Rltb_true _ _ H1), (@Rltb_false _ _ H2). reflexivity. }
  destruct (@get_feature_with_highest_shap_first_greatest
              [[Num 3; Num 0; Num 0]; [Num 1; Num (-2); Num 2]] lexical_table 1
              [1; -2; 2]%R "lex_len"%string (CFloat (Num 7)) eq_refl Hrun)
    as [j [v [Hcol [_ [_ [_ Hmax]]]]]].
  exists j, v. split; [exact Hcol|]. intros k Hk. apply (Hmax k Hk).
Defined.

(** ** The decision-tree feature *)

Lemma bool_eq_iff (a b : bool) : (a = true <-> b = true) -> a = b.
Proof.
  destruct a, b; intros [H1 H2]; auto; symmetry; auto.
Qed.

Lemma set_column_names cols n d c :
  In c (map fst (set_column cols n d)) <-> In c (map fst cols) \/ c = n.
Proof.
  induction cols as [|[m v] cols IH]; simpl.
  - intuition congruence.
  - destruct (String.eqb n m) eqn:E; simpl.
    + apply String.eqb_eq in E. subst m. intuition congruence.
    + rewrite IH. tauto.
Qed.

Lemma drop_columns_names names df c :
  In c (column_names (drop_columns names df))
  <-> In c (column_names df) /\ mem_string c names = false.
Proof.
  unfold column_names, drop_columns. cbn [columns].
  rewrite (map_fst_filter (fun c => negb (mem_string c names))), filter_In.
  now rewrite negb_true_iff.
Qed.

(** X18.  The decision-tree stage of the generic policy, when it returns,
    keeps the rows and every other column and adds 'dtree_prob'; but the six
    categorical features are dropped from the table in training mode and
    left in it in serving mode, so a serving table carries columns that the
    training table does not.  In training mode the fitted pipeline is on
    disk when the stage returns. *)
Theorem dtree_stage_train_serve_columns :
  forall (train_test_split : list (list cell) -> list pyobj -> result (list nat * list nat))
         (fit_pipeline : list (list cell) -> list pyobj -> result Pipeline)
         (cross_val_score : list (list cell) -> list pyobj -> result unit)
         (combined_df : DataFrame) (labels : list pyobj) (w w' : World) (df' : DataFrame),
    dtree_stage train_test_split fit_pipeline cross_val_score combined_df labels w
    = (Ok df', w') ->
    index df' = index combined_df /\
    has_column df' "dtree_prob" = true /\
    (forall c, ~ In c categorical_features -> has_column combined_df c = true ->
               has_column df' c = true) /\
    (forall c, In c categorical_features ->
               has_column df' c
               = if one_line_processing w then has_column combined_df c else false) /\
    (one_line_processing w = false ->
     exists p, model w' = Some p /\ model_file w' = Some p).
Proof.
  intros tts fit_p cvs combined_df labels0 w w' df'.
  unfold dtree_stage, bind, get. destruct (one_line_processing w) eqn:Hmode; cbn [negb].
  - destruct (load_model_kept w Hmode) as [-> _].
    destruct (model (snd (load_model w))) as [p|]; unfold raise, lift, ret;
      [|discriminate].
    destruct (on_table _ _); [|discriminate].
    destruct (rows_of a); [discriminate|]. intros H. inversion H. subst. clear H.
    cbn [index]. split; [reflexivity|]. split; [|split; [|split; [|discriminate]]].
    + apply has_column_In. unfold column_names. cbn [columns].
      apply set_column_names. now right.
    + intros c _ Hc. apply has_column_In. apply has_column_In in Hc.
      unfold column_names. cbn [columns]. apply set_column_names. now left.
    + intros c Hc. apply bool_eq_iff. rewrite !has_column_In.
      unfold column_names at 1. cbn [columns]. rewrite set_column_names.
      split; [|tauto]. intros [H|H]; [exact H|].
      subst c. exfalso. revert Hc. unfold categorical_features. simpl.
      intuition discriminate.
  - unfold lift, put, save_model, ret.
    destruct (select_columns combined_df categorical_features); [|discriminate].
    destruct (tts _ _) as [[tr te]|]; [|discriminate].
    destruct (fit_p _ _) as [p|]; [|discriminate].
    cbn [model models_dir set_model is_some fst snd].
    destruct (models_dir w); [|discriminate].
    destruct (cvs _ _); [|discriminate].
    intros H. inversion H. subst. clear H.
    split; [reflexivity|]. split; [|split; [|split]].
    + apply has_column_In. apply drop_columns_names. split; [|reflexivity].
      unfold column_names. cbn [columns]. apply set_column_names. now right.
    + intros c Hn Hc. apply has_column_In. apply has_column_In in Hc.
      apply drop_columns_names. split.
      * unfold column_names. cbn [columns]. apply set_column_names. now left.
      * destruct (mem_string c categorical_features) eqn:E; auto.
        apply mem_string_In in E. contradiction.
    + intros c Hc.
      destruct (has_column _ c) eqn:E; auto.
      apply has_column_In in E. apply drop_columns_names in E.
      apply mem_string_In in Hc. destruct E as [_ E]. congruence.
    + intros _. exists p. split; reflexivity.
Qed.

Lemma dtree_stage_train_serve_columns_witness :
  exists df' w',
    dtree_stage split_first_second fit_constant no_score categorical_table
      (as_objects (objects [PStr "benign:a"; PStr "phishing:b"]))
      (make_models_dir (init [] false "False" None None None))
    = (Ok df', w') /\
    column_names df' = ["domain_name"; "label"; "dtree_prob"]%string /\
    has_column df' "lex_tld_hash" = false.
Proof.
  set (run := dtree_stage split_first_second fit_constant no_score categorical_table
                (as_objects (objects [PStr "benign:a"; PStr "phishing:b"]))
                (make_models_dir (init [] false "False" None None None))).
  assert (Hrun : run
                 = (Ok (mkDataFrame [0; 1]%Z
                          [("domain_name"%string, objects [PStr "a.com"; PStr "b.org"]);
                           ("label"%string, objects [PStr "benign:a"; PStr "phishing:b"]);
                           ("dtree_prob"%string, float64s [Num (1 / 2); Num (1 / 2)])]),
                    snd run))
    by reflexivity.
  eexists. exists (snd run). split; [exact Hrun|]. split; [reflexivity|].
  refine (proj1 (proj2 (proj2 (proj2
            (@dtree_stage_train_serve_columns split_first_second fit_constant no_score
               categorical_table
               (as_objects (objects [PStr "benign:a"; PStr "phishing:b"]))
               (make_models_dir (init [] false "False" None None None)) _ _ Hrun))))
            "lex_tld_hash"%string _).
  unfold categorical_features. simpl. tauto.
Defined.

(** ** perform_eda: the shape of what it returns *)

Lemma bind_ok_inv {A B} (m : M A) (k : A -> M B) w b w' :
  bind m k w = (Ok b, w') ->
  exists a w1, m w = (Ok a, w1) /\ k a w1 = (Ok b, w').
Proof.
  unfold bind. destruct (m w) as [[a|e] w1]; [eauto | discriminate].
Qed.

Lemma nrows_take_rows order v : nrows (take_rows order v) = length order.
Proof. destruct v; simpl; apply length_map. Qed.

Lemma shuffle_wf sample_order df : wf_frame (shuffle sample_order df).
Proof.
  unfold wf_frame, shuffle, range_index. cbn [index columns].
  rewrite length_map, length_seq. apply Forall_map. apply Forall_forall.
  intros c _. cbn [snd]. apply nrows_take_rows.
Qed.

Lemma drop_columns_wf names df : wf_frame df -> wf_frame (drop_columns names df).
Proof.
  unfold wf_frame, drop_columns. cbn [index columns]. intros H.
  apply Forall_forall. intros c Hc. apply filter_In in Hc.
  rewrite Forall_forall in H. now apply H.
Qed.

Lemma set_column_wf cols name data n :
  Forall (fun c => nrows (snd c) = n) cols -> nrows data = n ->
  Forall (fun c => nrows (snd c) = n) (set_column cols name data).
Proof.
  intros H Hd. induction H as [|[m v] cols Hv Hcols IH]; simpl.
  - constructor; auto.
  - destruct (String.eqb name m); constructor; auto.
Qed.

Lemma set_nth_length {A} (a : A) : forall i l, length (set_nth i a l) = length l.
Proof. induction i as [|i IH]; intros [|x l]; simpl; auto. Qed.

Lemma assign_at_length : forall positions vals col,
  length (assign_at positions vals col) = length col.
Proof.
  induction positions as [|p ps IH]; intros [|v vals] col; simpl; auto.
  now rewrite IH, set_nth_length.
Qed.

Lemma dtree_stage_wf split fit_p score combined_df labels w df' w' :
  wf_frame combined_df ->
  dtree_stage split fit_p score combined_df labels w = (Ok df', w') ->
  wf_frame df' /\ index df' = index combined_df.
Proof.
  intros Hwf. unfold dtree_stage, bind, get.
  destruct (one_line_processing w) eqn:Hmode; cbn [negb].
  - destruct (load_model_kept w Hmode) as [-> _].
    destruct (model (snd (load_model w))) as [p|]; unfold raise, lift, ret;
      [|discriminate].
    destruct (on_table _ _); [|discriminate].
    destruct (rows_of a); [discriminate|]. intros H. inversion H. subst. clear H.
    split; [|reflexivity]. unfold wf_frame. cbn [index columns].
    apply set_column_wf; [exact Hwf|]. simpl. apply repeat_length.
  - unfold lift, put, save_model, ret.
    destruct (select_columns combined_df categorical_features); [|discriminate].
    destruct (split _ _) as [[tr te]|]; [|discriminate].
    destruct (fit_p _ _) as [p|]; [|discriminate].
    cbn [model models_dir set_model is_some fst snd].
    destruct (models_dir w); [|discriminate].
    destruct (score _ _); [|discriminate].
    intros H. inversion H. subst. clear H.
    split; [|reflexivity]. apply drop_columns_wf. unfold wf_frame. cbn [index columns].
    apply set_column_wf; [exact Hwf|]. simpl.
    now rewrite !assign_at_length, repeat_length.
Qed.

Lemma bools_to_float_wf cols n :
  Forall (fun c => nrows (snd c) = n) cols ->
  Forall (fun c => nrows (snd c) = n) (bools_to_float cols).
Proof.
  intros H. unfold bools_to_float. apply Forall_map.
  eapply Forall_impl; [|exact H]. intros [m v] Hv. simpl in *.
  destruct v; simpl in *; auto. now rewrite length_map.
Qed.

Lemma fillna_wf cols n :
  Forall (fun c => nrows (snd c) = n) cols ->
  Forall (fun c => nrows (snd c) = n) (fillna cols).
Proof.
  intros H. unfold fillna. apply Forall_map.
  eapply Forall_impl; [|exact H]. intros [m v] Hv. simpl in *.
  destruct v; simpl in *; auto; now rewrite length_map.
Qed.

Lemma as_objects_length v : length (as_objects v) = nrows v.
Proof. destruct v; simpl; auto; apply length_map. Qed.

Lemma apply_scaling_wf df scaler_type w df' w' :
  wf_frame df -> apply_scaling df scaler_type w = (Ok df', w') ->
  wf_frame df' /\ index df' = index df.
Proof.
  intros Hwf Hrun.
  destruct (apply_scaling_inv df scaler_type w df' w' Hrun) as [Y [-> [_ Hl]]].
  split; [|reflexivity]. unfold wf_frame, scaled_frame in *. cbn [index columns].
  apply Forall_app. split.
  - pose proof (numeric_columns_lengths _ _ Hwf) as Hnum. rewrite <- Hl in Hnum.
    rewrite Forall_map in Hnum. apply Forall_map. exact Hnum.
  - rewrite Forall_forall in *. intros c Hc. apply Hwf. now apply other_columns_In.
Qed.

Lemma to_tensor_lengths n : forall cols tensor,
  Forall (fun c => nrows (snd c) = n) cols ->
  to_tensor cols = Ok tensor ->
  Forall (fun column => length column = n) tensor /\ length tensor = length cols.
Proof.
  unfold to_tensor. induction cols as [|[m v] cols IH]; intros tensor Hwf H.
  - inversion H. split; [constructor | reflexivity].
  - cbn [mapM snd] in H. destruct v as [xs| |]; try discriminate.
    destruct (mapM _ cols) as [t|] eqn:E; [|discriminate].
    inversion H. subst. inversion Hwf as [|? ? Hv Hcols]. subst.
    destruct (IH t Hcols eq_refl) as [H1 H2]. split; [constructor; auto | simpl; lia].
Qed.

(** X19.  Whatever perform_eda returns, in either mode and under every
    policy, is aligned: each column of the feature tensor has exactly as
    many entries as the label tensor, and feature_names has one name per
    column of the feature tensor.  The steps in between (shuffle, the
    decision-tree feature, label encoding, the two column drops, fillna,
    outlier removal, scaling) never let features and labels drift apart. *)
Theorem perform_eda_result_aligned :
  forall (read_table : string -> result DataFrame)
         (cast : DataFrame -> DataFrame -> result DataFrame)
         (concat_tables : DataFrame -> DataFrame -> DataFrame)
         (sample_order : nat -> list nat)
         (train_test_split : list (list cell) -> list pyobj -> result (list nat * list nat))
         (fit_pipeline : list (list cell) -> list pyobj -> result Pipeline)
         (cross_val_score : list (list cell) -> list pyobj -> result unit)
         (dga_class_map : list (Z * string)) (zscore : list float64 -> list float)
         (model : option string) (apply_scaling_flag : bool)
         (w w' : World) (r : EdaResult),
    perform_eda read_table cast concat_tables sample_order train_test_split
                fit_pipeline cross_val_score dga_class_map zscore model apply_scaling_flag w
    = (Ok r, w') ->
    Forall (fun column => length column = length (labels r)) (features r) /\
    length (feature_names r) = length (features r).
Proof.
  intros read_table cast concat_tables sample_order tts fit_p cvs dcm zscore model flag w w' r H.
  unfold perform_eda in H.
  apply bind_ok_inv in H. destruct H as [w0 [w1 [_ H]]].
  apply bind_ok_inv in H. destruct H as [df0 [w2 [_ H]]]. cbv beta zeta in H.
  pose proof (shuffle_wf sample_order df0) as Hwf0.
  set (sdf := shuffle sample_order df0) in *. clearbody sdf.
  apply bind_ok_inv in H. destruct H as [labels0 [w3 [_ H]]].
  apply bind_ok_inv in H. destruct H as [cdf [w4 [Hstage H]]].
  assert (Hwf1 : wf_frame cdf).
  { destruct (negb _ && negb _).
    - eapply dtree_stage_wf; eauto.
    - unfold ret in Hstage. inversion Hstage. subst. exact Hwf0. }
  clear Hstage.
  apply bind_ok_inv in H. destruct H as [label_column [w5 [Hlab H]]].
  assert (Hlen : length label_column = length (index cdf)).
  { destruct (get_column (columns cdf) "label") as [l|] eqn:El; [|discriminate].
    unfold ret in Hlab. inversion Hlab. subst. rewrite as_objects_length.
    apply get_column_In in El. unfold wf_frame in Hwf1.
    rewrite Forall_forall in Hwf1. apply (Hwf1 _ El). }
  clear Hlab.
  apply bind_ok_inv in H. destruct H as [cm [w6 [_ H]]]. cbv beta zeta in H.
  apply bind_ok_inv in H. destruct H as [features1 [w7 [Hfeat H]]]. cbv beta zeta in H.
  assert (Hwf2 : wf_frame features1 /\ index features1 = index cdf).
  { cbn [columns index] in Hfeat.
    assert (Hb : Forall (fun c => nrows (snd c) = length (index cdf))
                        (bools_to_float (columns (drop_columns ["label"%string] cdf))))
      by (apply bools_to_float_wf; apply (drop_columns_wf ["label"%string] cdf Hwf1)).
    destruct (bools_to_float _) as [|[first v] rest] eqn:Eb; [discriminate|].
    unfold ret in Hfeat. inversion Hfeat. subst. split; [|reflexivity].
    apply (drop_columns_wf [first]
             (mkDataFrame (index cdf) ((first, v) :: rest))). exact Hb. }
  clear Hfeat. destruct Hwf2 as [Hwf2 Hidx2].
  apply bind_ok_inv in H. destruct H as [fl [w8 [Hout H]]]. cbv beta zeta in H.
  destruct fl as [features2 labels2]. cbn [fst snd] in H.
  destruct (remove_outliers_result _ _ _ _ _ _ _ Hout) as [items [_ [_ Hloop]]].
  apply drop_loop_aligned in Hloop.
  2: { unfold wf_frame. cbn [index columns]. apply fillna_wf. exact Hwf2. }
  2: { cbn [index sindex encode_labels]. congruence. }
  2: { cbn [svalues sindex encode_labels]. rewrite length_map. exact Hlen. }
  destruct Hloop as [Hwf3 [Hidx3 [Hlen3 _]]].
  apply bind_ok_inv in H. destruct H as [features3 [w9 [Hscale H]]].
  assert (Hwf4 : wf_frame features3 /\ index features3 = index features2).
  { destruct flag; [destruct model as [m|]|].
    - eapply apply_scaling_wf; eauto.
    - discriminate.
    - unfold ret in Hscale. inversion Hscale. subst. auto. }
  clear Hscale. destruct Hwf4 as [Hwf4 Hidx4].
  apply bind_ok_inv in H. destruct H as [tensor [w10 [Htensor H]]].
  unfold lift in Htensor. inversion Htensor as [Ht]. clear Htensor.
  unfold ret in H. inversion H. subst r. cbn [features labels feature_names].
  destruct (to_tensor_lengths _ _ _ Hwf4 Ht) as [H1 H2].
  split.
  - rewrite Hlen3, Hidx3, <- Hidx4. exact H1.
  - unfold column_names. now rewrite length_map, H2.
Qed.

Lemma perform_eda_result_aligned_witness :
  exists r,
    fst (run_perform_eda (Some "svm"%string) true scaling_serving_world) = Ok r /\
    Forall (fun column => length column = length (labels r)) (features r) /\
    length (feature_names r) = length (features r).
Proof.
  destruct (run_perform_eda (Some "svm"%string) true scaling_serving_world)
    as [res w'] eqn:E.
  assert (Hres : res = Ok (mkEdaResult [[Num (11 * 1 + 0)]] [0%Z] ["lex_len"%string]
                                       [("benign:x"%string, 0%Z)])).
  { change res with (fst (res, w')). rewrite <- E. reflexivity. }
  subst res. eexists. split; [reflexivity|].
  exact (@perform_eda_result_aligned no_table same_schema first_table (seq 0) no_split
           no_fit no_score [] single_record_zscore (Some "svm"%string) true scaling_serving_world w' _ E).
Defined.


(** ** Artifacts that cannot be written or replayed *)

(** X20.  The decision-tree stage does not create the models/ directory: in
    training mode on a machine where it does not exist yet, the stage fits
    the pipeline, keeps it in self.model, and then raises FileNotFoundError
    from save_model; no file is written. *)
Theorem dtree_stage_training_without_models_dir :
  forall (train_test_split : list (list cell) -> list pyobj -> result (list nat * list nat))
         (fit_pipeline : list (list cell) -> list pyobj -> result Pipeline)
         (cross_val_score : list (list cell) -> list pyobj -> result unit)
         (combined_df X_categorical : DataFrame) (labels : list pyobj) (w : World)
         (split : list nat * list nat) (dt_pipeline : Pipeline),
    one_line_processing w = false ->
    models_dir w = false ->
    select_columns combined_df categorical_features = Ok X_categorical ->
    train_test_split (rows_of X_categorical) labels = Ok split ->
    fit_pipeline (map (fun i => nth i (rows_of X_categorical) []) (fst split))
                 (map (fun i => nth i labels PNone) (fst split)) = Ok dt_pipeline ->
    exists msg w',
      dtree_stage train_test_split fit_pipeline cross_val_score combined_df labels w
      = (Raise (FileNotFoundError msg), w') /\
      model w' = Some dt_pipeline /\
      model_file w' = model_file w /\ scaler_file w' = scaler_file w /\
      outliers_file w' = outliers_file w /\ models_dir w' = false.
Proof.
  intros tts fit_p cvs combined_df X labels0 w split p Hmode Hdir Hsel Hsplit Hfit.
  unfold dtree_stage, bind, get. rewrite Hmode. cbn [negb].
  unfold lift, put, save_model. rewrite Hsel, Hsplit, Hfit.
  cbn [model models_dir set_model is_some]. rewrite Hdir.
  eexists. exists (set_model (Some p) w). split; [reflexivity|].
  cbn [model model_file scaler_file outliers_file models_dir set_model]. auto.
Qed.

Lemma dtree_stage_training_without_models_dir_witness :
  exists msg w',
    dtree_stage split_first_second fit_constant no_score categorical_table
      (as_objects (objects [PStr "benign:a"; PStr "phishing:b"]))
      (init [] false "False" None None None)
    = (Raise (FileNotFoundError msg), w') /\
    model_file w' = None.
Proof.
  destruct (@dtree_stage_training_without_models_dir split_first_second fit_constant
              no_score categorical_table _
              (as_objects (objects [PStr "benign:a"; PStr "phishing:b"]))
              (init [] false "False" None None None) _ _
              eq_refl eq_refl eq_refl eq_refl eq_refl)
    as [msg [w' [Hrun [_ [Hfile _]]]]].
  exists msg, w'. split; [exact Hrun | exact Hfile].
Defined.

Lemma names_eqb_neq a b : a <> b -> names_eqb a b = false.
Proof.
  intros Hne. destruct (names_eqb a b) eqn:E; auto.
  apply names_eqb_eq in E. contradiction.
Qed.

(** X21.  In serving mode the persisted scaler only accepts the columns it
    was fitted on: when the numeric columns of the frame are not, name by
    name and in order, those of the fit, apply_scaling raises scikit-learn's
    ValueError instead of scaling by position. *)
Theorem apply_scaling_serving_rejects_other_columns :
  forall (w : World) (df : DataFrame) (scaler_type : string) (s : Scaler)
         (parameters : list (string * (float64 * float64))),
    one_line_processing w = true ->
    scaler_file w = Some s ->
    fitted s = Some parameters ->
    numeric_columns (columns df) <> [] ->
    map fst parameters <> map fst (numeric_columns (columns df)) ->
    exists msg, fst (apply_scaling df scaler_type w) = Raise (ValueError msg).
Proof.
  intros w df t s ps Hmode Hfile Hfit HX Hnames.
  rewrite (@apply_scaling_serving_replay df t w s Hmode Hfile).
  unfold transform. rewrite Hfit.
  rewrite (names_eqb_neq _ _ Hnames).
  destruct (numeric_columns (columns df)); [congruence | eexists; reflexivity].
Qed.

Lemma apply_scaling_serving_rejects_other_columns_witness :
  exists msg,
    fst (apply_scaling scenario_B_table "MinMaxScaler"
           (init serving_record true "binary" (Some persisted_scaler) None None))
    = Raise (ValueError msg).
Proof.
  apply (@apply_scaling_serving_rejects_other_columns
           (init serving_record true "binary" (Some persisted_scaler) None None)
           scenario_B_table "MinMaxScaler" persisted_scaler
           [("lex_len"%string, (Num 0, Num 1))]); try reflexivity; discriminate.
Defined.
